(** * Fraud Risk Intelligence API: a shallow embedding of [backend/main.py]

    The FastAPI backend scores a transaction with a pre-trained classifier,
    stores the verdict in a MongoDB collection, reports dashboard counts and
    runs a background task that scores synthetic transactions.

    Python floats are IEEE-754 binary64 numbers; they are modelled with the
    executable specification [spec_float] of the standard library, so that
    the comparisons against the literals [0.75] and [0.40], the arithmetic of
    [random.uniform] and the rounding of [round] are the ones Python runs.
    Handlers are written in a state-and-exception monad over a [world] that
    holds the collection and the positions reached in the external sources
    (random generator, clock, database availability). *)

From Stdlib Require Import ZArith List String Bool Lia Arith.
From Stdlib Require Import SpecFloat.
From Stdlib Require Import Sorted Permutation.
Import ListNotations.

Local Open Scope string_scope.
Local Open Scope list_scope.
Local Open Scope Z_scope.

(** ** Python floats *)

Module PyFloat.

Definition float := spec_float.

Definition prec : Z := 53.
Definition emax : Z := 1024.

Definition valid (x : float) : bool := valid_binary prec emax x.

Definition is_nan (x : float) : bool :=
  match x with S754_nan => true | _ => false end.

(** [x > y], [x < y], [x <= y] on floats: false as soon as one side is NaN. *)
Definition gt (x y : float) : bool := SFltb y x.
Definition lt (x y : float) : bool := SFltb x y.
Definition le (x y : float) : bool := SFleb x y.

(** [float(n)] for a Python int. *)
Definition of_int (n : Z) : float := binary_normalize prec emax n 0 false.

Definition add (x y : float) : float := SFadd prec emax x y.
Definition mul (x y : float) : float := SFmul prec emax x y.

(** The float nearest to the fraction [n / d] of two non-negative integers
    ([d > 0]), with sign [s]: what [int / int] computes, and what reading a
    decimal string computes. *)
Definition of_ratio (s : bool) (n d : Z) : float :=
  match n, d with
  | Zpos pn, Zpos pd => SFdiv prec emax (S754_finite s pn 0) (S754_finite false pd 0)
  | _, _ => S754_zero s
  end.

(** [n / d] on Python ints, for [0 <= n] and [0 < d]. *)
Definition int_truediv (n d : Z) : float := of_ratio false n d.

(** Nearest integer to [n / d], ties to the even one ([0 <= n], [0 < d]). *)
Definition div_half_even (n d : Z) : Z :=
  let q := n / d in
  match (2 * (n mod d)) ?= d with
  | Lt => q
  | Gt => q + 1
  | Eq => if Z.even q then q else q + 1
  end.

(** [round(x, ndigits)] for [ndigits >= 0]: the exact value of [x] is
    rounded to [ndigits] decimals (ties to even) and the decimal result is
    read back as the nearest float.  Zeros, infinities and NaN are
    returned unchanged. *)
Definition round (x : float) (ndigits : Z) : float :=
  match x with
  | S754_finite s m e =>
      let p10 := 10 ^ ndigits in
      let q := if 0 <=? e then Zpos m * 2 ^ e * p10
               else div_half_even (Zpos m * p10) (2 ^ (- e)) in
      of_ratio s q p10
  | _ => x
  end.

(** The literals of the source, as the binary64 numbers Python reads. *)
Definition lit_0_75 : float := S754_finite false 6755399441055744 (-53).
Definition lit_0_40 : float := S754_finite false 7205759403792794 (-54).

End PyFloat.

Import PyFloat.

(** ** Python values, dicts and exceptions *)

(** The values that occur in the documents and JSON bodies of the program. *)
#[warnings="-register-all"]
Inductive value : Type :=
| VInt (n : Z)
| VFloat (x : float)
| VStr (s : string)
| VList (l : list value)
| VDict (d : list (string * value))
| VDatetime (t : Z)
| VObjectId (n : nat).

(** A Python dict with string keys, in insertion order. *)
Definition dict := list (string * value).

(** A dict whose values are all floats ([transaction.dict()] and the output
    of the generator). *)
Definition fdict := list (string * float).

Definition keys {A} (d : list (string * A)) : list string := map fst d.
Definition values {A} (d : list (string * A)) : list A := map snd d.

Fixpoint get {A} (k : string) (d : list (string * A)) : option A :=
  match d with
  | [] => None
  | (k', v) :: d' => if String.eqb k k' then Some v else get k d'
  end.

Definition has_key {A} (k : string) (d : list (string * A)) : bool :=
  match get k d with Some _ => true | None => false end.

Definition to_value (d : fdict) : value :=
  VDict (map (fun kv => (fst kv, VFloat (snd kv))) d).

Inductive exn : Type :=
| ModelError        (* raised inside [model.predict_proba] *)
| IndexError        (* subscript out of range *)
| PyMongoError.     (* the database call failed *)

(** ** The outside world *)

(** The classifier unpickled from [fraud_model.pkl].  [predict_proba] takes
    a two-dimensional array (one row per sample) and returns one row of class
    probabilities per sample, or raises. *)
Record Classifier : Type := {
  predict_proba : list (list float) -> option (list (list float));
  feature_importances_ : list float
}.

(** What the process reads from outside during a run.  Each source is a
    fixed sequence; the [world] records how far it has been consumed. *)
Record runtime : Type := {
  model : Classifier;
  (** [np.argsort] on a one-dimensional float array *)
  np_argsort : list float -> list nat;
  (** successive results of [random.random()] *)
  random_random : nat -> float;
  (** successive readings of [datetime.utcnow()] *)
  utcnow : nat -> Z;
  (** whether the n-th call to the MongoDB server succeeds *)
  mongo_up : nat -> bool
}.

Record world : Type := {
  collection : list dict;   (* fraud_db.transactions, oldest document first *)
  stdout : list string;     (* lines printed so far, oldest first *)
  random_calls : nat;
  clock_reads : nat;
  mongo_calls : nat
}.

Definition with_collection (c : list dict) (w : world) : world :=
  {| collection := c; stdout := stdout w; random_calls := random_calls w;
     clock_reads := clock_reads w; mongo_calls := mongo_calls w |}.

(** ** State and exception monad *)

Inductive outcome (A : Type) : Type :=
| Return (a : A)
| Raise (e : exn).
Arguments Return {A} a.
Arguments Raise {A} e.

Definition M (A : Type) : Type := world -> outcome A * world.

Definition ret {A} (a : A) : M A := fun w => (Return a, w).

Definition raise {A} (e : exn) : M A := fun w => (Raise e, w).

Definition bind {A B} (m : M A) (k : A -> M B) : M B :=
  fun w =>
    match m w with
    | (Return a, w') => k a w'
    | (Raise e, w') => (Raise e, w')
    end.

Declare Scope py_scope.
Delimit Scope py_scope with py.
Notation "x <- m ;; k" := (bind m (fun x => k))
  (at level 100, m at next level, right associativity) : py_scope.
Notation "m ;;; k" := (bind m (fun _ => k))
  (at level 100, right associativity) : py_scope.
Local Open Scope py_scope.

(** Lifting an [option] into the monad: [None] raises [e]. *)
Definition or_raise {A} (e : exn) (o : option A) : M A :=
  match o with Some a => ret a | None => raise e end.

(** [l[i]] for a non-negative index. *)
Definition getitem {A} (l : list A) (i : nat) : M A :=
  or_raise IndexError (nth_error l i).

(** [[f(x) for x in l]], left to right. *)
Fixpoint list_comp {A B} (f : A -> M B) (l : list A) : M (list B) :=
  match l with
  | [] => ret []
  | x :: l' => y <- f x ;; ys <- list_comp f l' ;; ret (y :: ys)
  end.

(** [l[-3:]]: the last three elements, or all of [l] when it is shorter. *)
Definition last3 {A} (l : list A) : list A := skipn (List.length l - 3)%nat l.

(** ** The request schema *)

(** [class TransactionInput(BaseModel)]: thirty float fields, in this order. *)
Record TransactionInput : Type := {
  Time : float; V1 : float; V2 : float; V3 : float; V4 : float; V5 : float;
  V6 : float; V7 : float; V8 : float; V9 : float; V10 : float; V11 : float;
  V12 : float; V13 : float; V14 : float; V15 : float; V16 : float;
  V17 : float; V18 : float; V19 : float; V20 : float; V21 : float;
  V22 : float; V23 : float; V24 : float; V25 : float; V26 : float;
  V27 : float; V28 : float; Amount : float
}.

(** [transaction.dict()]: the fields by name, in declaration order. *)
Definition TransactionInput_dict (t : TransactionInput) : fdict :=
  [("Time", Time t); ("V1", V1 t); ("V2", V2 t); ("V3", V3 t);
   ("V4", V4 t); ("V5", V5 t); ("V6", V6 t); ("V7", V7 t); ("V8", V8 t);
   ("V9", V9 t); ("V10", V10 t); ("V11", V11 t); ("V12", V12 t);
   ("V13", V13 t); ("V14", V14 t); ("V15", V15 t); ("V16", V16 t);
   ("V17", V17 t); ("V18", V18 t); ("V19", V19 t); ("V20", V20 t);
   ("V21", V21 t); ("V22", V22 t); ("V23", V23 t); ("V24", V24 t);
   ("V25", V25 t); ("V26", V26 t); ("V27", V27 t); ("V28", V28 t);
   ("Amount", Amount t)].

(** The names of the thirty fields. *)
Definition field_names : list string :=
  ["Time"; "V1"; "V2"; "V3"; "V4"; "V5"; "V6"; "V7"; "V8"; "V9"; "V10";
   "V11"; "V12"; "V13"; "V14"; "V15"; "V16"; "V17"; "V18"; "V19"; "V20";
   "V21"; "V22"; "V23"; "V24"; "V25"; "V26"; "V27"; "V28"; "Amount"].

(** ** The backend *)

Section Backend.

Variable rt : runtime.

(** *** External calls *)

Definition print (line : string) : M unit := fun w =>
  (Return tt,
   {| collection := collection w; stdout := stdout w ++ [line];
      random_calls := random_calls w; clock_reads := clock_reads w;
      mongo_calls := mongo_calls w |}).

Definition datetime_utcnow : M value := fun w =>
  (Return (VDatetime (utcnow rt (clock_reads w))),
   {| collection := collection w; stdout := stdout w;
      random_calls := random_calls w; clock_reads := S (clock_reads w);
      mongo_calls := mongo_calls w |}).

(** [random.uniform(a, b)] on two ints is [a + (b - a) * random()]. *)
Definition random_uniform (a b : Z) : M float := fun w =>
  (Return (add (of_int a) (mul (of_int (b - a)) (random_random rt (random_calls w)))),
   {| collection := collection w; stdout := stdout w;
      random_calls := S (random_calls w); clock_reads := clock_reads w;
      mongo_calls := mongo_calls w |}).

(** [await asyncio.sleep(5)]: the task is suspended; nothing the model
    tracks changes. *)
Definition asyncio_sleep (seconds : Z) : M unit := ret tt.

(** One round trip to the MongoDB server: the call counter advances, and
    the operation [op] takes place only if the server answers. *)
Definition mongo_call {A} (op : list dict -> A * list dict) : M A := fun w =>
  let n := mongo_calls w in
  let w' := {| collection := collection w; stdout := stdout w;
               random_calls := random_calls w; clock_reads := clock_reads w;
               mongo_calls := S n |} in
  if mongo_up rt n then
    let (a, c) := op (collection w) in (Return a, with_collection c w')
  else (Raise PyMongoError, w').

(** [collection.insert_one(doc)]: the driver gives the document an [_id]
    and the server appends it. *)
Definition insert_one (doc : dict) : M unit := fun w =>
  mongo_call (fun c => (tt, c ++ [("_id", VObjectId (mongo_calls w)) :: doc])) w.

(** The projection [{"_id": 0}]. *)
Definition without_id (doc : dict) : dict :=
  filter (fun kv => negb (String.eqb (fst kv) "_id")) doc.

(** [list(collection.find({}, {"_id": 0}))] *)
Definition find_all_without_id : M (list dict) :=
  mongo_call (fun c => (map without_id c, c)).

(** A query [{key: text}] selects the documents whose field [key] is the
    string [text], or an array that contains it. *)
Definition field_matches (text : string) (v : value) : bool :=
  match v with
  | VStr s => String.eqb s text
  | VList l =>
      existsb (fun x => match x with VStr s => String.eqb s text | _ => false end) l
  | _ => false
  end.

Definition matches (query : list (string * string)) (doc : dict) : bool :=
  forallb (fun kt => match get (fst kt) doc with
                     | Some v => field_matches (snd kt) v
                     | None => false
                     end) query.

Definition count (query : list (string * string)) (c : list dict) : Z :=
  Z.of_nat (List.length (filter (matches query) c)).

(** [collection.count_documents(query)] *)
Definition count_documents (query : list (string * string)) : M Z :=
  mongo_call (fun c => (count query c, c)).

(** *** [POST /score-transaction] *)

Definition score_transaction (transaction : TransactionInput) : M dict :=
  let features := [values (TransactionInput_dict transaction)] in
  proba <- or_raise ModelError (predict_proba (model rt) features) ;;
  row <- getitem proba 0 ;;
  probability <- getitem row 1 ;;
  let '(risk_level, decision) :=
    if gt probability lit_0_75 then ("High", "Block")
    else if gt probability lit_0_40 then ("Medium", "Review")
    else ("Low", "Approve") in
  let feature_names := keys (TransactionInput_dict transaction) in
  let importances := feature_importances_ (model rt) in
  let top_indices := last3 (np_argsort rt importances) in
  top_features <- list_comp (getitem feature_names) top_indices ;;
  now <- datetime_utcnow ;;
  insert_one
    [("input", to_value (TransactionInput_dict transaction));
     ("fraud_probability", VFloat (round probability 4));
     ("risk_level", VStr risk_level);
     ("decision", VStr decision);
     ("top_risk_indicators", VList (map VStr top_features));
     ("timestamp", now)] ;;;
  ret [("fraud_probability", VFloat (round probability 4));
       ("risk_level", VStr risk_level);
       ("decision", VStr decision);
       ("top_risk_indicators", VList (map VStr top_features))].

(** *** [GET /transactions] *)

Definition get_transactions : M (list dict) :=
  data <- find_all_without_id ;;
  ret data.

(** *** [GET /dashboard] *)

Definition dashboard_summary : M dict :=
  total <- count_documents [] ;;
  high <- count_documents [("risk_level", "High")] ;;
  medium <- count_documents [("risk_level", "Medium")] ;;
  low <- count_documents [("risk_level", "Low")] ;;
  approved <- count_documents [("decision", "Approve")] ;;
  blocked <- count_documents [("decision", "Block")] ;;
  review <- count_documents [("decision", "Review")] ;;
  let approval_rate :=
    if 0 <? total
    then VFloat (round (mul (int_truediv approved total) (of_int 100)) 2)
    else VInt 0 in
  ret [("total_transactions", VInt total);
       ("risk_distribution",
        VDict [("high", VInt high); ("medium", VInt medium); ("low", VInt low)]);
       ("decision_distribution",
        VDict [("approved", VInt approved); ("blocked", VInt blocked);
               ("review", VInt review)]);
       ("approval_rate_percent", approval_rate)].

(** *** The background generator *)

Definition generate_random_transaction : M fdict :=
  time <- random_uniform 0 100000 ;;
  v1 <- random_uniform (-5) 5 ;;
  v2 <- random_uniform (-5) 5 ;;
  v3 <- random_uniform (-5) 5 ;;
  v4 <- random_uniform (-5) 5 ;;
  v5 <- random_uniform (-5) 5 ;;
  v6 <- random_uniform (-5) 5 ;;
  v7 <- random_uniform (-5) 5 ;;
  v8 <- random_uniform (-5) 5 ;;
  v9 <- random_uniform (-5) 5 ;;
  v10 <- random_uniform (-5) 5 ;;
  v11 <- random_uniform (-5) 5 ;;
  v12 <- random_uniform (-5) 5 ;;
  v13 <- random_uniform (-5) 5 ;;
  v14 <- random_uniform (-5) 5 ;;
  v15 <- random_uniform (-5) 5 ;;
  v16 <- random_uniform (-5) 5 ;;
  v17 <- random_uniform (-5) 5 ;;
  v18 <- random_uniform (-5) 5 ;;
  v19 <- random_uniform (-5) 5 ;;
  v20 <- random_uniform (-5) 5 ;;
  v21 <- random_uniform (-5) 5 ;;
  v22 <- random_uniform (-5) 5 ;;
  v23 <- random_uniform (-5) 5 ;;
  v24 <- random_uniform (-5) 5 ;;
  v25 <- random_uniform (-5) 5 ;;
  v26 <- random_uniform (-5) 5 ;;
  v27 <- random_uniform (-5) 5 ;;
  v28 <- random_uniform (-5) 5 ;;
  amount <- random_uniform 1 10000 ;;
  ret [("Time", time); ("V1", v1); ("V2", v2); ("V3", v3); ("V4", v4);
       ("V5", v5); ("V6", v6); ("V7", v7); ("V8", v8); ("V9", v9);
       ("V10", v10); ("V11", v11); ("V12", v12); ("V13", v13);
       ("V14", v14); ("V15", v15); ("V16", v16); ("V17", v17);
       ("V18", v18); ("V19", v19); ("V20", v20); ("V21", v21);
       ("V22", v22); ("V23", v23); ("V24", v24); ("V25", v25);
       ("V26", v26); ("V27", v27); ("V28", v28); ("Amount", amount)].

(** One pass through the body of [while True] in
    [auto_generate_transactions]. *)
Definition loop_body : M unit :=
  transaction <- generate_random_transaction ;;
  let features := [values transaction] in
  proba <- or_raise ModelError (predict_proba (model rt) features) ;;
  row <- getitem proba 0 ;;
  probability <- getitem row 1 ;;
  let '(risk_level, decision) :=
    if gt probability lit_0_75 then ("High", "Block")
    else if gt probability lit_0_40 then ("Medium", "Review")
    else ("Low", "Approve") in
  now <- datetime_utcnow ;;
  insert_one
    [("input", to_value transaction);
     ("fraud_probability", VFloat (round probability 4));
     ("risk_level", VStr risk_level);
     ("decision", VStr decision);
     ("timestamp", now)] ;;;
  print "Auto transaction generated" ;;;
  asyncio_sleep 5.

(** The coroutine never returns; it is observed for a number of
    iterations.  [Return tt] means that the task is still alive after
    them, [Raise e] that an exception left the loop and ended the task. *)
Fixpoint auto_generate_transactions (iterations : nat) : M unit :=
  match iterations with
  | O => ret tt
  | S n => loop_body ;;; auto_generate_transactions n
  end.

End Backend.

(** *** [GET /] *)

Definition home : M dict :=
  ret [("message", VStr "Fraud Risk Intelligence API Running")].

(** *** The HTTP layer *)

(** FastAPI answers 200 with the handler's return value, and 500 when an
    exception leaves the handler. *)
Inductive http_response : Type :=
| HTTP_200 (body : value)
| HTTP_500.

Definition endpoint {A} (to_json : A -> value) (handler : M A)
  : world -> http_response * world :=
  fun w =>
    match handler w with
    | (Return a, w') => (HTTP_200 (to_json a), w')
    | (Raise _, w') => (HTTP_500, w')
    end.

Definition post_score_transaction (rt : runtime) (t : TransactionInput) :=
  endpoint VDict (score_transaction rt t).

Definition get_dashboard (rt : runtime) := endpoint VDict (dashboard_summary rt).

Definition get_transactions_endpoint (rt : runtime) :=
  endpoint (fun data => VList (map VDict data)) (get_transactions rt).

(** *** Runs of the system *)

(** One action of the process: a request is served, or the background task
    goes once through its loop. *)
Inductive step (rt : runtime) : world -> world -> Prop :=
| step_score (t : TransactionInput) (w : world) :
    step rt w (snd (score_transaction rt t w))
| step_transactions (w : world) :
    step rt w (snd (get_transactions rt w))
| step_dashboard (w : world) :
    step rt w (snd (dashboard_summary rt w))
| step_loop (w : world) :
    step rt w (snd (loop_body rt w)).

(** The worlds the system reaches from an empty collection. *)
Inductive reachable (rt : runtime) : world -> Prop :=
| reachable_start (w : world) : collection w = [] -> reachable rt w
| reachable_step (w w' : world) : reachable rt w -> step rt w w' -> reachable rt w'.

(** A run: any number of actions, one after the other. *)
Inductive steps (rt : runtime) : world -> world -> Prop :=
| steps_refl (w : world) : steps rt w w
| steps_step (w w' w'' : world) : steps rt w w' -> step rt w' w'' -> steps rt w w''.

(** ** Contracts of the libraries *)

(** The order [np.sort] and [np.argsort] use on floats: the usual order,
    with NaN after every number. *)
Definition np_lt (x y : float) : bool :=
  lt x y || (is_nan y && negb (is_nan x)).

Definition np_le (x y : float) : bool := negb (np_lt y x).

Definition weight (ws : list float) (i : nat) : float := nth i ws S754_nan.

(** [np.argsort(ws)] returns the indices of [ws], each once, ordered by
    non-decreasing weight.  How equal weights are ordered is left open. *)
Definition argsort_contract (argsort : list float -> list nat) : Prop :=
  forall ws : list float,
    Permutation (argsort ws) (seq 0 (List.length ws)) /\
    StronglySorted (fun i j => np_le (weight ws i) (weight ws j) = true) (argsort ws).

(** [random.random()] returns a float in [[0.0, 1.0)]. *)
Definition in_unit_interval (r : float) : bool :=
  valid r && le (of_int 0) r && lt r (of_int 1).

Definition random_contract (rt : runtime) : Prop :=
  forall n : nat, in_unit_interval (random_random rt n) = true.

(** ** Notions used in the statements *)

(** The fraud probability the classifier gives a sample: entry [[0][1]] of
    [predict_proba] on the one-row array. *)
Definition fraud_probability (m : Classifier) (sample : list float) : option float :=
  match predict_proba m [sample] with
  | Some (row :: _) => nth_error row 1
  | _ => None
  end.

(** The names at the given positions, when every position is in range: the
    value of [[names[i] for i in positions]]. *)
Fixpoint names_at (names : list string) (positions : list nat) : option (list string) :=
  match positions with
  | [] => Some []
  | i :: rest =>
      match nth_error names i, names_at names rest with
      | Some x, Some xs => Some (x :: xs)
      | _, _ => None
      end
  end.

(** The two branches of the bucketing, as a value: the pair that the
    [if]/[elif]/[else] of either scoring path assigns. *)
Definition assigned (probability : float) : string * string :=
  if gt probability lit_0_75 then ("High", "Block")
  else if gt probability lit_0_40 then ("Medium", "Review")
  else ("Low", "Approve").

(** The outcome a handler leaves in the response or in a document. *)
Definition verdict_is (d : dict) (risk_level decision : string) : Prop :=
  get "risk_level" d = Some (VStr risk_level) /\
  get "decision" d = Some (VStr decision).

(** The verdict fields that both paths store. *)
Definition scored_fields : list string :=
  ["fraud_probability"; "risk_level"; "decision"].

(** The verdict fields of the response of [score_transaction]. *)
Definition response_fields : list string :=
  ["fraud_probability"; "risk_level"; "decision"; "top_risk_indicators"].

(** The world after a successful [insert_one(doc)] that followed one clock
    reading. *)
Definition after_insert (rt : runtime) (doc : dict) (w : world) : world :=
  {| collection := collection w ++ [("_id", VObjectId (mongo_calls w)) :: doc];
     stdout := stdout w; random_calls := random_calls w;
     clock_reads := S (clock_reads w); mongo_calls := S (mongo_calls w) |}.

(** The world after one more call to the database that left the
    collection alone. *)
Definition after_query (w : world) : world :=
  {| collection := collection w; stdout := stdout w;
     random_calls := random_calls w; clock_reads := clock_reads w;
     mongo_calls := S (mongo_calls w) |}.

(** The world after [k] more draws from the random source. *)
Definition after_draws (k : nat) (w : world) : world :=
  {| collection := collection w; stdout := stdout w;
     random_calls := (k + random_calls w)%nat; clock_reads := clock_reads w;
     mongo_calls := mongo_calls w |}.

(** The value [random.uniform(a, b)] computes from the draw [r] of
    [random.random()]. *)
Definition uniform (a b : Z) (r : float) : float :=
  add (of_int a) (mul (of_int (b - a)) r).

(** The transaction the generator builds from the thirty draws that start
    at position [n] of the random source. *)
Definition generated (rt : runtime) (n : nat) : fdict :=
  let draw i := random_random rt (i + n)%nat in
  [("Time", uniform 0 100000 (draw 0%nat)); ("V1", uniform (-5) 5 (draw 1%nat));
   ("V2", uniform (-5) 5 (draw 2%nat)); ("V3", uniform (-5) 5 (draw 3%nat));
   ("V4", uniform (-5) 5 (draw 4%nat)); ("V5", uniform (-5) 5 (draw 5%nat));
   ("V6", uniform (-5) 5 (draw 6%nat)); ("V7", uniform (-5) 5 (draw 7%nat));
   ("V8", uniform (-5) 5 (draw 8%nat)); ("V9", uniform (-5) 5 (draw 9%nat));
   ("V10", uniform (-5) 5 (draw 10%nat)); ("V11", uniform (-5) 5 (draw 11%nat));
   ("V12", uniform (-5) 5 (draw 12%nat)); ("V13", uniform (-5) 5 (draw 13%nat));
   ("V14", uniform (-5) 5 (draw 14%nat)); ("V15", uniform (-5) 5 (draw 15%nat));
   ("V16", uniform (-5) 5 (draw 16%nat)); ("V17", uniform (-5) 5 (draw 17%nat));
   ("V18", uniform (-5) 5 (draw 18%nat)); ("V19", uniform (-5) 5 (draw 19%nat));
   ("V20", uniform (-5) 5 (draw 20%nat)); ("V21", uniform (-5) 5 (draw 21%nat));
   ("V22", uniform (-5) 5 (draw 22%nat)); ("V23", uniform (-5) 5 (draw 23%nat));
   ("V24", uniform (-5) 5 (draw 24%nat)); ("V25", uniform (-5) 5 (draw 25%nat));
   ("V26", uniform (-5) 5 (draw 26%nat)); ("V27", uniform (-5) 5 (draw 27%nat));
   ("V28", uniform (-5) 5 (draw 28%nat)); ("Amount", uniform 1 10000 (draw 29%nat))].

(** [lo <= x <= hi] for int bounds. *)
Definition between (lo hi : Z) (x : float) : bool :=
  le (of_int lo) x && le x (of_int hi).

(** The range the generator gives each field. *)
Definition field_range (name : string) : Z * Z :=
  if String.eqb name "Time" then (0, 100000)
  else if String.eqb name "Amount" then (1, 10000)
  else (-5, 5).

Definition in_range (kv : string * float) : bool :=
  between (fst (field_range (fst kv))) (snd (field_range (fst kv))) (snd kv).

(** The counts of the three risk levels, and of the three decisions, add up
    to the number of documents. *)
Definition balanced (c : list dict) : Prop :=
  count [("risk_level", "High")] c + count [("risk_level", "Medium")] c
  + count [("risk_level", "Low")] c = count [] c /\
  count [("decision", "Approve")] c + count [("decision", "Block")] c
  + count [("decision", "Review")] c = count [] c.

(** The summary built from the seven counts. *)
Definition summary (total high medium low approved blocked review : Z) : dict :=
  [("total_transactions", VInt total);
   ("risk_distribution",
    VDict [("high", VInt high); ("medium", VInt medium); ("low", VInt low)]);
   ("decision_distribution",
    VDict [("approved", VInt approved); ("blocked", VInt blocked);
           ("review", VInt review)]);
   ("approval_rate_percent",
    if 0 <? total
    then VFloat (round (mul (int_truediv approved total) (of_int 100)) 2)
    else VInt 0)].

(** [approval_rate_percent] as the specification words it. *)
Definition specified_rate (approved total : Z) : value :=
  if total =? 0 then VInt 0
  else VFloat (round (mul (int_truediv approved total) (of_int 100)) 2).

(** [i], [j], [k] are three distinct positions of [ws] that hold its three
    largest weights, in non-decreasing order: every other position holds a
    weight that is at most the one at [i]. *)
Definition three_largest (ws : list float) (i j k : nat) : Prop :=
  NoDup [i; j; k] /\
  (i < List.length ws)%nat /\ (j < List.length ws)%nat /\ (k < List.length ws)%nat /\
  np_le (weight ws i) (weight ws j) = true /\
  np_le (weight ws j) (weight ws k) = true /\
  forall m : nat, (m < List.length ws)%nat -> m <> i -> m <> j -> m <> k ->
                  np_le (weight ws m) (weight ws i) = true.

(** The three verdicts of the bucketing: a risk level with its decision. *)
Definition verdicts : list (string * string) :=
  [("High", "Block"); ("Medium", "Review"); ("Low", "Approve")].

Definition has_verdict (risk_level decision : string) (doc : dict) : bool :=
  match get "risk_level" doc, get "decision" doc with
  | Some (VStr r), Some (VStr d) => String.eqb r risk_level && String.eqb d decision
  | _, _ => false
  end.

(** The document carries one of the three verdicts. *)
Definition paired (doc : dict) : bool :=
  existsb (fun rd => has_verdict (fst rd) (snd rd) doc) verdicts.

(** The keys of the documents the two paths store, as the collection holds
    them. *)
Definition handler_keys : list string :=
  ["_id"; "input"; "fraud_probability"; "risk_level"; "decision";
   "top_risk_indicators"; "timestamp"].

Definition generator_keys : list string :=
  ["_id"; "input"; "fraud_probability"; "risk_level"; "decision"; "timestamp"].

(** A stored record: the keys of one of the two paths, an [input] with the
    thirty fields, a float probability, one of the three verdicts and a
    timestamp. *)
Definition well_formed (doc : dict) : Prop :=
  (keys doc = handler_keys \/ keys doc = generator_keys) /\
  (exists input : fdict,
      get "input" doc = Some (to_value input) /\ keys input = field_names) /\
  (exists x : float, get "fraud_probability" doc = Some (VFloat x)) /\
  paired doc = true /\
  (exists t : Z, get "timestamp" doc = Some (VDatetime t)).

(** What an answered request adds to the count of the documents whose
    field is [text], given the field of the response. *)
Definition bump (text : string) (field : option value) : Z :=
  match field with
  | Some (VStr s) => if String.eqb s text then 1 else 0
  | _ => 0
  end.

(** The line the background task prints after each stored document. *)
Definition loop_message : string := "Auto transaction generated".

(** ** Concrete runtimes, for running the model *)

(** An argsort by insertion; equal weights keep their index order. *)
Fixpoint insert_index (ws : list float) (i : nat) (l : list nat) : list nat :=
  match l with
  | [] => [i]
  | j :: l' =>
      if np_lt (weight ws j) (weight ws i) then j :: insert_index ws i l'
      else i :: l
  end.

Definition insertion_argsort (ws : list float) : list nat :=
  fold_right (insert_index ws) [] (seq 0 (List.length ws)).

(** A classifier that gives every sample the fraud probability [p], unless
    the sample's [Amount] (last feature) is negative, which it rejects. *)
Definition stub_classifier (p : float) (importances : list float) : Classifier :=
  {| predict_proba := fun rows =>
       if existsb (fun row => lt (last row S754_nan) (of_int 0)) rows then None
       else Some (map (fun _ => [add (of_int 1) (SFopp p); p]) rows);
     feature_importances_ := importances |}.

(** Thirty importances [1/465, 2/465, ..., 30/465]. *)
Definition stub_importances : list float :=
  map (fun i => of_ratio false (Z.of_nat i) 465) (seq 1 30).

Definition stub_runtime (p : float) : runtime :=
  {| model := stub_classifier p stub_importances;
     np_argsort := insertion_argsort;
     random_random := fun n => of_ratio false (Z.of_nat (n mod 7)) 8;
     utcnow := fun n => 1700000000 + 5 * Z.of_nat n;
     mongo_up := fun _ => true |}.

(** A classifier like [stub_classifier] that instead rejects the samples
    whose [Time] (first feature) is zero. *)
Definition picky_classifier (p : float) (importances : list float) : Classifier :=
  {| predict_proba := fun rows =>
       if existsb (fun row => match row with S754_zero _ :: _ => true | _ => false end) rows
       then None
       else Some (map (fun _ => [add (of_int 1) (SFopp p); p]) rows);
     feature_importances_ := importances |}.

Definition picky_runtime (p : float) : runtime :=
  {| model := picky_classifier p stub_importances;
     np_argsort := insertion_argsort;
     random_random := fun n => of_ratio false (Z.of_nat (n mod 7)) 8;
     utcnow := fun n => 1700000000 + 5 * Z.of_nat n;
     mongo_up := fun _ => true |}.

(** A runtime whose database refuses the first call only. *)
Definition outage_runtime (p : float) : runtime :=
  {| model := stub_classifier p stub_importances;
     np_argsort := insertion_argsort;
     random_random := fun n => of_ratio false (Z.of_nat (n mod 7)) 8;
     utcnow := fun n => 1700000000 + 5 * Z.of_nat n;
     mongo_up := fun n => negb (Nat.eqb n 0) |}.

Definition empty_world : world :=
  {| collection := []; stdout := []; random_calls := 0; clock_reads := 0;
     mongo_calls := 0 |}.

(** The transaction with [Time = 0], every [Vi = 0] and [Amount = 100]. *)
Definition example_transaction : TransactionInput :=
  let z := of_int 0 in
  Build_TransactionInput z z z z z z z z z z z z z z z z z z z z z z z z z z z z z
    (of_int 100).

(** [example_transaction] with [Amount = -1]. *)
Definition rejected_transaction : TransactionInput :=
  let z := of_int 0 in
  Build_TransactionInput z z z z z z z z z z z z z z z z z z z z z z z z z z z z z
    (of_int (-1)).

(** The [TransactionInput] whose fields are the values [l], in field order. *)
Definition TransactionInput_of_values (l : list float) : TransactionInput :=
  let z := S754_zero false in
  Build_TransactionInput
    (nth 0%nat l z) (nth 1%nat l z) (nth 2%nat l z) (nth 3%nat l z) (nth 4%nat l z) (nth 5%nat l z)
    (nth 6%nat l z) (nth 7%nat l z) (nth 8%nat l z) (nth 9%nat l z) (nth 10%nat l z) (nth 11%nat l z)
    (nth 12%nat l z) (nth 13%nat l z) (nth 14%nat l z) (nth 15%nat l z) (nth 16%nat l z)
    (nth 17%nat l z) (nth 18%nat l z) (nth 19%nat l z) (nth 20%nat l z) (nth 21%nat l z)
    (nth 22%nat l z) (nth 23%nat l z) (nth 24%nat l z) (nth 25%nat l z) (nth 26%nat l z)
    (nth 27%nat l z) (nth 28%nat l z) (nth 29%nat l z).

Definition lit_0_9 : float := of_ratio false 9 10.
Definition lit_0_5 : float := of_ratio false 1 2.
Definition lit_0_3 : float := of_ratio false 3 10.

(** The largest float below one, [1 - 2^-53]. *)
Definition largest_draw : float := S754_finite false 9007199254740991 (-53).

(** A runtime whose classifier was trained on one feature more than the
    request schema has; the extra feature carries the largest importance. *)
Definition wide_runtime (p : float) : runtime :=
  {| model := stub_classifier p (stub_importances ++ [of_int 1]);
     np_argsort := insertion_argsort;
     random_random := fun n => of_ratio false (Z.of_nat (n mod 7)) 8;
     utcnow := fun n => 1700000000 + 5 * Z.of_nat n;
     mongo_up := fun _ => true |}.

(** ** Auxiliary definitions of the proofs *)

(** A key whose lexicographic order is numpy's order on floats: negative
    infinity, negative numbers, zeros, positive numbers, positive infinity,
    NaN. *)
Definition order_key (x : float) : Z * Z * Z :=
  match x with
  | S754_infinity true => (0, 0, 0)
  | S754_finite true m e => (1, - e, - Zpos m)
  | S754_zero _ => (2, 0, 0)
  | S754_finite false m e => (3, e, Zpos m)
  | S754_infinity false => (4, 0, 0)
  | S754_nan => (5, 0, 0)
  end.

Definition lex_lt (a b : Z * Z * Z) : Prop :=
  let '(a1, a2, a3) := a in
  let '(b1, b2, b3) := b in
  a1 < b1 \/ (a1 = b1 /\ (a2 < b2 \/ (a2 = b2 /\ a3 < b3))).

Ltac split_compare :=
  repeat match goal with
    | |- context [Pos.compare_cont Eq ?a ?b] =>
        change (Pos.compare_cont Eq a b) with (Pos.compare a b);
        destruct (Pos.compare_spec a b)
    | |- context [Z.compare ?a ?b] => destruct (Z.compare_spec a b)
    end.

(** Every binary64 number, and every exact product of two of them, is an
    integer multiple of [2 ^ (- offset)]. *)
Definition offset : Z := 2148.

(** The value [m * 2 ^ e], times [2 ^ offset]: an integer for [- offset <= e]. *)
Definition scaled (m e : Z) : Z := m * 2 ^ (e + offset).

(** Whether a shift has dropped a non-zero bit. *)
Definition inexact (mrs : shr_record) : bool := (shr_r mrs || shr_s mrs)%bool.

(** [lia] on the hypotheses that hold no power of two. *)
Ltac clear_pow :=
  repeat match goal with H : context [Z.pow _ _] |- _ => clear H end.
Ltac plia := clear_pow; lia.

(** The location of a value between two mantissas, as the two bits that
    follow the mantissa. *)
Definition loc_code (l : location) : Z :=
  match l with
  | loc_Exact => 0
  | loc_Inexact Lt => 1
  | loc_Inexact Eq => 2
  | loc_Inexact Gt => 3
  end.

(** * Properties *)

(** ** The order on floats *)

Lemma np_lt_lex (x y : float) :
  np_lt x y = true <-> lex_lt (order_key x) (order_key y).
Proof.
  unfold np_lt, lt, SFltb, SFcompare, is_nan, lex_lt, order_key.
  destruct x as [[]|[]| |[] mx ex], y as [[]|[]| |[] my ey]; cbn;
    split_compare; cbn; split; intros; try discriminate; try reflexivity;
    try lia.
Qed.

Lemma np_lt_false_lex (x y : float) :
  np_lt x y = false <-> ~ lex_lt (order_key x) (order_key y).
Proof.
  rewrite <- np_lt_lex. destruct (np_lt x y); split; congruence.
Qed.

Lemma lex_lt_trans (a b c : Z * Z * Z) : lex_lt a b -> lex_lt b c -> lex_lt a c.
Proof.
  destruct a as [[a1 a2] a3], b as [[b1 b2] b3], c as [[c1 c2] c3].
  unfold lex_lt. lia.
Qed.

Lemma lex_lt_total (a b : Z * Z * Z) : lex_lt a b \/ a = b \/ lex_lt b a.
Proof.
  destruct a as [[a1 a2] a3], b as [[b1 b2] b3]. unfold lex_lt.
  destruct (Z.lt_total a1 b1) as [|[|]]; [lia | | lia].
  destruct (Z.lt_total a2 b2) as [|[|]]; [lia | | lia].
  destruct (Z.lt_total a3 b3) as [|[|]]; [lia | | lia].
  right; left; congruence.
Qed.

Lemma lex_lt_irrefl (a : Z * Z * Z) : ~ lex_lt a a.
Proof. destruct a as [[a1 a2] a3]. unfold lex_lt. lia. Qed.

Lemma np_le_total (x y : float) : np_le x y = false -> np_le y x = true.
Proof.
  unfold np_le. rewrite negb_false_iff, negb_true_iff, np_lt_lex, np_lt_false_lex.
  intros H1 H2. exact (lex_lt_irrefl _ (lex_lt_trans _ _ _ H1 H2)).
Qed.

Lemma np_le_trans (x y z : float) :
  np_le x y = true -> np_le y z = true -> np_le x z = true.
Proof.
  unfold np_le. rewrite !negb_true_iff, !np_lt_false_lex.
  intros Hxy Hyz Hzx.
  destruct (lex_lt_total (order_key y) (order_key z)) as [H|[H|H]].
  - apply Hxy. exact (lex_lt_trans _ _ _ H Hzx).
  - rewrite <- H in Hzx. contradiction.
  - contradiction.
Qed.

Lemma np_le_refl (x : float) : np_le x x = true.
Proof.
  unfold np_le. rewrite negb_true_iff, np_lt_false_lex. apply lex_lt_irrefl.
Qed.

(** On numbers (no NaN), Python's comparisons read off the same key. *)
Lemma gt_lex (x y : float) :
  gt x y = true <-> (lex_lt (order_key y) (order_key x) /\ is_nan x = false /\ is_nan y = false).
Proof.
  unfold gt, SFltb, SFcompare, is_nan, lex_lt, order_key.
  destruct x as [[]|[]| |[] mx ex], y as [[]|[]| |[] my ey]; cbn;
    split_compare; cbn; split; intros; try discriminate; try reflexivity;
    try lia; try (repeat split; (reflexivity || lia)).
Qed.

Lemma le_lex (x y : float) :
  le x y = true <-> (~ lex_lt (order_key y) (order_key x) /\ is_nan x = false /\ is_nan y = false).
Proof.
  unfold le, SFleb, SFcompare, is_nan, lex_lt, order_key.
  destruct x as [[]|[]| |[] mx ex], y as [[]|[]| |[] my ey]; cbn;
    split_compare; cbn; split; intros; try discriminate; try reflexivity;
    try lia; try (repeat split; (reflexivity || lia)).
Qed.

(** ** Running the monad *)

Lemma bind_return {A B} (m : M A) (k : A -> M B) (w w' : world) (a : A) :
  m w = (Return a, w') -> bind m k w = k a w'.
Proof. unfold bind. intros ->. reflexivity. Qed.

Lemma bind_raise {A B} (m : M A) (k : A -> M B) (w w' : world) (e : exn) :
  m w = (Raise e, w') -> bind m k w = (Raise e, w').
Proof. unfold bind. intros ->. reflexivity. Qed.

Lemma list_comp_getitem (names : list string) (positions : list nat) (w : world) :
  list_comp (getitem names) positions w =
  (match names_at names positions with
   | Some xs => Return xs
   | None => Raise IndexError
   end, w).
Proof.
  unfold getitem.
  induction positions as [|i rest IH]; cbn [list_comp names_at].
  - reflexivity.
  - unfold bind at 1. unfold or_raise at 1.
    destruct (nth_error names i) as [x|]; [|reflexivity].
    cbv beta iota delta [ret bind]. rewrite IH.
    destruct (names_at names rest); reflexivity.
Qed.

(** ** What [score_transaction] does *)

(** The handler, step by step: it fails at the classifier, at one of the
    subscripts or at the insertion, and otherwise stores one document and
    returns the verdict. *)
Lemma score_transaction_unfold (rt : runtime) (t : TransactionInput) (w : world) :
  score_transaction rt t w =
  match predict_proba (model rt) [values (TransactionInput_dict t)] with
  | None => (Raise ModelError, w)
  | Some proba =>
  match nth_error proba 0 with
  | None => (Raise IndexError, w)
  | Some row =>
  match nth_error row 1 with
  | None => (Raise IndexError, w)
  | Some probability =>
  let '(risk_level, decision) :=
    if gt probability lit_0_75 then ("High", "Block")
    else if gt probability lit_0_40 then ("Medium", "Review")
    else ("Low", "Approve") in
  match names_at (keys (TransactionInput_dict t))
          (last3 (np_argsort rt (feature_importances_ (model rt)))) with
  | None => (Raise IndexError, w)
  | Some top_features =>
      let doc :=
        [("input", to_value (TransactionInput_dict t));
         ("fraud_probability", VFloat (round probability 4));
         ("risk_level", VStr risk_level);
         ("decision", VStr decision);
         ("top_risk_indicators", VList (map VStr top_features));
         ("timestamp", VDatetime (utcnow rt (clock_reads w)))] in
      if mongo_up rt (mongo_calls w) then
        (Return [("fraud_probability", VFloat (round probability 4));
                 ("risk_level", VStr risk_level);
                 ("decision", VStr decision);
                 ("top_risk_indicators", VList (map VStr top_features))],
         after_insert rt doc w)
      else
        (Raise PyMongoError,
         {| collection := collection w; stdout := stdout w;
            random_calls := random_calls w; clock_reads := S (clock_reads w);
            mongo_calls := S (mongo_calls w) |})
  end end end end.
Proof.
  unfold score_transaction, bind at 1.
  destruct (predict_proba (model rt) [values (TransactionInput_dict t)]) as [proba|];
    cbn [or_raise ret raise]; [|reflexivity].
  unfold bind at 1, getitem at 1.
  destruct (nth_error proba 0) as [row|]; cbn [or_raise ret raise]; [|reflexivity].
  unfold bind at 1, getitem at 1.
  destruct (nth_error row 1) as [probability|]; cbn [or_raise ret raise]; [|reflexivity].
  destruct (if gt probability lit_0_75 then ("High", "Block")
            else if gt probability lit_0_40 then ("Medium", "Review")
            else ("Low", "Approve")) as [risk_level decision].
  unfold bind at 1. rewrite list_comp_getitem.
  destruct (names_at _ _) as [top_features|]; [|reflexivity].
  unfold bind, datetime_utcnow, insert_one, mongo_call, ret, with_collection, after_insert.
  cbn.
  destruct (mongo_up rt (mongo_calls w)); reflexivity.
Qed.

(** ** The literals *)

Example lit_0_75_valid : valid lit_0_75 = true.
Proof. reflexivity. Qed.

Example lit_0_40_valid : valid lit_0_40 = true.
Proof. reflexivity. Qed.

(** [0.75] is exactly [3/4]; [0.40] is the float nearest to [2/5]. *)
Example lit_0_75_ratio : of_ratio false 3 4 = lit_0_75.
Proof. reflexivity. Qed.

Example lit_0_40_ratio : of_ratio false 2 5 = lit_0_40.
Proof. reflexivity. Qed.

(** ** The three risk buckets *)

Lemma le_not_gt (x y : float) : le x y = true -> gt x y = false.
Proof.
  intros H. apply le_lex in H. destruct (gt x y) eqn:G; [|reflexivity].
  apply gt_lex in G. tauto.
Qed.

Lemma low_bucket (p : float) :
  le p lit_0_40 = true -> gt p lit_0_75 = false /\ gt p lit_0_40 = false.
Proof.
  intros H. split; [|apply le_not_gt; exact H].
  apply le_lex in H. destruct (gt p lit_0_75) eqn:G; [|reflexivity].
  apply gt_lex in G. destruct H as [H _], G as [G _].
  exfalso. apply H. refine (lex_lt_trans _ (order_key lit_0_75) _ _ G).
  unfold lex_lt, order_key, lit_0_40, lit_0_75. lia.
Qed.

Lemma medium_bucket (p : float) :
  lt lit_0_40 p = true -> le p lit_0_75 = true ->
  gt p lit_0_75 = false /\ gt p lit_0_40 = true.
Proof.
  intros H1 H2. split; [apply le_not_gt; exact H2 | exact H1].
Qed.

(** C1: whenever the classifier gives the submitted transaction the fraud
    probability [p] and the request is answered, the answer is Low/Approve
    for [p <= 0.40], Medium/Review for [0.40 < p <= 0.75] and High/Block for
    [p > 0.75]; [p = 0.40] is Low/Approve and [p = 0.75] is Medium/Review. *)
Theorem score_transaction_buckets
  (rt : runtime) (t : TransactionInput) (w w' : world) (resp : dict) (p : float) :
  fraud_probability (model rt) (values (TransactionInput_dict t)) = Some p ->
  score_transaction rt t w = (Return resp, w') ->
  (le p lit_0_40 = true -> verdict_is resp "Low" "Approve") /\
  (lt lit_0_40 p = true /\ le p lit_0_75 = true -> verdict_is resp "Medium" "Review") /\
  (gt p lit_0_75 = true -> verdict_is resp "High" "Block") /\
  (p = lit_0_40 -> verdict_is resp "Low" "Approve") /\
  (p = lit_0_75 -> verdict_is resp "Medium" "Review").
Proof.
  intros Hp Hrun.
  rewrite score_transaction_unfold in Hrun. unfold fraud_probability in Hp.
  destruct (predict_proba (model rt) [values (TransactionInput_dict t)])
    as [[|row rows]|]; try discriminate.
  change (nth_error (row :: rows) 0) with (Some row) in Hrun.
  cbv iota in Hrun. rewrite Hp in Hrun.
  assert (Hcases :
    (gt p lit_0_75 = false -> gt p lit_0_40 = false -> verdict_is resp "Low" "Approve") /\
    (gt p lit_0_75 = false -> gt p lit_0_40 = true -> verdict_is resp "Medium" "Review") /\
    (gt p lit_0_75 = true -> verdict_is resp "High" "Block")).
  { destruct (gt p lit_0_75), (gt p lit_0_40);
      destruct (names_at _ _); try discriminate;
      destruct (mongo_up rt (mongo_calls w)); try discriminate;
      injection Hrun as <- _;
      repeat split; intros; try discriminate; reflexivity. }
  destruct Hcases as (Hlow & Hmed & Hhigh).
  split; [|split; [|split; [|split]]].
  - intros H. apply low_bucket in H. destruct H. apply Hlow; assumption.
  - intros [H1 H2]. destruct (medium_bucket p H1 H2). apply Hmed; assumption.
  - exact Hhigh.
  - intros ->. apply Hlow; reflexivity.
  - intros ->. apply Hmed; reflexivity.
Qed.

(** The three buckets and the two boundaries on the stub classifier. *)
Lemma score_transaction_buckets_witness :
  (exists resp w',
      score_transaction (stub_runtime lit_0_3) example_transaction empty_world
      = (Return resp, w') /\
      le lit_0_3 lit_0_40 = true /\ verdict_is resp "Low" "Approve") /\
  (exists resp w',
      score_transaction (stub_runtime lit_0_5) example_transaction empty_world
      = (Return resp, w') /\
      (lt lit_0_40 lit_0_5 = true /\ le lit_0_5 lit_0_75 = true) /\
      verdict_is resp "Medium" "Review") /\
  (exists resp w',
      score_transaction (stub_runtime lit_0_9) example_transaction empty_world
      = (Return resp, w') /\
      gt lit_0_9 lit_0_75 = true /\ verdict_is resp "High" "Block") /\
  (exists resp w',
      score_transaction (stub_runtime lit_0_40) example_transaction empty_world
      = (Return resp, w') /\ verdict_is resp "Low" "Approve") /\
  (exists resp w',
      score_transaction (stub_runtime lit_0_75) example_transaction empty_world
      = (Return resp, w') /\ verdict_is resp "Medium" "Review").
Proof.
  split; [|split; [|split; [|split]]].
  - eexists; eexists. split; [vm_compute; reflexivity|]. split; [reflexivity|].
    refine (proj1 (score_transaction_buckets (stub_runtime lit_0_3)
                     example_transaction empty_world _ _ lit_0_3 _ _) _);
      vm_compute; reflexivity.
  - eexists; eexists. split; [vm_compute; reflexivity|].
    split; [split; reflexivity|].
    refine (proj1 (proj2 (score_transaction_buckets (stub_runtime lit_0_5)
                     example_transaction empty_world _ _ lit_0_5 _ _)) _);
      try split; vm_compute; reflexivity.
  - eexists; eexists. split; [vm_compute; reflexivity|]. split; [reflexivity|].
    refine (proj1 (proj2 (proj2 (score_transaction_buckets (stub_runtime lit_0_9)
                     example_transaction empty_world _ _ lit_0_9 _ _))) _);
      vm_compute; reflexivity.
  - eexists; eexists. split; [vm_compute; reflexivity|].
    refine (proj1 (proj2 (proj2 (proj2 (score_transaction_buckets
                     (stub_runtime lit_0_40) example_transaction empty_world _ _
                     lit_0_40 _ _)))) _);
      vm_compute; reflexivity.
  - eexists; eexists. split; [vm_compute; reflexivity|].
    refine (proj2 (proj2 (proj2 (proj2 (score_transaction_buckets
                     (stub_runtime lit_0_75) example_transaction empty_world _ _
                     lit_0_75 _ _)))) _);
      vm_compute; reflexivity.
Defined.

(** ** What the background task does *)

Lemma random_uniform_run (rt : runtime) (a b : Z) (w : world) :
  random_uniform rt a b w
  = (Return (uniform a b (random_random rt (random_calls w))), after_draws 1 w).
Proof. reflexivity. Qed.

(** The generator always returns: it draws thirty times and fails nowhere. *)
Lemma generate_random_transaction_run (rt : runtime) (w : world) :
  generate_random_transaction rt w
  = (Return (generated rt (random_calls w)), after_draws 30 w).
Proof. reflexivity. Qed.

(** One iteration, step by step.  The failures are those of the handler,
    except that no name is looked up; every exit other than the last leaves
    the collection as it was. *)
Lemma loop_body_unfold (rt : runtime) (w : world) :
  loop_body rt w =
  let transaction := generated rt (random_calls w) in
  let w1 := after_draws 30 w in
  match predict_proba (model rt) [values transaction] with
  | None => (Raise ModelError, w1)
  | Some proba =>
  match nth_error proba 0 with
  | None => (Raise IndexError, w1)
  | Some row =>
  match nth_error row 1 with
  | None => (Raise IndexError, w1)
  | Some probability =>
  let '(risk_level, decision) :=
    if gt probability lit_0_75 then ("High", "Block")
    else if gt probability lit_0_40 then ("Medium", "Review")
    else ("Low", "Approve") in
  let doc :=
    [("input", to_value transaction);
     ("fraud_probability", VFloat (round probability 4));
     ("risk_level", VStr risk_level);
     ("decision", VStr decision);
     ("timestamp", VDatetime (utcnow rt (clock_reads w)))] in
  if mongo_up rt (mongo_calls w) then
    (Return tt,
     {| collection := collection w ++ [("_id", VObjectId (mongo_calls w)) :: doc];
        stdout := stdout w ++ ["Auto transaction generated"];
        random_calls := (30 + random_calls w)%nat;
        clock_reads := S (clock_reads w);
        mongo_calls := S (mongo_calls w) |})
  else
    (Raise PyMongoError,
     {| collection := collection w; stdout := stdout w;
        random_calls := (30 + random_calls w)%nat;
        clock_reads := S (clock_reads w);
        mongo_calls := S (mongo_calls w) |})
  end end end.
Proof.
  unfold loop_body, bind at 1. rewrite generate_random_transaction_run.
  cbv zeta.
  generalize (generated rt (random_calls w)). intros transaction.
  unfold bind at 1.
  destruct (predict_proba (model rt) [values transaction]) as [proba|];
    cbn [or_raise ret raise]; [|reflexivity].
  unfold bind at 1, getitem at 1.
  destruct (nth_error proba 0) as [row|]; cbn [or_raise ret raise]; [|reflexivity].
  unfold bind at 1, getitem at 1.
  destruct (nth_error row 1) as [probability|]; cbn [or_raise ret raise]; [|reflexivity].
  destruct (if gt probability lit_0_75 then ("High", "Block")
            else if gt probability lit_0_40 then ("Medium", "Review")
            else ("Low", "Approve")) as [risk_level decision].
  unfold bind, datetime_utcnow, insert_one, mongo_call, print, asyncio_sleep, ret,
    with_collection, after_draws.
  cbn [collection stdout random_calls clock_reads mongo_calls].
  destruct (mongo_up rt (mongo_calls w)); reflexivity.
Qed.

(** ** A failing classifier *)

(** C5: when the classifier fails on the submitted transaction, the handler
    raises, the request is answered with status 500, and the world, with
    its collection, is what it was before the request. *)
Theorem scoring_error_stores_nothing (rt : runtime) (t : TransactionInput) (w : world) :
  predict_proba (model rt) [values (TransactionInput_dict t)] = None ->
  score_transaction rt t w = (Raise ModelError, w) /\
  post_score_transaction rt t w = (HTTP_500, w) /\
  collection (snd (post_score_transaction rt t w)) = collection w.
Proof.
  intros Hfail.
  assert (Hrun : score_transaction rt t w = (Raise ModelError, w)).
  { rewrite score_transaction_unfold, Hfail. reflexivity. }
  unfold post_score_transaction, endpoint. rewrite Hrun. auto.
Qed.

Lemma scoring_error_stores_nothing_witness :
  predict_proba (model (stub_runtime lit_0_9))
    [values (TransactionInput_dict rejected_transaction)] = None /\
  post_score_transaction (stub_runtime lit_0_9) rejected_transaction empty_world
  = (HTTP_500, empty_world).
Proof.
  split; [vm_compute; reflexivity|].
  refine (proj1 (proj2 (scoring_error_stores_nothing (stub_runtime lit_0_9)
                          rejected_transaction empty_world _))).
  vm_compute; reflexivity.
Defined.

(** ** Successful runs *)

(** A request that is answered went through every step of the handler. *)
Lemma score_transaction_returns
  (rt : runtime) (t : TransactionInput) (w w' : world) (resp : dict) :
  score_transaction rt t w = (Return resp, w') ->
  exists (p : float) (tops : list string),
    fraud_probability (model rt) (values (TransactionInput_dict t)) = Some p /\
    names_at (keys (TransactionInput_dict t))
      (last3 (np_argsort rt (feature_importances_ (model rt)))) = Some tops /\
    mongo_up rt (mongo_calls w) = true /\
    resp = [("fraud_probability", VFloat (round p 4));
            ("risk_level", VStr (fst (assigned p)));
            ("decision", VStr (snd (assigned p)));
            ("top_risk_indicators", VList (map VStr tops))] /\
    w' = after_insert rt
           [("input", to_value (TransactionInput_dict t));
            ("fraud_probability", VFloat (round p 4));
            ("risk_level", VStr (fst (assigned p)));
            ("decision", VStr (snd (assigned p)));
            ("top_risk_indicators", VList (map VStr tops));
            ("timestamp", VDatetime (utcnow rt (clock_reads w)))] w.
Proof.
  intros Hrun. rewrite score_transaction_unfold in Hrun.
  unfold fraud_probability, assigned.
  destruct (predict_proba (model rt) [values (TransactionInput_dict t)])
    as [[|row rows]|]; try discriminate.
  change (nth_error (row :: rows) 0) with (Some row) in Hrun. cbv iota in Hrun.
  destruct (nth_error row 1) as [p|]; try discriminate.
  exists p.
  destruct (gt p lit_0_75), (gt p lit_0_40);
    (destruct (names_at _ _) as [tops|]; [|discriminate]);
    (destruct (mongo_up rt (mongo_calls w)); [|discriminate]);
    injection Hrun as <- <-; exists tops; repeat split; reflexivity.
Qed.

(** The converse: the handler answers as soon as each step succeeds. *)
Lemma score_transaction_answers
  (rt : runtime) (t : TransactionInput) (w : world) (p : float) (tops : list string) :
  fraud_probability (model rt) (values (TransactionInput_dict t)) = Some p ->
  names_at (keys (TransactionInput_dict t))
    (last3 (np_argsort rt (feature_importances_ (model rt)))) = Some tops ->
  mongo_up rt (mongo_calls w) = true ->
  exists resp w', score_transaction rt t w = (Return resp, w').
Proof.
  intros Hp Htops Hup. rewrite score_transaction_unfold.
  unfold fraud_probability in Hp.
  destruct (predict_proba (model rt) [values (TransactionInput_dict t)])
    as [[|row rows]|]; try discriminate.
  change (nth_error (row :: rows) 0) with (Some row). cbv iota.
  rewrite Hp, Htops, Hup.
  destruct (gt p lit_0_75), (gt p lit_0_40); eexists; eexists; reflexivity.
Qed.

(** An iteration that completes stored one document. *)
Lemma loop_body_returns (rt : runtime) (w w' : world) :
  loop_body rt w = (Return tt, w') ->
  exists p : float,
    fraud_probability (model rt) (values (generated rt (random_calls w))) = Some p /\
    mongo_up rt (mongo_calls w) = true /\
    collection w' =
      collection w ++
      [[("_id", VObjectId (mongo_calls w));
        ("input", to_value (generated rt (random_calls w)));
        ("fraud_probability", VFloat (round p 4));
        ("risk_level", VStr (fst (assigned p)));
        ("decision", VStr (snd (assigned p)));
        ("timestamp", VDatetime (utcnow rt (clock_reads w)))]].
Proof.
  intros Hrun. rewrite loop_body_unfold in Hrun. cbv zeta in Hrun.
  unfold fraud_probability, assigned.
  destruct (predict_proba (model rt) [values (generated rt (random_calls w))])
    as [[|row rows]|]; try discriminate.
  change (nth_error (row :: rows) 0) with (Some row) in Hrun. cbv iota in Hrun.
  destruct (nth_error row 1) as [p|]; try discriminate.
  exists p.
  destruct (gt p lit_0_75), (gt p lit_0_40);
    (destruct (mongo_up rt (mongo_calls w)); [|discriminate]);
    injection Hrun as <-; repeat split; reflexivity.
Qed.

(** An exception leaves the collection as it was, in both paths. *)
Lemma score_transaction_raise (rt : runtime) (t : TransactionInput) (w w' : world) (e : exn) :
  score_transaction rt t w = (Raise e, w') -> collection w' = collection w.
Proof.
  intros Hrun. rewrite score_transaction_unfold in Hrun.
  destruct (predict_proba _ _) as [proba|]; [|injection Hrun as _ <-; reflexivity].
  destruct (nth_error proba 0) as [row|]; [|injection Hrun as _ <-; reflexivity].
  destruct (nth_error row 1) as [p|]; [|injection Hrun as _ <-; reflexivity].
  destruct (gt p lit_0_75), (gt p lit_0_40);
    (destruct (names_at _ _); [|injection Hrun as _ <-; reflexivity]);
    (destruct (mongo_up rt (mongo_calls w)); [discriminate|]);
    injection Hrun as _ <-; reflexivity.
Qed.

Lemma loop_body_raise (rt : runtime) (w w' : world) (e : exn) :
  loop_body rt w = (Raise e, w') -> collection w' = collection w.
Proof.
  intros Hrun. rewrite loop_body_unfold in Hrun. cbv zeta in Hrun.
  destruct (predict_proba _ _) as [proba|]; [|injection Hrun as _ <-; reflexivity].
  destruct (nth_error proba 0) as [row|]; [|injection Hrun as _ <-; reflexivity].
  destruct (nth_error row 1) as [p|]; [|injection Hrun as _ <-; reflexivity].
  destruct (gt p lit_0_75), (gt p lit_0_40);
    (destruct (mongo_up rt (mongo_calls w)); [discriminate|]);
    injection Hrun as _ <-; reflexivity.
Qed.

(** ** Scoring, then listing *)

Lemma get_transactions_run (rt : runtime) (w : world) :
  get_transactions rt w =
  let w' := {| collection := collection w; stdout := stdout w;
               random_calls := random_calls w; clock_reads := clock_reads w;
               mongo_calls := S (mongo_calls w) |} in
  if mongo_up rt (mongo_calls w) then (Return (map without_id (collection w)), w')
  else (Raise PyMongoError, w').
Proof.
  unfold get_transactions, find_all_without_id, bind, mongo_call, ret, with_collection.
  destruct (mongo_up rt (mongo_calls w)); reflexivity.
Qed.

(** C6: list the transactions, submit [t], list again.  The second listing
    is the first one followed by exactly one record; its [input] is the
    submitted vector and its four verdict fields are those of the response
    to the submission.  The second listing is produced whenever the
    database answers it. *)
Theorem score_then_list
  (rt : runtime) (t : TransactionInput) (w0 w w1 : world)
  (before : list dict) (resp : dict) :
  get_transactions rt w0 = (Return before, w) ->
  score_transaction rt t w = (Return resp, w1) ->
  mongo_up rt (mongo_calls w1) = true ->
  exists (record : dict) (w2 : world),
    get_transactions rt w1 = (Return (before ++ [record]), w2) /\
    get "input" record = Some (to_value (TransactionInput_dict t)) /\
    Forall (fun k => get k record = get k resp /\ get k resp <> None) response_fields.
Proof.
  intros Hlist Hscore Hup.
  rewrite get_transactions_run in Hlist. cbv zeta in Hlist.
  destruct (mongo_up rt (mongo_calls w0)); [|discriminate].
  injection Hlist as <- <-.
  destruct (score_transaction_returns _ _ _ _ _ Hscore)
    as (p & tops & _ & _ & _ & -> & ->).
  rewrite get_transactions_run. cbv zeta. rewrite Hup.
  unfold after_insert; cbn [collection].
  rewrite map_app. cbn [map].
  eexists; eexists. split; [reflexivity|].
  split; [reflexivity|].
  unfold response_fields. repeat constructor; cbn; discriminate.
Qed.

Lemma score_then_list_witness :
  exists (record : dict) (w2 : world),
    get_transactions (stub_runtime lit_0_9)
      (snd (score_transaction (stub_runtime lit_0_9) example_transaction
              (snd (get_transactions (stub_runtime lit_0_9) empty_world))))
    = (Return ([] ++ [record]), w2) /\
    get "input" record = Some (to_value (TransactionInput_dict example_transaction)) /\
    get "risk_level" record = Some (VStr "High").
Proof.
  destruct (score_then_list (stub_runtime lit_0_9) example_transaction
              empty_world
              (snd (get_transactions (stub_runtime lit_0_9) empty_world))
              (snd (score_transaction (stub_runtime lit_0_9) example_transaction
                      (snd (get_transactions (stub_runtime lit_0_9) empty_world))))
              []
              [("fraud_probability", VFloat (round lit_0_9 4));
               ("risk_level", VStr "High"); ("decision", VStr "Block");
               ("top_risk_indicators", VList [VStr "V27"; VStr "V28"; VStr "Amount"])])
    as (record & w2 & Hlist & Hinput & Hfields);
    [vm_compute; reflexivity | vm_compute; reflexivity | reflexivity |].
  exists record, w2. split; [exact Hlist|]. split; [exact Hinput|].
  apply Forall_inv_tail, Forall_inv in Hfields. destruct Hfields as [-> _]. reflexivity.
Defined.

(** ** The two stored schemas *)

(** C9: an iteration of the background task stores, when it completes, one
    document without [top_risk_indicators]; an answered request stores one
    document with it; a run that raises stores nothing in either path. *)
Theorem asymmetric_schemas (rt : runtime) :
  (forall w w', loop_body rt w = (Return tt, w') ->
     exists doc, collection w' = collection w ++ [doc] /\
                 has_key "top_risk_indicators" doc = false) /\
  (forall t w resp w', score_transaction rt t w = (Return resp, w') ->
     exists doc, collection w' = collection w ++ [doc] /\
                 has_key "top_risk_indicators" doc = true) /\
  (forall w e w', loop_body rt w = (Raise e, w') -> collection w' = collection w) /\
  (forall t w e w', score_transaction rt t w = (Raise e, w') ->
     collection w' = collection w).
Proof.
  split; [|split; [|split]].
  - intros w w' Hrun.
    destruct (loop_body_returns _ _ _ Hrun) as (p & _ & _ & ->).
    eexists. split; reflexivity.
  - intros t w resp w' Hrun.
    destruct (score_transaction_returns _ _ _ _ _ Hrun) as (p & tops & _ & _ & _ & _ & ->).
    eexists. split; reflexivity.
  - intros w e w'. apply loop_body_raise.
  - intros t w e w'. apply score_transaction_raise.
Qed.

Lemma asymmetric_schemas_witness :
  (exists doc,
     collection (snd (loop_body (stub_runtime lit_0_5) empty_world)) = [] ++ [doc] /\
     has_key "top_risk_indicators" doc = false) /\
  (exists doc,
     collection (snd (score_transaction (stub_runtime lit_0_5) example_transaction
                        empty_world)) = [] ++ [doc] /\
     has_key "top_risk_indicators" doc = true).
Proof.
  split.
  - refine (proj1 (asymmetric_schemas (stub_runtime lit_0_5)) empty_world _ _).
    vm_compute; reflexivity.
  - refine (proj1 (proj2 (asymmetric_schemas (stub_runtime lit_0_5)))
              example_transaction empty_world
              (match fst (score_transaction (stub_runtime lit_0_5) example_transaction
                            empty_world) with Return d => d | Raise _ => [] end) _ _).
    vm_compute; reflexivity.
Defined.

(** ** One evaluation, written twice *)

(** C10: the background task at [w] and the handler at [v], possibly under
    different runtimes, score the same feature vector, and the classifiers
    answer alike.  Then the two stored documents have the same
    [fraud_probability] (rounded to four decimals), [risk_level] and
    [decision], which are also those of the response. *)
Theorem same_evaluation
  (rt_loop rt_api : runtime) (t : TransactionInput) (w w' v v' : world) (resp : dict) :
  values (generated rt_loop (random_calls w)) = values (TransactionInput_dict t) ->
  predict_proba (model rt_loop) [values (TransactionInput_dict t)]
  = predict_proba (model rt_api) [values (TransactionInput_dict t)] ->
  loop_body rt_loop w = (Return tt, w') ->
  score_transaction rt_api t v = (Return resp, v') ->
  exists doc_loop doc_api,
    collection w' = collection w ++ [doc_loop] /\
    collection v' = collection v ++ [doc_api] /\
    Forall (fun k => get k doc_loop = get k doc_api /\
                     get k doc_api = get k resp /\
                     get k resp <> None) scored_fields.
Proof.
  intros Hsame Hmodel Hloop Hapi.
  destruct (loop_body_returns _ _ _ Hloop) as (p & Hp & _ & ->).
  destruct (score_transaction_returns _ _ _ _ _ Hapi)
    as (q & tops & Hq & _ & _ & -> & ->).
  assert (p = q) as <-.
  { unfold fraud_probability in Hp, Hq. rewrite Hsame, Hmodel in Hp.
    rewrite Hp in Hq. congruence. }
  unfold after_insert; cbn [collection].
  eexists; eexists. split; [reflexivity|]. split; [reflexivity|].
  unfold scored_fields. repeat constructor; cbn; discriminate.
Qed.

Lemma same_evaluation_witness :
  let t := TransactionInput_of_values (values (generated (stub_runtime lit_0_5) 0)) in
  exists doc_loop doc_api,
    collection (snd (loop_body (stub_runtime lit_0_5) empty_world)) = [] ++ [doc_loop] /\
    collection (snd (score_transaction (stub_runtime lit_0_5) t empty_world))
    = [] ++ [doc_api] /\
    get "risk_level" doc_loop = get "risk_level" doc_api.
Proof.
  intros t.
  destruct (same_evaluation (stub_runtime lit_0_5) (stub_runtime lit_0_5) t
              empty_world (snd (loop_body (stub_runtime lit_0_5) empty_world))
              empty_world (snd (score_transaction (stub_runtime lit_0_5) t empty_world))
              (match fst (score_transaction (stub_runtime lit_0_5) t empty_world) with
               | Return d => d | Raise _ => [] end))
    as (doc_loop & doc_api & Hloop & Hapi & Hfields);
    [vm_compute; reflexivity | reflexivity | vm_compute; reflexivity
    | vm_compute; reflexivity |].
  exists doc_loop, doc_api. split; [exact Hloop|]. split; [exact Hapi|].
  apply Forall_inv_tail, Forall_inv in Hfields. apply Hfields.
Defined.

(** ** The background loop *)

Lemma auto_generate_transactions_step (rt : runtime) (n : nat) (w : world) :
  auto_generate_transactions rt (S n) w =
  match loop_body rt w with
  | (Return _, w') => auto_generate_transactions rt n w'
  | (Raise e, w') => (Raise e, w')
  end.
Proof. reflexivity. Qed.

(** Once an exception has left the loop, observing longer changes nothing:
    no later iteration runs. *)
Lemma auto_generate_transactions_dead
  (rt : runtime) (n m : nat) (w w' : world) (e : exn) :
  auto_generate_transactions rt n w = (Raise e, w') ->
  auto_generate_transactions rt (n + m) w = (Raise e, w').
Proof.
  revert w. induction n as [|n IH]; intros w Hrun.
  - discriminate.
  - cbn [Nat.add]. rewrite auto_generate_transactions_step in *.
    destruct (loop_body rt w) as [[[]|e0] w1]; [apply IH; exact Hrun | exact Hrun].
Qed.

Lemma auto_generate_transactions_app
  (rt : runtime) (k n : nat) (w wk : world) :
  auto_generate_transactions rt k w = (Return tt, wk) ->
  auto_generate_transactions rt (k + n) w = auto_generate_transactions rt n wk.
Proof.
  revert w. induction k as [|k IH]; intros w Hrun.
  - injection Hrun as <-. reflexivity.
  - cbn [Nat.add]. rewrite auto_generate_transactions_step in *.
    destruct (loop_body rt w) as [[[]|e0] w1]; [apply IH; exact Hrun | discriminate].
Qed.

(** C4, as the code has it: the loop body is not guarded.  When [k]
    iterations have completed and the next one raises [e] (whether in the
    classifier or in the insertion), [e] leaves the loop and ends the task:
    however long the task is observed afterwards, no further iteration
    runs, and the collection stays what the [k] iterations made it. *)
Theorem failed_iteration_ends_loop
  (rt : runtime) (k n : nat) (w wk w' : world) (e : exn) :
  auto_generate_transactions rt k w = (Return tt, wk) ->
  loop_body rt wk = (Raise e, w') ->
  auto_generate_transactions rt (k + S n) w = (Raise e, w') /\
  collection w' = collection wk.
Proof.
  intros Hk Hfail. split.
  - rewrite (auto_generate_transactions_app _ _ _ _ _ Hk).
    rewrite auto_generate_transactions_step, Hfail. reflexivity.
  - exact (loop_body_raise _ _ _ _ Hfail).
Qed.

Lemma failed_iteration_ends_loop_witness :
  let rt := picky_runtime lit_0_5 in
  let w1 := snd (loop_body rt empty_world) in
  auto_generate_transactions rt (0 + 3) empty_world = (Raise ModelError, w1) /\
  collection w1 = collection empty_world.
Proof.
  intros rt w1.
  refine (failed_iteration_ends_loop rt 0 2 empty_world empty_world w1 ModelError _ _).
  - reflexivity.
  - vm_compute; reflexivity.
Defined.

(** The claim fails on the code.  With a classifier that rejects the first
    generated sample only, the first iteration raises; the second, run from
    the world the first one left, would complete and store a document; but
    the loop does not reach it: observed for two iterations the task has
    ended with the exception and an empty collection. *)
Lemma loop_does_not_survive_failure :
  let rt := picky_runtime lit_0_5 in
  exists w1 w2 : world,
    loop_body rt empty_world = (Raise ModelError, w1) /\
    loop_body rt w1 = (Return tt, w2) /\
    List.length (collection w2) = 1%nat /\
    auto_generate_transactions rt 2 empty_world = (Raise ModelError, w1) /\
    collection w1 = [] /\
    auto_generate_transactions rt 2 empty_world
    <> auto_generate_transactions rt 1 w1.
Proof.
  intros rt.
  exists (snd (loop_body rt empty_world)).
  exists (snd (loop_body rt (snd (loop_body rt empty_world)))).
  split; [vm_compute; reflexivity|].
  split; [vm_compute; reflexivity|].
  split; [vm_compute; reflexivity|].
  split; [vm_compute; reflexivity|].
  split; [vm_compute; reflexivity|].
  vm_compute. discriminate.
Qed.

(** The same with a database that refuses the first insertion only. *)
Example loop_does_not_survive_outage :
  let rt := outage_runtime lit_0_5 in
  exists w1 w2 : world,
    loop_body rt empty_world = (Raise PyMongoError, w1) /\
    loop_body rt w1 = (Return tt, w2) /\
    auto_generate_transactions rt 2 empty_world = (Raise PyMongoError, w1) /\
    collection w1 = [].
Proof.
  intros rt.
  exists (snd (loop_body rt empty_world)).
  exists (snd (loop_body rt (snd (loop_body rt empty_world)))).
  split; [vm_compute; reflexivity|].
  split; [vm_compute; reflexivity|].
  split; vm_compute; reflexivity.
Qed.

(** ** The dashboard *)

Lemma count_documents_run (rt : runtime) (query : list (string * string)) (w : world) :
  count_documents rt query w =
  if mongo_up rt (mongo_calls w)
  then (Return (count query (collection w)), after_query w)
  else (Raise PyMongoError, after_query w).
Proof.
  unfold count_documents, mongo_call, with_collection, after_query.
  destruct (mongo_up rt (mongo_calls w)); reflexivity.
Qed.

(** A summary that is returned holds the seven counts of the collection as
    it is at the call, and the call leaves the collection alone. *)
Lemma dashboard_summary_returns (rt : runtime) (w w' : world) (d : dict) :
  dashboard_summary rt w = (Return d, w') ->
  let c := collection w in
  d = summary (count [] c)
        (count [("risk_level", "High")] c) (count [("risk_level", "Medium")] c)
        (count [("risk_level", "Low")] c)
        (count [("decision", "Approve")] c) (count [("decision", "Block")] c)
        (count [("decision", "Review")] c) /\
  collection w' = collection w.
Proof.
  intros Hrun. cbv zeta. unfold dashboard_summary in Hrun.
  repeat (unfold bind at 1 in Hrun; rewrite count_documents_run in Hrun;
          match type of Hrun with
          | context [mongo_up rt ?n] => destruct (mongo_up rt n); [|discriminate]
          end).
  unfold ret in Hrun. cbn [collection after_query] in Hrun.
  injection Hrun as <- <-. split; reflexivity.
Qed.

(** The summary is returned when the database answers the seven queries. *)
Lemma dashboard_summary_answers (rt : runtime) (w : world) :
  (forall i : nat, (i < 7)%nat -> mongo_up rt (mongo_calls w + i) = true) ->
  exists d w', dashboard_summary rt w = (Return d, w').
Proof.
  intros Hup. unfold dashboard_summary.
  assert (H0 := Hup 0%nat ltac:(lia)). assert (H1 := Hup 1%nat ltac:(lia)).
  assert (H2 := Hup 2%nat ltac:(lia)). assert (H3 := Hup 3%nat ltac:(lia)).
  assert (H4 := Hup 4%nat ltac:(lia)). assert (H5 := Hup 5%nat ltac:(lia)).
  assert (H6 := Hup 6%nat ltac:(lia)).
  rewrite ?Nat.add_succ_r, Nat.add_0_r in *.
  unfold bind at 1. rewrite count_documents_run, H0.
  unfold bind at 1. rewrite count_documents_run. cbn [mongo_calls after_query]. rewrite H1.
  unfold bind at 1. rewrite count_documents_run. cbn [mongo_calls after_query]. rewrite H2.
  unfold bind at 1. rewrite count_documents_run. cbn [mongo_calls after_query]. rewrite H3.
  unfold bind at 1. rewrite count_documents_run. cbn [mongo_calls after_query]. rewrite H4.
  unfold bind at 1. rewrite count_documents_run. cbn [mongo_calls after_query]. rewrite H5.
  unfold bind at 1. rewrite count_documents_run. cbn [mongo_calls after_query]. rewrite H6.
  eexists; eexists; reflexivity.
Qed.

Lemma count_app (query : list (string * string)) (c c' : list dict) :
  count query (c ++ c') = count query c + count query c'.
Proof.
  unfold count. rewrite filter_app, length_app. lia.
Qed.

Lemma count_nonneg (query : list (string * string)) (c : list dict) :
  0 <= count query c.
Proof. unfold count. lia. Qed.

(** Storing a document whose level and decision come from the bucketing
    keeps the counts balanced. *)
Lemma balanced_snoc (c : list dict) (doc : dict) (p : float) :
  balanced c ->
  get "risk_level" doc = Some (VStr (fst (assigned p))) ->
  get "decision" doc = Some (VStr (snd (assigned p))) ->
  balanced (c ++ [doc]).
Proof.
  unfold balanced. intros [Hrisk Hdecision] Hr Hd.
  rewrite !count_app.
  assert (Hone :
    count [("risk_level", "High")] [doc] + count [("risk_level", "Medium")] [doc]
    + count [("risk_level", "Low")] [doc] = 1 /\
    count [("decision", "Approve")] [doc] + count [("decision", "Block")] [doc]
    + count [("decision", "Review")] [doc] = 1 /\
    count [] [doc] = 1).
  { unfold count, matches. cbn [filter forallb fst snd]. rewrite Hr, Hd.
    unfold assigned. destruct (gt p lit_0_75), (gt p lit_0_40); cbn; auto. }
  lia.
Qed.

Lemma balanced_nil : balanced [].
Proof. split; reflexivity. Qed.

(** Every action of the system keeps the counts balanced. *)
Lemma step_balanced (rt : runtime) (w w' : world) :
  step rt w w' -> balanced (collection w) -> balanced (collection w').
Proof.
  intros Hstep Hbal. destruct Hstep as [t w|w|w|w].
  - destruct (score_transaction rt t w) as [[resp|e] w'] eqn:Hrun; cbn [snd].
    + destruct (score_transaction_returns _ _ _ _ _ Hrun)
        as (p & tops & _ & _ & _ & _ & ->).
      unfold after_insert; cbn [collection].
      apply (balanced_snoc _ _ p Hbal); reflexivity.
    + rewrite (score_transaction_raise _ _ _ _ _ Hrun). exact Hbal.
  - rewrite get_transactions_run. cbv zeta.
    destruct (mongo_up rt (mongo_calls w)); exact Hbal.
  - destruct (dashboard_summary rt w) as [[d|e] w'] eqn:Hrun; cbn [snd].
    + destruct (dashboard_summary_returns _ _ _ _ Hrun) as [_ ->]. exact Hbal.
    + revert Hrun. unfold dashboard_summary.
      repeat (unfold bind at 1; rewrite count_documents_run;
              match goal with
              | |- context [mongo_up rt ?n] =>
                  destruct (mongo_up rt n);
                  [|intros Hrun; injection Hrun as _ <-; exact Hbal]
              end).
      discriminate.
  - destruct (loop_body rt w) as [[[]|e] w'] eqn:Hrun; cbn [snd].
    + destruct (loop_body_returns _ _ _ Hrun) as (p & _ & _ & ->).
      apply (balanced_snoc _ _ p Hbal); reflexivity.
    + rewrite (loop_body_raise _ _ _ _ Hrun). exact Hbal.
Qed.

Lemma reachable_balanced (rt : runtime) (w : world) :
  reachable rt w -> balanced (collection w).
Proof.
  induction 1 as [w Hempty | w w' _ IH Hstep].
  - rewrite Hempty. exact balanced_nil.
  - exact (step_balanced _ _ _ Hstep IH).
Qed.

(** C3: in every world the system reaches from an empty collection, by
    requests and background iterations in any order, a summary returned by
    the dashboard has [high + medium + low = total_transactions =
    approved + blocked + review]; and the summary is returned whenever the
    database answers the seven queries. *)
Theorem dashboard_counts_balanced (rt : runtime) (w : world) :
  reachable rt w ->
  (forall d w', dashboard_summary rt w = (Return d, w') ->
     exists total high medium low approved blocked review : Z,
       get "total_transactions" d = Some (VInt total) /\
       get "risk_distribution" d
       = Some (VDict [("high", VInt high); ("medium", VInt medium); ("low", VInt low)]) /\
       get "decision_distribution" d
       = Some (VDict [("approved", VInt approved); ("blocked", VInt blocked);
                      ("review", VInt review)]) /\
       high + medium + low = total /\
       total = approved + blocked + review) /\
  ((forall i : nat, (i < 7)%nat -> mongo_up rt (mongo_calls w + i) = true) ->
   exists d w', dashboard_summary rt w = (Return d, w')).
Proof.
  intros Hreach. split; [|apply dashboard_summary_answers].
  intros d w' Hrun.
  destruct (dashboard_summary_returns _ _ _ _ Hrun) as [-> _].
  destruct (reachable_balanced _ _ Hreach) as [Hrisk Hdecision].
  do 7 eexists. split; [reflexivity|]. split; [reflexivity|]. split; [reflexivity|].
  split; [exact Hrisk|].
  symmetry. rewrite <- Hdecision. lia.
Qed.

(** C7: in a summary the dashboard returns, [approval_rate_percent] is the
    int [0] when [total_transactions] is [0], and otherwise the float
    [round(approved / total * 100, 2)]. *)
Theorem approval_rate (rt : runtime) (w w' : world) (d : dict) :
  dashboard_summary rt w = (Return d, w') ->
  exists total high medium low approved blocked review : Z,
    d = summary total high medium low approved blocked review /\
    get "total_transactions" d = Some (VInt total) /\
    get "decision_distribution" d
    = Some (VDict [("approved", VInt approved); ("blocked", VInt blocked);
                   ("review", VInt review)]) /\
    get "approval_rate_percent" d = Some (specified_rate approved total) /\
    (total = 0 -> get "approval_rate_percent" d = Some (VInt 0)) /\
    (total <> 0 ->
     get "approval_rate_percent" d
     = Some (VFloat (round (mul (int_truediv approved total) (of_int 100)) 2))).
Proof.
  intros Hrun.
  destruct (dashboard_summary_returns _ _ _ _ Hrun) as [-> _].
  do 7 eexists. split; [reflexivity|]. split; [reflexivity|]. split; [reflexivity|].
  assert (Hnn := count_nonneg [] (collection w)).
  unfold summary, specified_rate. cbn [get String.eqb Ascii.eqb Bool.eqb].
  destruct (Z.ltb_spec 0 (count [] (collection w))) as [Hpos|Hzero];
    destruct (Z.eqb_spec (count [] (collection w)) 0) as [Heq|Hne];
    try lia; (split; [reflexivity|]); split; intros; try reflexivity; lia.
Qed.

Lemma dashboard_counts_balanced_witness :
  let rt := stub_runtime lit_0_9 in
  let w := snd (loop_body rt (snd (score_transaction rt example_transaction empty_world))) in
  exists d w',
    dashboard_summary rt w = (Return d, w') /\
    exists total high medium low approved blocked review : Z,
      get "total_transactions" d = Some (VInt total) /\
      get "risk_distribution" d
      = Some (VDict [("high", VInt high); ("medium", VInt medium); ("low", VInt low)]) /\
      get "decision_distribution" d
      = Some (VDict [("approved", VInt approved); ("blocked", VInt blocked);
                     ("review", VInt review)]) /\
      high + medium + low = total /\
      total = approved + blocked + review.
Proof.
  intros rt w.
  assert (Hreach : reachable rt w).
  { exact (reachable_step rt _ _
             (reachable_step rt _ _ (reachable_start rt empty_world eq_refl)
                (step_score rt example_transaction empty_world))
             (step_loop rt _)). }
  destruct (proj2 (dashboard_counts_balanced rt w Hreach) (fun _ _ => eq_refl))
    as (d & w' & Hrun).
  exists d, w'. split; [exact Hrun|].
  exact (proj1 (dashboard_counts_balanced rt w Hreach) d w' Hrun).
Defined.

Lemma approval_rate_witness :
  let rt := stub_runtime lit_0_3 in
  let w := snd (loop_body rt (snd (score_transaction rt example_transaction empty_world))) in
  exists total approved : Z,
    total <> 0 /\
    get "approval_rate_percent"
      (match fst (dashboard_summary rt w) with Return d => d | Raise _ => [] end)
    = Some (specified_rate approved total).
Proof.
  intros rt w.
  destruct (approval_rate rt w (snd (dashboard_summary rt w))
              (match fst (dashboard_summary rt w) with Return d => d | Raise _ => [] end))
    as (total & high & medium & low & approved & blocked & review
        & Hd & Htotal & _ & Hrate & _);
    [vm_compute; reflexivity|].
  exists total, approved. split; [|exact Hrate].
  vm_compute in Htotal. injection Htotal as <-. discriminate.
Defined.

(** One approval out of three documents gives [33.33]. *)
Example approval_rate_one_third :
  get "approval_rate_percent" (summary 3 2 0 1 1 2 0)
  = Some (VFloat (S754_finite false 4690780486883082 (-47))).
Proof. vm_compute. reflexivity. Qed.

Example approval_rate_empty :
  fst (dashboard_summary (stub_runtime lit_0_3) empty_world)
  = Return (summary 0 0 0 0 0 0 0) /\
  get "approval_rate_percent" (summary 0 0 0 0 0 0 0) = Some (VInt 0).
Proof. split; vm_compute; reflexivity. Qed.

(** ** The top risk indicators *)

Section Argsort.

Variable ws : list float.

Let by_weight (i j : nat) : Prop := np_le (weight ws i) (weight ws j) = true.

Lemma StronglySorted_app_inv {A} (R : A -> A -> Prop) (l1 l2 : list A) :
  StronglySorted R (l1 ++ l2) ->
  StronglySorted R l2 /\ Forall (fun x => Forall (R x) l2) l1.
Proof.
  induction l1 as [|a l1 IH]; cbn [app]; intros Hsorted.
  - split; [exact Hsorted | constructor].
  - apply StronglySorted_inv in Hsorted. destruct Hsorted as [Htail Hhead].
    destruct (IH Htail) as [H2 H1]. split; [exact H2|].
    constructor; [|exact H1].
    apply Forall_app in Hhead. apply Hhead.
Qed.

(** The last three positions of an argsort that keeps its contract. *)
Lemma last3_three_largest (l : list nat) :
  (3 <= List.length ws)%nat ->
  Permutation l (seq 0 (List.length ws)) ->
  StronglySorted by_weight l ->
  exists i j k, last3 l = [i; j; k] /\ three_largest ws i j k.
Proof.
  intros Hlen Hperm Hsorted.
  assert (Hl : List.length l = List.length ws).
  { rewrite (Permutation_length Hperm). apply length_seq. }
  unfold last3.
  remember (List.length l - 3)%nat as n eqn:Hn.
  assert (Hsplit := firstn_skipn n l).
  assert (Hlast : List.length (skipn n l) = 3%nat) by (rewrite length_skipn; lia).
  destruct (skipn n l) as [|i [|j [|k [|]]]]; try discriminate.
  exists i, j, k. split; [reflexivity|].
  rewrite <- Hsplit in Hperm, Hsorted.
  assert (Hnodup : NoDup (firstn n l ++ [i; j; k])).
  { apply (Permutation_NoDup (Permutation_sym Hperm)). apply seq_NoDup. }
  assert (Hin : forall m, In m (firstn n l ++ [i; j; k]) <-> (m < List.length ws)%nat).
  { intros m. split; intros H.
    - apply (Permutation_in _ Hperm) in H. apply in_seq in H. lia.
    - apply (Permutation_in _ (Permutation_sym Hperm)). apply in_seq. lia. }
  destruct (StronglySorted_app_inv _ _ _ Hsorted) as [Htop Hrest].
  apply StronglySorted_inv in Htop. destruct Htop as [Htop Hi].
  apply StronglySorted_inv in Htop. destruct Htop as [_ Hj].
  unfold three_largest. repeat split.
  - exact (NoDup_app_remove_l _ _ Hnodup).
  - apply Hin. apply in_or_app. right. cbn. auto.
  - apply Hin. apply in_or_app. right. cbn. auto.
  - apply Hin. apply in_or_app. right. cbn. auto.
  - exact (Forall_inv Hi).
  - exact (Forall_inv Hj).
  - intros m Hm Hmi Hmj Hmk. apply Hin in Hm. apply in_app_or in Hm.
    destruct Hm as [Hm | [Hm | [Hm | [Hm | []]]]]; try congruence.
    rewrite Forall_forall in Hrest. exact (Forall_inv (Hrest m Hm)).
Qed.

(** The insertion argsort keeps the contract. *)
Lemma insert_index_perm (i : nat) (l : list nat) :
  Permutation (insert_index ws i l) (i :: l).
Proof.
  induction l as [|j l IH]; cbn [insert_index].
  - apply Permutation_refl.
  - destruct (np_lt (weight ws j) (weight ws i)).
    + apply Permutation_trans with (j :: i :: l).
      * apply perm_skip. exact IH.
      * apply perm_swap.
    + apply Permutation_refl.
Qed.

Lemma insert_index_sorted (i : nat) (l : list nat) :
  StronglySorted by_weight l -> StronglySorted by_weight (insert_index ws i l).
Proof.
  induction l as [|j l IH]; cbn [insert_index]; intros Hsorted.
  - constructor; constructor.
  - apply StronglySorted_inv in Hsorted. destruct Hsorted as [Htail Hhead].
    destruct (np_lt (weight ws j) (weight ws i)) eqn:Hcmp.
    + constructor; [exact (IH Htail)|].
      apply Forall_forall. intros x Hx.
      apply (Permutation_in _ (insert_index_perm i l)) in Hx.
      destruct Hx as [<- | Hx].
      * unfold by_weight. apply np_le_total. unfold np_le. rewrite Hcmp. reflexivity.
      * rewrite Forall_forall in Hhead. exact (Hhead x Hx).
    + assert (Hij : by_weight i j).
      { unfold by_weight, np_le. rewrite Hcmp. reflexivity. }
      constructor; [constructor; assumption|].
      constructor; [exact Hij|].
      apply Forall_forall. intros x Hx. rewrite Forall_forall in Hhead.
      exact (np_le_trans _ _ _ Hij (Hhead x Hx)).
Qed.

Lemma fold_insert_index (s : list nat) :
  Permutation (fold_right (insert_index ws) [] s) s /\
  StronglySorted by_weight (fold_right (insert_index ws) [] s).
Proof.
  induction s as [|i s [IHperm IHsorted]]; cbn [fold_right].
  - split; constructor.
  - split.
    + apply Permutation_trans with (i :: fold_right (insert_index ws) [] s).
      * apply insert_index_perm.
      * apply perm_skip. exact IHperm.
    + apply insert_index_sorted. exact IHsorted.
Qed.

End Argsort.

Lemma insertion_argsort_contract : argsort_contract insertion_argsort.
Proof.
  intros ws. unfold insertion_argsort. apply fold_insert_index.
Qed.

Lemma keys_TransactionInput_dict (t : TransactionInput) :
  keys (TransactionInput_dict t) = field_names.
Proof. reflexivity. Qed.

Lemma field_names_length : List.length field_names = 30%nat.
Proof. reflexivity. Qed.

Lemma field_name_at (i : nat) :
  (i < 30)%nat -> exists name, nth_error field_names i = Some name /\ In name field_names.
Proof.
  intros Hi.
  destruct (nth_error field_names i) as [name|] eqn:Hname.
  - exists name. split; [reflexivity|]. exact (nth_error_In _ _ Hname).
  - apply nth_error_None in Hname. rewrite field_names_length in Hname. lia.
Qed.

(** C2: with an argsort that keeps numpy's contract and a classifier that
    has one importance per field, the [top_risk_indicators] of every answer
    are the names of three distinct fields that hold the three largest
    importances, listed by non-decreasing importance; they are three of
    the thirty field names; and every other answered request, whatever
    its transaction and world, carries the same list. *)
Theorem top_risk_indicators_are_three_largest
  (rt : runtime) (t : TransactionInput) (w w' : world) (resp : dict) :
  argsort_contract (np_argsort rt) ->
  List.length (feature_importances_ (model rt)) = 30%nat ->
  score_transaction rt t w = (Return resp, w') ->
  exists (i j k : nat) (ni nj nk : string),
    get "top_risk_indicators" resp = Some (VList [VStr ni; VStr nj; VStr nk]) /\
    three_largest (feature_importances_ (model rt)) i j k /\
    nth_error field_names i = Some ni /\
    nth_error field_names j = Some nj /\
    nth_error field_names k = Some nk /\
    Forall (fun name => In name field_names) [ni; nj; nk] /\
    forall (t2 : TransactionInput) (v v' : world) (resp2 : dict),
      score_transaction rt t2 v = (Return resp2, v') ->
      get "top_risk_indicators" resp2 = get "top_risk_indicators" resp.
Proof.
  intros Hcontract Hlen Hrun.
  destruct (Hcontract (feature_importances_ (model rt))) as [Hperm Hsorted].
  assert (Hthree : (3 <= List.length (feature_importances_ (model rt)))%nat)
    by (rewrite Hlen; lia).
  destruct (last3_three_largest _ _ Hthree Hperm Hsorted)
    as (i & j & k & Hlast & Hlargest).
  assert (Hbound := Hlargest).
  destruct Hbound as (_ & Hi & Hj & Hk & _). rewrite Hlen in Hi, Hj, Hk.
  destruct (field_name_at i Hi) as (ni & Hni & Hini).
  destruct (field_name_at j Hj) as (nj & Hnj & Hinj).
  destruct (field_name_at k Hk) as (nk & Hnk & Hink).
  assert (Htops : forall t0, names_at (keys (TransactionInput_dict t0))
                    (last3 (np_argsort rt (feature_importances_ (model rt))))
                  = Some [ni; nj; nk]).
  { intros t0. rewrite keys_TransactionInput_dict, Hlast.
    cbn [names_at]. rewrite Hni, Hnj, Hnk. reflexivity. }
  assert (Hresp : forall t0 v v' r, score_transaction rt t0 v = (Return r, v') ->
            get "top_risk_indicators" r = Some (VList [VStr ni; VStr nj; VStr nk])).
  { intros t0 v v' r Hr.
    destruct (score_transaction_returns _ _ _ _ _ Hr) as (p & tops & _ & Ht & _ & -> & _).
    rewrite Htops in Ht. injection Ht as <-. reflexivity. }
  exists i, j, k, ni, nj, nk.
  split; [exact (Hresp _ _ _ _ Hrun)|].
  split; [exact Hlargest|].
  split; [exact Hni|]. split; [exact Hnj|]. split; [exact Hnk|].
  split.
  { apply Forall_cons; [exact Hini|]. apply Forall_cons; [exact Hinj|].
    apply Forall_cons; [exact Hink|]. apply Forall_nil. }
  intros t2 v v' resp2 Hrun2.
  rewrite (Hresp _ _ _ _ Hrun2), (Hresp _ _ _ _ Hrun). reflexivity.
Qed.

Lemma top_risk_indicators_are_three_largest_witness :
  let rt := stub_runtime lit_0_9 in
  exists (i j k : nat) (ni nj nk : string),
    get "top_risk_indicators"
      (match fst (score_transaction rt example_transaction empty_world) with
       | Return d => d | Raise _ => [] end)
    = Some (VList [VStr ni; VStr nj; VStr nk]) /\
    three_largest (feature_importances_ (model rt)) i j k /\
    Forall (fun name => In name field_names) [ni; nj; nk].
Proof.
  intros rt.
  destruct (top_risk_indicators_are_three_largest rt example_transaction empty_world
              (snd (score_transaction rt example_transaction empty_world))
              (match fst (score_transaction rt example_transaction empty_world) with
               | Return d => d | Raise _ => [] end)
              insertion_argsort_contract)
    as (i & j & k & ni & nj & nk & Hget & Hlargest & _ & _ & _ & Hnames & _);
    [reflexivity | vm_compute; reflexivity |].
  exists i, j, k, ni, nj, nk. split; [exact Hget|]. split; [exact Hlargest|]. exact Hnames.
Defined.

(** On the stub importances, which grow with the position, the indicators
    are the last three fields. *)
Example top_risk_indicators_stub :
  get "top_risk_indicators"
    (match fst (score_transaction (stub_runtime lit_0_9) example_transaction empty_world)
     with Return d => d | Raise _ => [] end)
  = Some (VList [VStr "V27"; VStr "V28"; VStr "Amount"]).
Proof. vm_compute. reflexivity. Qed.

(** ** Rounding in binary64 *)

Lemma digits2_log2 (p : positive) : Zpos (digits2_pos p) = Z.log2 (Zpos p) + 1.
Proof.
  induction p as [p IH|p IH|]; cbn [digits2_pos]; [| |reflexivity].
  - rewrite Pos2Z.inj_succ, IH. destruct p; reflexivity || (cbn; lia).
  - rewrite Pos2Z.inj_succ, IH. destruct p; reflexivity || (cbn; lia).
Qed.

Lemma digits2_bounds (p : positive) :
  2 ^ (Zpos (digits2_pos p) - 1) <= Zpos p < 2 ^ Zpos (digits2_pos p).
Proof.
  rewrite digits2_log2.
  replace (Z.log2 (Zpos p) + 1 - 1) with (Z.log2 (Zpos p)) by lia.
  replace (Z.log2 (Zpos p) + 1) with (Z.succ (Z.log2 (Zpos p))) by lia.
  apply Z.log2_spec. lia.
Qed.

Lemma iter_pos_nat {A} (f : A -> A) (p : positive) (x : A) :
  iter_pos f p x = Nat.iter (Pos.to_nat p) f x.
Proof.
  revert x. induction p as [p IH|p IH|]; intros x; cbn [iter_pos].
  - rewrite !IH, Pos2Nat.inj_xI.
    replace (2 * Pos.to_nat p)%nat with (Pos.to_nat p + Pos.to_nat p)%nat by lia.
    rewrite Nat.iter_succ_r, Nat.iter_add. reflexivity.
  - rewrite !IH, Pos2Nat.inj_xO.
    replace (2 * Pos.to_nat p)%nat with (Pos.to_nat p + Pos.to_nat p)%nat by lia.
    rewrite Nat.iter_add. reflexivity.
  - reflexivity.
Qed.

(** One right shift halves the mantissa and remembers what it drops. *)
Lemma shr_1_spec (mrs : shr_record) :
  0 <= shr_m mrs ->
  0 <= shr_m (shr_1 mrs) /\
  2 * shr_m (shr_1 mrs) <= shr_m mrs <= 2 * shr_m (shr_1 mrs) + 1 /\
  (shr_r (shr_1 mrs) = true -> shr_m mrs = 2 * shr_m (shr_1 mrs) + 1) /\
  shr_s (shr_1 mrs) = (shr_r mrs || shr_s mrs)%bool.
Proof.
  destruct mrs as [m r s]. cbn [shr_m shr_r shr_s]. intros Hm.
  destruct m as [|[p|p|]|p]; cbn [shr_1 shr_m shr_r shr_s]; try lia;
    repeat split; try lia; try discriminate; try reflexivity.
Qed.


(** [k] right shifts of an exact mantissa [m]: the quotient by [2 ^ k],
    inexact only if something was dropped. *)
Lemma shr_iter_spec (m : Z) (k : nat) :
  0 <= m ->
  let mrs := Nat.iter k shr_1 (Build_shr_record m false false) in
  0 <= shr_m mrs /\
  shr_m mrs * 2 ^ Z.of_nat k <= m < (shr_m mrs + 1) * 2 ^ Z.of_nat k /\
  (inexact mrs = true -> shr_m mrs * 2 ^ Z.of_nat k < m).
Proof.
  intros Hm. induction k as [|k IH].
  - cbn. unfold inexact. cbn. repeat split; try lia; try discriminate.
  - cbv zeta in *. rewrite Nat.iter_succ.
    set (mrs := Nat.iter k shr_1 (Build_shr_record m false false)) in *.
    destruct IH as (Hnn & [Hlo Hhi] & Hinex).
    destruct (shr_1_spec mrs Hnn) as (Hnn' & [Hl Hu] & Hr & Hs).
    rewrite Nat2Z.inj_succ, Z.pow_succ_r by lia.
    assert (Hpow : 0 < 2 ^ Z.of_nat k) by (apply Z.pow_pos_nonneg; lia).
    split; [exact Hnn'|]. split; [split; nia|].
    unfold inexact in *. rewrite Hs. intros Hi.
    apply orb_true_iff in Hi. destruct Hi as [Hi|Hi].
    + specialize (Hr Hi). nia.
    + specialize (Hinex Hi). nia.
Qed.

Lemma shr_spec (m e n : Z) :
  0 <= m -> 0 <= n ->
  let mrs := fst (shr (Build_shr_record m false false) e n) in
  snd (shr (Build_shr_record m false false) e n) = e + n /\
  0 <= shr_m mrs /\
  shr_m mrs * 2 ^ n <= m < (shr_m mrs + 1) * 2 ^ n /\
  (inexact mrs = true -> shr_m mrs * 2 ^ n < m).
Proof.
  intros Hm Hn. destruct n as [|p|p]; [| |lia].
  - cbn. unfold inexact. cbn. repeat split; try lia; try discriminate.
  - cbn [shr fst snd]. rewrite iter_pos_nat.
    split; [reflexivity|].
    rewrite <- (positive_nat_Z p). apply shr_iter_spec. exact Hm.
Qed.

Lemma round_nearest_even_spec (mrs : shr_record) :
  let m1 := round_nearest_even (shr_m mrs) (loc_of_shr_record mrs) in
  m1 = shr_m mrs \/ (m1 = shr_m mrs + 1 /\ inexact mrs = true).
Proof.
  destruct mrs as [m [] []]; unfold inexact; cbn; destruct (Z.even m); auto.
Qed.

Lemma fexp_eq (x : Z) : fexp prec emax x = Z.max (x - 53) (-1074).
Proof. reflexivity. Qed.

Lemma pow2_pos (n : Z) : 0 <= n -> 0 < 2 ^ n.
Proof. intros. apply Z.pow_pos_nonneg; lia. Qed.

Lemma pow2_split (a b : Z) : 0 <= a -> 0 <= b -> 2 ^ (a + b) = 2 ^ a * 2 ^ b.
Proof. intros. apply Z.pow_add_r; assumption. Qed.

Lemma pow2_le (a b : Z) : a <= b -> 2 ^ a <= 2 ^ b.
Proof. intros. apply Z.pow_le_mono_r; lia. Qed.

Lemma pow2_lt_inv (a b : Z) : 0 <= b -> 2 ^ a < 2 ^ b -> a < b.
Proof.
  intros Hb H. destruct (Z_lt_le_dec a b) as [|Hge]; [assumption|].
  apply pow2_le in Hge. lia.
Qed.

(** The second normalisation of [binary_round_aux]: a mantissa of at most
    [2 ^ 53], already at the exponent of its binade, is left as it is, or
    halved when it is [2 ^ 53]. *)
Lemma renormalize (p1 : positive) (e1 : Z) :
  Zpos p1 <= 2 ^ 53 -> -1074 <= e1 ->
  (-1074 < e1 -> 2 ^ 52 <= Zpos p1) ->
  exists (p2 : positive) (e2 : Z) (r s : bool),
    shr_fexp prec emax (Zpos p1) e1 loc_Exact = (Build_shr_record (Zpos p2) r s, e2) /\
    canonical_mantissa prec emax p2 e2 = true /\
    scaled (Zpos p2) e2 = scaled (Zpos p1) e1 /\
    e1 <= e2.
Proof.
  intros Hmax He Hnormal.
  destruct (digits2_bounds p1) as [Hlo Hhi].
  set (d := Zpos (digits2_pos p1)) in *.
  assert (Hd : d <= 54).
  { assert (2 ^ (d - 1) < 2 ^ 54) by (change (2 ^ 54) with (2 * 2 ^ 53); lia).
    apply pow2_lt_inv in H; lia. }
  assert (Hdpos : 0 < d) by (unfold d; lia).
  unfold shr_fexp, canonical_mantissa. cbn [Zdigits2 shr_record_of_loc].
  fold d. rewrite fexp_eq.
  destruct (Z_le_gt_dec d 53) as [Hsmall|Hbig].
  - assert (Hn : Z.max (d + e1 - 53) (-1074) - e1 <= 0) by lia.
    exists p1, e1, false, false.
    assert (Hshr : shr (Build_shr_record (Zpos p1) false false) e1
                     (Z.max (d + e1 - 53) (-1074) - e1)
                   = (Build_shr_record (Zpos p1) false false, e1)).
    { destruct (Z.max (d + e1 - 53) (-1074) - e1); try reflexivity; lia. }
    rewrite Hshr. split; [reflexivity|]. split; [|split; [reflexivity|lia]].
    fold d. rewrite fexp_eq. apply Z.eqb_eq.
    destruct (Z_le_gt_dec e1 (-1074)) as [|Hgt]; [lia|].
    assert (52 < d).
    { apply pow2_lt_inv; [lia|]. specialize (Hnormal ltac:(lia)). lia. }
    lia.
  - assert (d = 54) by lia.
    assert (Hp1 : Zpos p1 = 2 ^ 53).
    { replace (d - 1) with 53 in Hlo by lia. lia. }
    assert (Hn : Z.max (d + e1 - 53) (-1074) - e1 = 1) by lia.
    rewrite Hn.
    injection Hp1 as ->.
    exists (4503599627370496)%positive, (e1 + 1), false, false.
    split; [reflexivity|]. split.
    + change (Zpos (digits2_pos 4503599627370496)) with 53.
      rewrite fexp_eq. apply Z.eqb_eq. lia.
    + split; [|lia]. unfold scaled, offset.
      replace (e1 + 1 + 2148) with (1 + (e1 + 2148)) by lia.
      rewrite pow2_split by lia. change (2 ^ 1) with 2. lia.
Qed.

(** What [binary_round_aux] computes from an exact positive mantissa that
    is not below the exponent of its binade: the mantissa is cut to a
    quotient [m'] by a power of two, rounded to [m'] or [m' + 1], and
    renormalised. *)
Lemma binary_round_aux_spec (s : bool) (pm : positive) (e : Z) :
  e <= fexp prec emax (Zpos (digits2_pos pm) + e) ->
  let e1 := fexp prec emax (Zpos (digits2_pos pm) + e) in
  let z := binary_round_aux prec emax s (Zpos pm) e loc_Exact in
  exists m' m1 : Z,
    0 <= m' /\
    m' * 2 ^ (e1 - e) <= Zpos pm < (m' + 1) * 2 ^ (e1 - e) /\
    (m1 = m' \/ (m1 = m' + 1 /\ m' * 2 ^ (e1 - e) < Zpos pm)) /\
    m1 <= 2 ^ 53 /\
    (-1074 < e1 -> 2 ^ 52 <= m') /\
    ((m1 = 0 /\ z = S754_zero s) \/
     exists (p2 : positive) (e2 : Z),
       z = (if e2 <=? 971 then S754_finite s p2 e2 else S754_infinity s) /\
       canonical_mantissa prec emax p2 e2 = true /\
       scaled (Zpos p2) e2 = scaled m1 e1 /\
       0 < m1).
Proof.
  intros Hpre. cbv zeta.
  destruct (digits2_bounds pm) as [Hlo Hhi].
  set (d := Zpos (digits2_pos pm)) in *.
  set (e1 := fexp prec emax (d + e)) in *.
  assert (He1 : e1 = Z.max (d + e - 53) (-1074)) by (unfold e1; apply fexp_eq).
  assert (Hn : 0 <= e1 - e) by lia.
  assert (Hz : binary_round_aux prec emax s (Zpos pm) e loc_Exact =
    let '(mrs', e') := shr (Build_shr_record (Zpos pm) false false) e (e1 - e) in
    let '(mrs'', e'') :=
      shr_fexp prec emax (round_nearest_even (shr_m mrs') (loc_of_shr_record mrs'))
        e' loc_Exact in
    match shr_m mrs'' with
    | Z0 => S754_zero s
    | Zpos m => if e'' <=? 971 then S754_finite s m e'' else S754_infinity s
    | Zneg _ => S754_nan
    end) by reflexivity.
  rewrite Hz. clear Hz.
  destruct (shr_spec (Zpos pm) e (e1 - e) ltac:(lia) Hn) as (He' & Hnn & [Hfl Hcl] & Hinex).
  destruct (shr (Build_shr_record (Zpos pm) false false) e (e1 - e)) as [mrs' e'].
  cbn [fst snd] in *.
  assert (Ee : e' = e1) by lia. clear He'. subst e'.
  set (m' := shr_m mrs') in *.
  assert (Hpow : 0 < 2 ^ (e1 - e)) by (apply pow2_pos; exact Hn).
  assert (Hm'hi : m' < 2 ^ 53).
  { assert (H : 2 ^ d <= 2 ^ (e1 - e) * 2 ^ 53).
    { rewrite <- pow2_split by lia. apply pow2_le. lia. }
    nia. }
  assert (Hm'lo : -1074 < e1 -> 2 ^ 52 <= m').
  { intros Hnormal.
    assert (H : 2 ^ (e1 - e) * 2 ^ 52 <= 2 ^ (d - 1)).
    { rewrite <- pow2_split by lia. apply pow2_le. lia. }
    nia. }
  assert (Hcase : round_nearest_even m' (loc_of_shr_record mrs') = m' \/
                  (round_nearest_even m' (loc_of_shr_record mrs') = m' + 1 /\
                   m' * 2 ^ (e1 - e) < Zpos pm)).
  { destruct (round_nearest_even_spec mrs') as [Hm1 | [Hm1 Hup]]; fold m' in Hm1.
    - left; exact Hm1.
    - right; split; [exact Hm1 | exact (Hinex Hup)]. }
  generalize dependent (round_nearest_even m' (loc_of_shr_record mrs')).
  intros m1 Hcase.
  exists m', m1. split; [exact Hnn|]. split; [split; assumption|].
  split; [exact Hcase|]. split; [lia|]. split; [exact Hm'lo|].
  destruct m1 as [|p1|p1]; [| |lia].
  - left. split; [reflexivity|].
    unfold shr_fexp. cbn [Zdigits2 shr_record_of_loc]. rewrite fexp_eq.
    destruct (Z.max (0 + e1 - 53) (-1074) - e1) eqn:E; try lia; reflexivity.
  - right.
    destruct (renormalize p1 e1 ltac:(lia) ltac:(lia) ltac:(lia))
      as (p2 & e2 & r2 & s2 & -> & Hcan & Hsc & _).
    exists p2, e2. cbn [shr_m].
    split; [reflexivity|]. split; [exact Hcan|]. split; [exact Hsc|lia].
Qed.

Lemma canonical_facts (p : positive) (e : Z) :
  canonical_mantissa prec emax p e = true ->
  -1074 <= e /\ Zpos p < 2 ^ 53 /\ (-1074 < e -> 2 ^ 52 <= Zpos p).
Proof.
  unfold canonical_mantissa. rewrite fexp_eq. intros H. apply Z.eqb_eq in H.
  destruct (digits2_bounds p) as [Hlo Hhi].
  set (d := Zpos (digits2_pos p)) in *.
  split; [lia|]. split.
  - assert (2 ^ d <= 2 ^ 53) by (apply pow2_le; lia). lia.
  - intros Hn. assert (2 ^ 52 <= 2 ^ (d - 1)) by (apply pow2_le; lia). lia.
Qed.

Lemma bounded_facts (p : positive) (e : Z) :
  bounded prec emax p e = true ->
  canonical_mantissa prec emax p e = true /\ e <= 971.
Proof.
  unfold bounded. intros H. apply andb_true_iff in H. destruct H as [Hc He].
  split; [exact Hc|]. apply Z.leb_le in He. exact He.
Qed.

Lemma scaled_pos (m e : Z) : -offset <= e -> 0 < m -> 0 < scaled m e.
Proof.
  intros He Hm. unfold scaled. apply Z.mul_pos_pos; [exact Hm|].
  apply pow2_pos. lia.
Qed.

Lemma scaled_mono (m m' e : Z) : -offset <= e -> m <= m' -> scaled m e <= scaled m' e.
Proof.
  intros He Hm. unfold scaled. apply Z.mul_le_mono_nonneg_r; [|exact Hm].
  apply Z.lt_le_incl, pow2_pos. lia.
Qed.

(** A number below [2 ^ 53] at a lower exponent is smaller than a normal
    number at a higher one. *)
Lemma scaled_lt_of_exp (m1 e1 m2 e2 : Z) :
  m2 < 2 ^ 53 -> 2 ^ 52 <= m1 -> e2 < e1 -> -offset <= e2 ->
  scaled m2 e2 < scaled m1 e1.
Proof.
  intros Hm2 Hm1 He Hoff. unfold scaled.
  assert (HA : 0 < 2 ^ (e2 + offset)) by (apply pow2_pos; lia).
  assert (HB : 2 * 2 ^ (e2 + offset) <= 2 ^ (e1 + offset)).
  { change 2 with (2 ^ 1) at 1. rewrite <- pow2_split by lia. apply pow2_le. lia. }
  change (2 ^ 53) with (2 * 2 ^ 52) in Hm2.
  assert (H52 : 0 < 2 ^ 52) by (apply pow2_pos; lia).
  nia.
Qed.

Section RoundBounds.

Variables (s : bool) (pm : positive) (e : Z).
Hypothesis He : -offset <= e.
Hypothesis Hpre : e <= fexp prec emax (Zpos (digits2_pos pm) + e).

Let z := binary_round_aux prec emax s (Zpos pm) e loc_Exact.

(** Rounding does not cross a float that bounds the exact value. *)
Lemma round_upper (pH : positive) (eH : Z) :
  bounded prec emax pH eH = true ->
  scaled (Zpos pm) e <= scaled (Zpos pH) eH ->
  z = S754_zero s \/
  exists (p2 : positive) (e2 : Z),
    z = S754_finite s p2 e2 /\ bounded prec emax p2 e2 = true /\
    scaled (Zpos p2) e2 <= scaled (Zpos pH) eH.
Proof.
  intros HH Hle.
  destruct (bounded_facts _ _ HH) as [HcH HeH].
  destruct (canonical_facts _ _ HcH) as (HeH' & HmH & _).
  destruct (binary_round_aux_spec s pm e Hpre)
    as (m' & m1 & Hnn & [Hfl Hcl] & Hcase & Hm1 & Hnormal & Hz).
  fold z in Hz.
  set (e1 := fexp prec emax (Zpos (digits2_pos pm) + e)) in *.
  assert (He1 : -1074 <= e1) by (unfold e1; rewrite fexp_eq; lia).
  assert (Hupper : scaled m1 e1 <= scaled (Zpos pH) eH).
  { set (A := 2 ^ (e + offset)). set (B := 2 ^ (e1 - e)) in *.
    assert (HA : 0 < A) by (apply pow2_pos; lia).
    assert (HB : 0 < B) by (apply pow2_pos; lia).
    assert (Hs1 : forall x, scaled x e1 = x * B * A).
    { intros x. unfold scaled, A, B. rewrite <- Z.mul_assoc, <- pow2_split by lia.
      f_equal. f_equal. lia. }
    destruct (Z_lt_le_dec eH e1) as [Hlow|Hhigh].
    - exfalso.
      assert (Hlt := scaled_lt_of_exp m' e1 (Zpos pH) eH HmH (Hnormal ltac:(lia)) Hlow
                       ltac:(unfold offset; lia)).
      rewrite Hs1 in Hlt. unfold scaled at 1 in Hle. fold A in Hle. nia.
    - set (C := 2 ^ (eH - e1)).
      assert (HC : 0 < C) by (apply pow2_pos; lia).
      assert (HsH : scaled (Zpos pH) eH = Zpos pH * C * B * A).
      { unfold scaled, A, B, C.
        rewrite <- !Z.mul_assoc, <- !pow2_split by lia. f_equal. f_equal. lia. }
      rewrite Hs1, HsH. rewrite HsH in Hle. unfold scaled in Hle. fold A in Hle.
      assert (Hm : Zpos pm <= Zpos pH * C * B)
        by (apply (proj2 (Z.mul_le_mono_pos_r _ _ A HA)); exact Hle).
      assert (Hm1le : m1 <= Zpos pH * C) by nia.
      apply Z.mul_le_mono_nonneg_r; [lia|].
      apply Z.mul_le_mono_nonneg_r; [lia|]. exact Hm1le. }
  destruct Hz as [[_ Hz] | (p2 & e2 & Hz & Hcan & Hsc & _)]; [left; exact Hz|].
  right. exists p2, e2.
  destruct (canonical_facts _ _ Hcan) as (He2 & _ & Hn2).
  assert (Hrange : e2 <= 971).
  { destruct (Z_le_gt_dec e2 971) as [|Hbig]; [assumption|]. exfalso.
    assert (Hlt := scaled_lt_of_exp (Zpos p2) e2 (Zpos pH) eH HmH (Hn2 ltac:(lia))
                     ltac:(lia) ltac:(unfold offset; lia)).
    lia. }
  split.
  - rewrite Hz. destruct (Z.leb_spec e2 971); [reflexivity|lia].
  - split; [|lia]. unfold bounded. rewrite Hcan. apply Z.leb_le. exact Hrange.
Qed.

(** Rounding does not cross a float that is at most the exact value. *)
Lemma round_lower (pL : positive) (eL : Z) :
  bounded prec emax pL eL = true ->
  scaled (Zpos pL) eL <= scaled (Zpos pm) e ->
  z <> S754_zero s /\
  forall (p2 : positive) (e2 : Z),
    z = S754_finite s p2 e2 -> scaled (Zpos pL) eL <= scaled (Zpos p2) e2.
Proof.
  intros HL Hle.
  destruct (bounded_facts _ _ HL) as [HcL HeL].
  destruct (canonical_facts _ _ HcL) as (HeL' & HmL & _).
  destruct (binary_round_aux_spec s pm e Hpre)
    as (m' & m1 & Hnn & [Hfl Hcl] & Hcase & Hm1 & Hnormal & Hz).
  fold z in Hz.
  set (e1 := fexp prec emax (Zpos (digits2_pos pm) + e)) in *.
  assert (He1 : -1074 <= e1) by (unfold e1; rewrite fexp_eq; lia).
  assert (Hlower : scaled (Zpos pL) eL <= scaled m' e1).
  { set (A := 2 ^ (e + offset)). set (B := 2 ^ (e1 - e)) in *.
    assert (HA : 0 < A) by (apply pow2_pos; lia).
    assert (HB : 0 < B) by (apply pow2_pos; lia).
    assert (Hs1 : forall x, scaled x e1 = x * B * A).
    { intros x. unfold scaled, A, B. rewrite <- Z.mul_assoc, <- pow2_split by lia.
      f_equal. f_equal. lia. }
    destruct (Z_lt_le_dec eL e1) as [Hlow|Hhigh].
    - apply Z.lt_le_incl.
      apply scaled_lt_of_exp; [exact HmL | apply Hnormal; lia | exact Hlow
                              | unfold offset; lia].
    - set (C := 2 ^ (eL - e1)).
      assert (HC : 0 < C) by (apply pow2_pos; lia).
      assert (HsL : scaled (Zpos pL) eL = Zpos pL * C * B * A).
      { unfold scaled, A, B, C.
        rewrite <- !Z.mul_assoc, <- !pow2_split by lia. f_equal. f_equal. lia. }
      rewrite Hs1, HsL. rewrite HsL in Hle. unfold scaled in Hle. fold A in Hle.
      assert (Hm : Zpos pL * C * B <= Zpos pm)
        by (apply (proj2 (Z.mul_le_mono_pos_r _ _ A HA)); exact Hle).
      assert (Hm' : Zpos pL * C <= m') by nia.
      apply Z.mul_le_mono_nonneg_r; [lia|].
      apply Z.mul_le_mono_nonneg_r; [lia|]. exact Hm'. }
  assert (Hpos : 0 < scaled (Zpos pL) eL)
    by (apply scaled_pos; [unfold offset|]; lia).
  assert (Hm'pos : 0 < m').
  { destruct (Z_lt_le_dec 0 m') as [|Hz0]; [assumption|]. exfalso.
    assert (m' = 0) by lia. subst m'. unfold scaled in Hlower. lia. }
  assert (Hm1ge : m' <= m1) by lia.
  destruct Hz as [[Hz0 _] | (p2 & e2 & Hz & Hcan & Hsc & _)]; [lia|].
  assert (Hfinal : scaled (Zpos pL) eL <= scaled (Zpos p2) e2).
  { rewrite Hsc. apply Z.le_trans with (scaled m' e1); [exact Hlower|].
    apply scaled_mono; [unfold offset; lia | exact Hm1ge]. }
  split.
  - rewrite Hz. destruct (e2 <=? 971); discriminate.
  - intros p3 e3 Hz3. rewrite Hz in Hz3.
    destruct (e2 <=? 971); [|discriminate]. injection Hz3 as <- <-. exact Hfinal.
Qed.

End RoundBounds.

(** ** Comparing valid floats by value *)

Lemma le_finite_pos (p1 p2 : positive) (e1 e2 : Z) :
  canonical_mantissa prec emax p1 e1 = true ->
  canonical_mantissa prec emax p2 e2 = true ->
  scaled (Zpos p1) e1 <= scaled (Zpos p2) e2 ->
  le (S754_finite false p1 e1) (S754_finite false p2 e2) = true.
Proof.
  intros H1 H2 Hle.
  destruct (canonical_facts _ _ H1) as (He1 & Hm1 & Hn1).
  destruct (canonical_facts _ _ H2) as (He2 & Hm2 & Hn2).
  unfold le, SFleb, SFcompare.
  destruct (Z.compare_spec e1 e2) as [Heq|Hlt|Hgt].
  - subst e2. change (Pos.compare_cont Eq p1 p2) with (Pos.compare p1 p2).
    destruct (Pos.compare_spec p1 p2) as [| |Hgt]; try reflexivity.
    exfalso. unfold scaled in Hle.
    assert (0 < 2 ^ (e1 + offset)) by (apply pow2_pos; unfold offset; lia).
    nia.
  - reflexivity.
  - exfalso.
    assert (Hlt := scaled_lt_of_exp (Zpos p1) e1 (Zpos p2) e2 Hm2 (Hn1 ltac:(lia))
                     ltac:(lia) ltac:(unfold offset; lia)).
    lia.
Qed.

Lemma le_finite_neg (p1 p2 : positive) (e1 e2 : Z) :
  le (S754_finite true p1 e1) (S754_finite true p2 e2)
  = le (S754_finite false p2 e2) (S754_finite false p1 e1).
Proof.
  unfold le, SFleb, SFcompare.
  rewrite (Z.compare_antisym e1 e2).
  change (Pos.compare_cont Eq p1 p2) with (Pos.compare p1 p2).
  change (Pos.compare_cont Eq p2 p1) with (Pos.compare p2 p1).
  rewrite (Pos.compare_antisym p1 p2).
  destruct (e1 ?= e2); cbn; try reflexivity;
    destruct (p1 ?= p2)%positive; reflexivity.
Qed.

(** ** [binary_round]: aligning first *)

Lemma digits2_unique (p : positive) (D : Z) :
  2 ^ (D - 1) <= Zpos p < 2 ^ D -> Zpos (digits2_pos p) = D.
Proof.
  intros [Hlo Hhi]. destruct (digits2_bounds p) as [Hlo' Hhi'].
  set (d := Zpos (digits2_pos p)) in *.
  assert (0 < d) by (unfold d; lia).
  assert (0 < D).
  { destruct (Z_lt_le_dec 0 D) as [|Hneg]; [assumption|]. exfalso.
    assert (2 ^ D <= 2 ^ 0) by (apply pow2_le; lia). change (2 ^ 0) with 1 in *. lia. }
  assert (D - 1 < d) by (apply pow2_lt_inv; lia).
  assert (d - 1 < D) by (apply pow2_lt_inv; lia).
  lia.
Qed.

Lemma shl_align_spec (p : positive) (e e' : Z) :
  snd (shl_align p e e') = Z.min e e' /\
  Zpos (fst (shl_align p e e')) = Zpos p * 2 ^ (e - Z.min e e').
Proof.
  unfold shl_align. destruct (e' - e) as [|d|d] eqn:E; cbn [fst snd].
  - replace (Z.min e e') with e by lia. rewrite Z.sub_diag. split; [reflexivity|lia].
  - replace (Z.min e e') with e by lia. rewrite Z.sub_diag. split; [reflexivity|lia].
  - replace (Z.min e e') with e' by lia. split; [reflexivity|].
    change (Pos.iter xO p d) with (shift_pos d p). rewrite shift_pos_correct.
    change (Z.pow_pos 2 d) with (2 ^ Zpos d). replace (e - e') with (Zpos d) by lia. lia.
Qed.

Lemma scaled_shl (m e e2 : Z) :
  -offset <= e2 -> e2 <= e -> scaled (m * 2 ^ (e - e2)) e2 = scaled m e.
Proof.
  intros Hoff Hle. unfold scaled.
  rewrite <- Z.mul_assoc, <- pow2_split by lia. f_equal. f_equal. lia.
Qed.

Lemma digits2_shl (p q : positive) (k : Z) :
  0 <= k -> Zpos q = Zpos p * 2 ^ k ->
  Zpos (digits2_pos q) = Zpos (digits2_pos p) + k.
Proof.
  intros Hk Hq. apply digits2_unique. rewrite Hq.
  destruct (digits2_bounds p) as [Hlo Hhi].
  set (d := Zpos (digits2_pos p)) in *.
  assert (0 < d) by (unfold d; lia).
  assert (0 < 2 ^ k) by (apply pow2_pos; lia).
  replace (d + k - 1) with ((d - 1) + k) by lia.
  rewrite !pow2_split by lia. nia.
Qed.

(** [binary_round] is [binary_round_aux] on an aligned mantissa of the same
    value, which meets the precondition of the rounding lemmas. *)
Lemma binary_round_aligned (s : bool) (p : positive) (e : Z) :
  -offset <= e ->
  exists (p2 : positive) (e2 : Z),
    binary_round prec emax s p e = binary_round_aux prec emax s (Zpos p2) e2 loc_Exact /\
    -offset <= e2 /\
    e2 <= fexp prec emax (Zpos (digits2_pos p2) + e2) /\
    scaled (Zpos p2) e2 = scaled (Zpos p) e.
Proof.
  intros Hoff. unfold binary_round.
  set (e' := fexp prec emax (Zpos (digits2_pos p) + e)).
  assert (He' : e' = Z.max (Zpos (digits2_pos p) + e - 53) (-1074))
    by (unfold e'; apply fexp_eq).
  destruct (shl_align_spec p e e') as [Hsnd Hfst].
  destruct (shl_align p e e') as [p2 e2]. cbn [fst snd] in *.
  exists p2, e2. split; [reflexivity|].
  assert (Hk : 0 <= e - e2) by lia.
  split; [unfold offset in *; lia|]. split.
  - rewrite (digits2_shl p p2 (e - e2) Hk) by (rewrite Hfst, Hsnd; reflexivity).
    rewrite fexp_eq. lia.
  - rewrite Hfst, Hsnd. rewrite <- Hsnd. apply scaled_shl; [unfold offset in *|]; lia.
Qed.

Lemma binary_round_upper (s : bool) (p pH : positive) (e eH : Z) :
  -offset <= e ->
  bounded prec emax pH eH = true ->
  scaled (Zpos p) e <= scaled (Zpos pH) eH ->
  binary_round prec emax s p e = S754_zero s \/
  exists (p2 : positive) (e2 : Z),
    binary_round prec emax s p e = S754_finite s p2 e2 /\
    bounded prec emax p2 e2 = true /\
    scaled (Zpos p2) e2 <= scaled (Zpos pH) eH.
Proof.
  intros Hoff HH Hle.
  destruct (binary_round_aligned s p e Hoff) as (p2 & e2 & -> & Hoff2 & Hpre & Hsc).
  apply round_upper; [assumption | assumption | assumption |]. rewrite Hsc. exact Hle.
Qed.

Lemma binary_round_lower (s : bool) (p pL : positive) (e eL : Z) :
  -offset <= e ->
  bounded prec emax pL eL = true ->
  scaled (Zpos pL) eL <= scaled (Zpos p) e ->
  binary_round prec emax s p e <> S754_zero s /\
  forall (p2 : positive) (e2 : Z),
    binary_round prec emax s p e = S754_finite s p2 e2 ->
    scaled (Zpos pL) eL <= scaled (Zpos p2) e2.
Proof.
  intros Hoff HL Hle.
  destruct (binary_round_aligned s p e Hoff) as (p2 & e2 & -> & Hoff2 & Hpre & Hsc).
  apply round_lower; [assumption | assumption | assumption |]. rewrite Hsc. exact Hle.
Qed.

Lemma offset_val : offset = 1074 + 1074.
Proof. reflexivity. Qed.



(** ** The draws of [random.random()] *)

(** A draw is a zero or a valid positive number below one. *)
Lemma unit_interval_cases (r : float) :
  in_unit_interval r = true ->
  (exists s, r = S754_zero s) \/
  exists (p : positive) (e : Z),
    r = S754_finite false p e /\ bounded prec emax p e = true /\
    scaled (Zpos p) e < 2 ^ offset.
Proof.
  unfold in_unit_interval. intros H.
  apply andb_true_iff in H. destruct H as [H Hlt].
  apply andb_true_iff in H. destruct H as [Hvalid Hge].
  destruct r as [s|s| |s p e].
  - left. exists s. reflexivity.
  - destruct s; [discriminate Hge | discriminate Hlt].
  - discriminate Hge.
  - right. destruct s; [discriminate Hge|]. exists p, e.
    split; [reflexivity|]. split; [exact Hvalid|].
    destruct (bounded_facts _ _ Hvalid) as [Hcan _].
    destruct (canonical_facts _ _ Hcan) as (He & Hp & _).
    clear Hvalid Hge Hcan.
    change (of_int 1) with (S754_finite false 4503599627370496 (-52)) in Hlt.
    unfold lt, SFltb, SFcompare in Hlt.
    pose proof offset_val as Hoff.
    assert (HA : 0 < 2 ^ (e + offset)) by (apply pow2_pos; plia).
    unfold scaled.
    destruct (Z.compare_spec e (-52)) as [Heq|Hlow|Hhigh]; [| |discriminate Hlt].
    + pose proof (Pos.compare_spec p 4503599627370496) as Hc.
      unfold Pos.compare in Hc. revert Hlt.
      destruct Hc as [Hc|Hc|Hc]; intros Hlt; try discriminate Hlt.
      assert (Hp52 : Zpos p < 2 ^ 52)
        by (change (2 ^ 52) with (Zpos 4503599627370496);
            exact Hc).
      clear Hc.
      apply Z.lt_le_trans with (2 ^ 52 * 2 ^ (e + offset)).
      * apply Z.mul_lt_mono_pos_r; assumption.
      * rewrite <- pow2_split by plia. apply pow2_le. plia.
    + apply Z.lt_le_trans with (2 ^ 53 * 2 ^ (e + offset)).
      * apply Z.mul_lt_mono_pos_r; assumption.
      * rewrite <- pow2_split by plia. apply pow2_le. plia.
Qed.

(** ** Multiplying by a draw *)

(** A normal number times a number below one is rounded to at most that
    normal number. *)
Lemma mul_unit_upper (pc p : positive) (ec e : Z) :
  bounded prec emax pc ec = true -> 2 ^ 52 <= Zpos pc ->
  bounded prec emax p e = true -> scaled (Zpos p) e < 2 ^ offset ->
  let x := mul (S754_finite false pc ec) (S754_finite false p e) in
  x = S754_zero false \/
  exists (p2 : positive) (e2 : Z),
    x = S754_finite false p2 e2 /\ bounded prec emax p2 e2 = true /\
    scaled (Zpos p2) e2 <= scaled (Zpos pc) ec.
Proof.
  intros Hc Hnormal Hr Hlt. cbv zeta.
  destruct (bounded_facts _ _ Hc) as [Hcc _].
  destruct (canonical_facts _ _ Hcc) as (Hec & _ & _).
  destruct (bounded_facts _ _ Hr) as [Hcr _].
  destruct (canonical_facts _ _ Hcr) as (Her & _ & _).
  pose proof offset_val as Hoff.
  unfold mul, SFmul. cbn [xorb].
  apply round_upper.
  - plia.
  - rewrite fexp_eq.
    destruct (digits2_bounds (pc * p)) as [_ Hhi].
    set (d := Zpos (digits2_pos (pc * p))) in *.
    assert (52 < d).
    { apply pow2_lt_inv; [unfold d; plia|]. rewrite Pos2Z.inj_mul in Hhi.
      assert (Hp1 : 1 <= Zpos p) by plia.
      assert (Hc0 : 0 < Zpos pc) by plia.
      revert Hhi Hnormal Hp1 Hc0. generalize (2 ^ d) (2 ^ 52) (Zpos pc) (Zpos p).
      intros. nia. }
    plia.
  - exact Hc.
  - unfold scaled in *. rewrite Pos2Z.inj_mul.
    remember 1074 as h eqn:Hh.
    replace (ec + e + offset) with ((ec + h) + (e + h)) by plia.
    replace (ec + offset) with ((ec + h) + h) by plia.
    replace (e + offset) with ((e + h) + h) in Hlt by plia.
    replace offset with (h + h) in Hlt by plia.
    rewrite (pow2_split (ec + h) (e + h)), (pow2_split (ec + h) h) by plia.
    rewrite (pow2_split (e + h) h), (pow2_split h h) in Hlt by plia.
    assert (HA : 0 < 2 ^ (e + h)) by (apply pow2_pos; plia).
    assert (HB : 0 < 2 ^ (ec + h)) by (apply pow2_pos; plia).
    assert (HC : 0 < 2 ^ h) by (apply pow2_pos; plia).
    assert (Hpc : 0 < Zpos pc) by plia.
    revert Hlt HA HB HC Hpc.
    generalize (2 ^ (e + h)) (2 ^ (ec + h)) (2 ^ h) (Zpos pc) (Zpos p).
    intros A B C c r Hlt HA HB HC Hpc.
    clear - Hlt HA HB HC Hpc.
    rewrite Z.mul_assoc in Hlt.
    assert (Hr' : r * A < C) by (apply (proj2 (Z.mul_lt_mono_pos_r C _ _ HC)); exact Hlt).
    assert (Hstep : r * A * B <= C * B) by nia.
    replace (c * r * (B * A)) with (c * (r * A * B)) by ring.
    replace (c * (B * C)) with (c * (C * B)) by ring.
    apply Z.mul_le_mono_nonneg_l; [lia | exact Hstep].
Qed.

(** ** Adding to the product *)

(** The sum of two finite numbers is the rounding of their exact sum. *)
Lemma add_finite (sa : bool) (pa px : positive) (ea ex : Z) :
  -1074 <= ea -> -1074 <= ex ->
  exists n : Z,
    add (S754_finite sa pa ea) (S754_finite false px ex)
    = binary_normalize prec emax n (Z.min ea ex) false /\
    scaled n (Z.min ea ex)
    = scaled (Zpos px) ex + (if sa then -1 else 1) * scaled (Zpos pa) ea.
Proof.
  intros Hea Hex. unfold add, SFadd.
  pose proof offset_val as Hoff.
  destruct (shl_align_spec pa ea (Z.min ea ex)) as [_ Ha].
  destruct (shl_align_spec px ex (Z.min ea ex)) as [_ Hx].
  replace (Z.min ea (Z.min ea ex)) with (Z.min ea ex) in Ha by plia.
  replace (Z.min ex (Z.min ea ex)) with (Z.min ea ex) in Hx by plia.
  eexists. split; [reflexivity|].
  assert (Hsa : scaled (Zpos (fst (shl_align pa ea (Z.min ea ex)))) (Z.min ea ex)
                = scaled (Zpos pa) ea).
  { rewrite Ha. apply scaled_shl; plia. }
  assert (Hsx : scaled (Zpos (fst (shl_align px ex (Z.min ea ex)))) (Z.min ea ex)
                = scaled (Zpos px) ex).
  { rewrite Hx. apply scaled_shl; plia. }
  rewrite <- Hsa, <- Hsx. unfold scaled.
  destruct sa; cbn [cond_Zopp]; ring.
Qed.

Lemma scaled_consts :
  scaled 4503599627370496 (-52) = 1 * 2 ^ offset /\
  scaled 5629499534213120 (-50) = 5 * 2 ^ offset /\
  scaled 5629499534213120 (-49) = 10 * 2 ^ offset /\
  scaled 5497008383066112 (-39) = 9999 * 2 ^ offset /\
  scaled 5497558138880000 (-39) = 10000 * 2 ^ offset /\
  scaled 6871947673600000 (-36) = 100000 * 2 ^ offset.
Proof.
  split; [vm_compute; reflexivity|]. split; [vm_compute; reflexivity|].
  split; [vm_compute; reflexivity|]. split; [vm_compute; reflexivity|].
  split; vm_compute; reflexivity.
Qed.

Lemma binary_normalize_pos (q : positive) (e : Z) :
  binary_normalize prec emax (Zpos q) e false = binary_round prec emax false q e.
Proof. reflexivity. Qed.

Lemma binary_normalize_neg (q : positive) (e : Z) :
  binary_normalize prec emax (Zneg q) e false = binary_round prec emax true q e.
Proof. reflexivity. Qed.

(** ** The three ranges *)

Lemma bounded_canonical (p : positive) (e : Z) :
  bounded prec emax p e = true -> canonical_mantissa prec emax p e = true.
Proof. intros H. apply bounded_facts in H. apply H. Qed.

(** [Time]: [0 + 100000 * r]. *)
Lemma uniform_time (r : float) :
  in_unit_interval r = true -> between 0 100000 (uniform 0 100000 r) = true.
Proof.
  intros Hr. destruct (unit_interval_cases r Hr) as [[s ->] | (p & e & -> & Hb & Hlt)].
  - destruct s; vm_compute; reflexivity.
  - unfold uniform.
    change (of_int (100000 - 0)) with (S754_finite false 6871947673600000 (-36)).
    change (of_int 0) with (S754_zero false).
    destruct (mul_unit_upper 6871947673600000 p (-36) e eq_refl
                ltac:(apply Z.leb_le; reflexivity) Hb Hlt)
      as [Hx | (p2 & e2 & Hx & Hb2 & Hle)]; rewrite Hx.
    + reflexivity.
    + unfold between. change (of_int 0) with (S754_zero false).
      change (of_int 100000) with (S754_finite false 6871947673600000 (-36)).
      change (add (S754_zero false) (S754_finite false p2 e2))
        with (S754_finite false p2 e2).
      apply andb_true_iff. split; [reflexivity|].
      apply le_finite_pos; [exact (bounded_canonical _ _ Hb2) | reflexivity | exact Hle].
Qed.

(** [Amount]: [1 + 9999 * r]. *)
Lemma uniform_amount (r : float) :
  in_unit_interval r = true -> between 1 10000 (uniform 1 10000 r) = true.
Proof.
  intros Hr. destruct (unit_interval_cases r Hr) as [[s ->] | (p & e & -> & Hb & Hlt)].
  - destruct s; vm_compute; reflexivity.
  - unfold uniform.
    change (of_int (10000 - 1)) with (S754_finite false 5497008383066112 (-39)).
    change (of_int 1) with (S754_finite false 4503599627370496 (-52)).
    destruct (mul_unit_upper 5497008383066112 p (-39) e eq_refl
                ltac:(apply Z.leb_le; reflexivity) Hb Hlt)
      as [Hx | (p2 & e2 & Hx & Hb2 & Hle)]; rewrite Hx.
    + vm_compute; reflexivity.
    + destruct (canonical_facts _ _ (bounded_canonical _ _ Hb2)) as (He2 & _ & _).
      destruct (add_finite false 4503599627370496 p2 (-52) e2 ltac:(lia) He2)
        as (n & -> & Hn).
      destruct scaled_consts as (H1 & _ & _ & H9999 & H10000 & _).
      pose proof offset_val as Hoff.
      assert (Hx0 : 0 < scaled (Zpos p2) e2) by (apply scaled_pos; plia).
      rewrite H1 in Hn. rewrite H9999 in Hle.
      assert (Hpow : 0 < 2 ^ offset) by (apply pow2_pos; plia).
      set (ez := Z.min (-52) e2) in *.
      assert (Hez : -offset <= ez) by (unfold ez; plia).
      assert (Hnpos : 0 < n).
      { assert (Hs : 0 < scaled n ez) by (rewrite Hn; lia).
        unfold scaled in Hs.
        assert (0 < 2 ^ (ez + offset)) by (apply pow2_pos; plia).
        nia. }
      destruct n as [|q|q]; try plia.
      rewrite binary_normalize_pos.
      assert (Hup : scaled (Zpos q) ez <= scaled 5497558138880000 (-39))
        by (rewrite H10000, Hn; lia).
      assert (Hlo : scaled 4503599627370496 (-52) <= scaled (Zpos q) ez)
        by (rewrite H1, Hn; lia).
      destruct (binary_round_lower false q 4503599627370496 ez (-52) Hez eq_refl Hlo)
        as [Hnz Hge].
      destruct (binary_round_upper false q 5497558138880000 ez (-39) Hez eq_refl Hup)
        as [Hz | (p3 & e3 & Hy & Hb3 & Hle3)]; [contradiction|].
      specialize (Hge p3 e3 Hy). rewrite Hy.
      unfold between.
      change (of_int 1) with (S754_finite false 4503599627370496 (-52)).
      change (of_int 10000) with (S754_finite false 5497558138880000 (-39)).
      apply andb_true_iff. split.
      * apply le_finite_pos; [reflexivity | exact (bounded_canonical _ _ Hb3) | exact Hge].
      * apply le_finite_pos; [exact (bounded_canonical _ _ Hb3) | reflexivity | exact Hle3].
Qed.

(** [V1] to [V28]: [-5 + 10 * r]. *)
Lemma uniform_v (r : float) :
  in_unit_interval r = true -> between (-5) 5 (uniform (-5) 5 r) = true.
Proof.
  intros Hr. destruct (unit_interval_cases r Hr) as [[s ->] | (p & e & -> & Hb & Hlt)].
  - destruct s; vm_compute; reflexivity.
  - unfold uniform.
    change (of_int (5 - -5)) with (S754_finite false 5629499534213120 (-49)).
    change (of_int (-5)) with (S754_finite true 5629499534213120 (-50)).
    destruct (mul_unit_upper 5629499534213120 p (-49) e eq_refl
                ltac:(apply Z.leb_le; reflexivity) Hb Hlt)
      as [Hx | (p2 & e2 & Hx & Hb2 & Hle)]; rewrite Hx.
    + vm_compute; reflexivity.
    + destruct (canonical_facts _ _ (bounded_canonical _ _ Hb2)) as (He2 & _ & _).
      destruct (add_finite true 5629499534213120 p2 (-50) e2 ltac:(lia) He2)
        as (n & -> & Hn).
      destruct scaled_consts as (_ & H5 & H10 & _).
      pose proof offset_val as Hoff.
      assert (Hx0 : 0 < scaled (Zpos p2) e2) by (apply scaled_pos; plia).
      rewrite H5 in Hn. rewrite H10 in Hle.
      assert (Hpow : 0 < 2 ^ offset) by (apply pow2_pos; plia).
      set (ez := Z.min (-50) e2) in *.
      assert (Hez : -offset <= ez) by (unfold ez; plia).
      unfold between.
      change (of_int (-5)) with (S754_finite true 5629499534213120 (-50)).
      change (of_int 5) with (S754_finite false 5629499534213120 (-50)).
      destruct n as [|q|q].
      * reflexivity.
      * rewrite binary_normalize_pos.
        assert (Hup : scaled (Zpos q) ez <= scaled 5629499534213120 (-50))
          by (rewrite H5, Hn; lia).
        destruct (binary_round_upper false q 5629499534213120 ez (-50) Hez eq_refl Hup)
          as [-> | (p3 & e3 & -> & Hb3 & Hle3)]; [reflexivity|].
        apply andb_true_iff. split; [reflexivity|].
        apply le_finite_pos; [exact (bounded_canonical _ _ Hb3) | reflexivity | exact Hle3].
      * rewrite binary_normalize_neg.
        assert (Hup : scaled (Zpos q) ez <= scaled 5629499534213120 (-50)).
        { rewrite H5. unfold scaled in Hn |- *.
          change (Zneg q) with (- Zpos q) in Hn. lia. }
        destruct (binary_round_upper true q 5629499534213120 ez (-50) Hez eq_refl Hup)
          as [-> | (p3 & e3 & -> & Hb3 & Hle3)]; [reflexivity|].
        apply andb_true_iff. split; [|reflexivity].
        rewrite le_finite_neg.
        apply le_finite_pos; [exact (bounded_canonical _ _ Hb3) | reflexivity | exact Hle3].
Qed.

(** ** The generator *)

Lemma stub_random_contract (p : float) : random_contract (stub_runtime p).
Proof.
  intros n. cbn [random_random stub_runtime].
  assert (Hmod : (n mod 7 < 7)%nat) by (apply Nat.mod_upper_bound; discriminate).
  destruct (n mod 7)%nat as [|[|[|[|[|[|[|k]]]]]]]; try reflexivity.
  exfalso. clear - Hmod. do 7 apply Nat.succ_lt_mono in Hmod. inversion Hmod.
Qed.

(** C8: whatever the state of the random source, whose draws are floats of
    [[0, 1)], the generator returns a transaction with the thirty fields, in
    which [Time] is in [[0, 100000]], [Amount] in [[1, 10000]] and every
    other field, [V1] to [V28], in [[-5, 5]]; the bounds hold for the
    binary64 arithmetic of [a + (b - a) * random()], rounding included. *)
Theorem generated_fields_in_range (rt : runtime) (w : world) :
  random_contract rt ->
  exists (transaction : fdict) (w' : world),
    generate_random_transaction rt w = (Return transaction, w') /\
    keys transaction = field_names /\
    Forall (fun kv => in_range kv = true) transaction /\
    (forall x, get "Time" transaction = Some x -> between 0 100000 x = true) /\
    (forall x, get "V1" transaction = Some x -> between (-5) 5 x = true) /\
    (forall x, get "V28" transaction = Some x -> between (-5) 5 x = true) /\
    (forall x, get "Amount" transaction = Some x -> between 1 10000 x = true).
Proof.
  intros Hdraws. rewrite generate_random_transaction_run.
  eexists; eexists. split; [reflexivity|]. split; [reflexivity|].
  unfold generated.
  split.
  - apply Forall_cons; [exact (uniform_time _ (Hdraws _))|].
    do 28 (apply Forall_cons; [exact (uniform_v _ (Hdraws _))|]).
    apply Forall_cons; [exact (uniform_amount _ (Hdraws _))|].
    apply Forall_nil.
  - split; [|split; [|split]]; intros x Hx; cbn in Hx; injection Hx as <-.
    + exact (uniform_time _ (Hdraws _)).
    + exact (uniform_v _ (Hdraws _)).
    + exact (uniform_v _ (Hdraws _)).
    + exact (uniform_amount _ (Hdraws _)).
Qed.

Lemma generated_fields_in_range_witness :
  exists (transaction : fdict) (w' : world),
    generate_random_transaction (stub_runtime lit_0_5) empty_world
    = (Return transaction, w') /\
    keys transaction = field_names /\
    Forall (fun kv => in_range kv = true) transaction.
Proof.
  destruct (generated_fields_in_range (stub_runtime lit_0_5) empty_world
              (stub_random_contract lit_0_5))
    as (transaction & w' & Hrun & Hkeys & Hall & _).
  exists transaction, w'. split; [exact Hrun|]. split; [exact Hkeys | exact Hall].
Defined.

(** The ends of the ranges, at the smallest and the largest draw. *)
Example uniform_at_zero :
  uniform 0 100000 (S754_zero false) = of_int 0 /\
  uniform (-5) 5 (S754_zero false) = of_int (-5) /\
  uniform 1 10000 (S754_zero false) = of_int 1.
Proof. repeat split; vm_compute; reflexivity. Qed.

Example uniform_at_largest_draw :
  in_unit_interval largest_draw = true /\
  lt (uniform 0 100000 largest_draw) (of_int 100000) = true /\
  lt (uniform (-5) 5 largest_draw) (of_int 5) = true /\
  lt (uniform 1 10000 largest_draw) (of_int 10000) = true.
Proof. repeat split; vm_compute; reflexivity. Qed.

(** ** The store only grows *)

Lemma dashboard_summary_raise (rt : runtime) (w w' : world) (e : exn) :
  dashboard_summary rt w = (Raise e, w') ->
  e = PyMongoError /\ collection w' = collection w.
Proof.
  unfold dashboard_summary.
  repeat (unfold bind at 1; rewrite count_documents_run;
          match goal with
          | |- context [mongo_up rt ?n] =>
              destruct (mongo_up rt n);
              [|intros Hrun; injection Hrun as <- <-; split; reflexivity]
          end).
  discriminate.
Qed.

Lemma step_appends (rt : runtime) (w w' : world) :
  step rt w w' ->
  collection w' = collection w \/ exists doc, collection w' = collection w ++ [doc].
Proof.
  intros Hstep. destruct Hstep as [t w|w|w|w].
  - destruct (score_transaction rt t w) as [[resp|e] w'] eqn:Hrun; cbn [snd].
    + destruct (score_transaction_returns _ _ _ _ _ Hrun)
        as (p & tops & _ & _ & _ & _ & ->).
      right. eexists. reflexivity.
    + left. exact (score_transaction_raise _ _ _ _ _ Hrun).
  - left. rewrite get_transactions_run. cbv zeta.
    destruct (mongo_up rt (mongo_calls w)); reflexivity.
  - left. destruct (dashboard_summary rt w) as [[d|e] w'] eqn:Hrun; cbn [snd].
    + exact (proj2 (dashboard_summary_returns _ _ _ _ Hrun)).
    + exact (proj2 (dashboard_summary_raise _ _ _ _ Hrun)).
  - destruct (loop_body rt w) as [[[]|e] w'] eqn:Hrun; cbn [snd].
    + destruct (loop_body_returns _ _ _ Hrun) as (p & _ & _ & ->).
      right. eexists. reflexivity.
    + left. exact (loop_body_raise _ _ _ _ Hrun).
Qed.

(** X1: whatever requests are served and whatever the background task does,
    in any order and whether they succeed or fail, the documents that were
    in the collection stay in it, unchanged and in the same positions: the
    collection after a run is the collection before it, followed by the
    documents the run added.  So no count of the dashboard, and no count of
    any other query, ever goes down. *)
Theorem store_append_only (rt : runtime) (w w' : world) :
  steps rt w w' ->
  exists added : list dict,
    collection w' = collection w ++ added /\
    forall query : list (string * string),
      count query (collection w) <= count query (collection w').
Proof.
  intros Hrun.
  assert (Hadded : exists added : list dict, collection w' = collection w ++ added).
  { induction Hrun as [w | w w' w'' _ [added IH] Hstep].
    - exists []. rewrite app_nil_r. reflexivity.
    - destruct (step_appends _ _ _ Hstep) as [Hsame | [doc Hdoc]].
      + exists added. rewrite Hsame. exact IH.
      + exists (added ++ [doc]). rewrite Hdoc, IH, app_assoc. reflexivity. }
  destruct Hadded as [added Hadded]. exists added. split; [exact Hadded|].
  intros query. rewrite Hadded, count_app.
  assert (H := count_nonneg query added). lia.
Qed.

Lemma store_append_only_witness :
  let rt := stub_runtime lit_0_5 in
  let w1 := snd (score_transaction rt example_transaction empty_world) in
  let w2 := snd (dashboard_summary rt w1) in
  let w3 := snd (loop_body rt w2) in
  exists added : list dict,
    collection w3 = collection w1 ++ added /\
    forall query : list (string * string),
      count query (collection w1) <= count query (collection w3).
Proof.
  intros rt w1 w2 w3.
  apply (store_append_only rt w1 w3).
  exact (steps_step rt w1 w2 w3
           (steps_step rt w1 w1 w2 (steps_refl rt w1) (step_dashboard rt w1))
           (step_loop rt w2)).
Defined.

(** ** What the collection holds *)

Lemma paired_assigned (doc : dict) (p : float) :
  get "risk_level" doc = Some (VStr (fst (assigned p))) ->
  get "decision" doc = Some (VStr (snd (assigned p))) ->
  paired doc = true.
Proof.
  intros Hr Hd. unfold paired, verdicts, has_verdict. cbn [existsb fst snd].
  rewrite Hr, Hd. unfold assigned.
  destruct (gt p lit_0_75), (gt p lit_0_40); reflexivity.
Qed.

Lemma keys_generated (rt : runtime) (n : nat) : keys (generated rt n) = field_names.
Proof. reflexivity. Qed.

Lemma step_well_formed (rt : runtime) (w w' : world) :
  step rt w w' -> Forall well_formed (collection w) -> Forall well_formed (collection w').
Proof.
  intros Hstep Hwf. destruct Hstep as [t w|w|w|w].
  - destruct (score_transaction rt t w) as [[resp|e] w'] eqn:Hrun; cbn [snd].
    + destruct (score_transaction_returns _ _ _ _ _ Hrun)
        as (p & tops & _ & _ & _ & _ & ->).
      unfold after_insert; cbn [collection].
      apply Forall_app. split; [exact Hwf|]. apply Forall_cons; [|apply Forall_nil].
      split; [left; reflexivity|].
      split; [exists (TransactionInput_dict t); split; reflexivity|].
      split; [eexists; reflexivity|].
      split; [apply (paired_assigned _ p); reflexivity|].
      eexists; reflexivity.
    + rewrite (score_transaction_raise _ _ _ _ _ Hrun). exact Hwf.
  - rewrite get_transactions_run. cbv zeta.
    destruct (mongo_up rt (mongo_calls w)); exact Hwf.
  - destruct (dashboard_summary rt w) as [[d|e] w'] eqn:Hrun; cbn [snd].
    + rewrite (proj2 (dashboard_summary_returns _ _ _ _ Hrun)). exact Hwf.
    + rewrite (proj2 (dashboard_summary_raise _ _ _ _ Hrun)). exact Hwf.
  - destruct (loop_body rt w) as [[[]|e] w'] eqn:Hrun; cbn [snd].
    + destruct (loop_body_returns _ _ _ Hrun) as (p & _ & _ & ->).
      apply Forall_app. split; [exact Hwf|]. apply Forall_cons; [|apply Forall_nil].
      split; [right; reflexivity|].
      split; [exists (generated rt (random_calls w)); split; reflexivity|].
      split; [eexists; reflexivity|].
      split; [apply (paired_assigned _ p); reflexivity|].
      eexists; reflexivity.
    + rewrite (loop_body_raise _ _ _ _ Hrun). exact Hwf.
Qed.

(** X2: every document of every collection the system reaches from an
    empty one is a complete record: it has the keys of one of the two
    storing paths, an [input] with the thirty fields in order, a float
    [fraud_probability], a [timestamp], and a risk level with the decision
    that belongs to it (High with Block, Medium with Review, Low with
    Approve). *)
Theorem stored_records_well_formed (rt : runtime) (w : world) :
  reachable rt w -> Forall well_formed (collection w).
Proof.
  induction 1 as [w Hempty | w w' _ IH Hstep].
  - rewrite Hempty. apply Forall_nil.
  - exact (step_well_formed _ _ _ Hstep IH).
Qed.

Lemma stored_records_well_formed_witness :
  let rt := stub_runtime lit_0_9 in
  let w := snd (loop_body rt (snd (score_transaction rt example_transaction empty_world))) in
  List.length (collection w) = 2%nat /\ Forall well_formed (collection w).
Proof.
  intros rt w. split; [vm_compute; reflexivity|].
  apply (stored_records_well_formed rt w).
  exact (reachable_step rt _ _
           (reachable_step rt _ _ (reachable_start rt empty_world eq_refl)
              (step_score rt example_transaction empty_world))
           (step_loop rt _)).
Defined.

(** Every action of the system stores, if anything, a document with one
    of the three verdicts. *)
Lemma step_paired (rt : runtime) (w w' : world) :
  step rt w w' ->
  Forall (fun doc => paired doc = true) (collection w) ->
  Forall (fun doc => paired doc = true) (collection w').
Proof.
  intros Hstep Hc.
  destruct (step_appends _ _ _ Hstep) as [-> | [doc Hdoc]]; [exact Hc|].
  rewrite Hdoc. apply Forall_app. split; [exact Hc|].
  apply Forall_cons; [|apply Forall_nil].
  destruct Hstep as [t w|w|w|w].
  - destruct (score_transaction rt t w) as [[resp|e] w'] eqn:Hrun; cbn [snd] in Hdoc.
    + destruct (score_transaction_returns _ _ _ _ _ Hrun)
        as (p & tops & _ & _ & _ & _ & ->).
      unfold after_insert in Hdoc; cbn [collection] in Hdoc.
      apply app_inv_head in Hdoc. injection Hdoc as <-.
      apply (paired_assigned _ p); reflexivity.
    + rewrite (score_transaction_raise _ _ _ _ _ Hrun) in Hdoc.
      apply (f_equal (@List.length dict)) in Hdoc. rewrite length_app in Hdoc.
      cbn [List.length] in Hdoc. lia.
  - rewrite get_transactions_run in Hdoc. cbv zeta in Hdoc.
    destruct (mongo_up rt (mongo_calls w)); cbn [snd collection] in Hdoc;
      apply (f_equal (@List.length dict)) in Hdoc; rewrite length_app in Hdoc;
      cbn [List.length] in Hdoc; lia.
  - destruct (dashboard_summary rt w) as [[d|e] w'] eqn:Hrun; cbn [snd] in Hdoc.
    + rewrite (proj2 (dashboard_summary_returns _ _ _ _ Hrun)) in Hdoc.
      apply (f_equal (@List.length dict)) in Hdoc. rewrite length_app in Hdoc.
      cbn [List.length] in Hdoc. lia.
    + rewrite (proj2 (dashboard_summary_raise _ _ _ _ Hrun)) in Hdoc.
      apply (f_equal (@List.length dict)) in Hdoc. rewrite length_app in Hdoc.
      cbn [List.length] in Hdoc. lia.
  - destruct (loop_body rt w) as [[[]|e] w'] eqn:Hrun; cbn [snd] in Hdoc.
    + destruct (loop_body_returns _ _ _ Hrun) as (p & _ & _ & Hc').
      rewrite Hc' in Hdoc. apply app_inv_head in Hdoc. injection Hdoc as <-.
      apply (paired_assigned _ p); reflexivity.
    + rewrite (loop_body_raise _ _ _ _ Hrun) in Hdoc.
      apply (f_equal (@List.length dict)) in Hdoc. rewrite length_app in Hdoc.
      cbn [List.length] in Hdoc. lia.
Qed.

Lemma count_paired (c : list dict) (risk_level decision : string) :
  In (risk_level, decision) verdicts ->
  Forall (fun doc => paired doc = true) c ->
  count [("risk_level", risk_level)] c = count [("decision", decision)] c.
Proof.
  intros Hin Hc. unfold count. f_equal.
  induction Hc as [|doc c Hdoc _ IH]; [reflexivity|].
  cbn [filter].
  assert (Hsame : matches [("risk_level", risk_level)] doc
                  = matches [("decision", decision)] doc).
  { unfold matches. cbn [forallb fst snd]. rewrite !andb_true_r.
    unfold paired, verdicts, has_verdict in Hdoc. cbn [existsb fst snd] in Hdoc.
    destruct (get "risk_level" doc) as [[| |r| | | |]|]; try discriminate Hdoc.
    destruct (get "decision" doc) as [[| |d| | | |]|]; try discriminate Hdoc.
    cbn [field_matches].
    rewrite orb_false_r in Hdoc.
    apply orb_true_iff in Hdoc. destruct Hdoc as [Hdoc|Hdoc];
      [|apply orb_true_iff in Hdoc; destruct Hdoc as [Hdoc|Hdoc]];
      apply andb_true_iff in Hdoc; destruct Hdoc as [Hr Hd];
      apply String.eqb_eq in Hr, Hd; subst r d;
      destruct Hin as [Hin|[Hin|[Hin|[]]]]; injection Hin as <- <-; reflexivity. }
  rewrite Hsame. destruct (matches [("decision", decision)] doc); cbn [List.length];
    rewrite IH; reflexivity.
Qed.

(** X3: in every world reached from an empty collection, the dashboard's
    two distributions are the same three numbers: as many documents are
    High as are blocked, as many Medium as under review, as many Low as
    approved. *)
Theorem dashboard_levels_match_decisions (rt : runtime) (w w' : world) (d : dict) :
  reachable rt w ->
  dashboard_summary rt w = (Return d, w') ->
  exists high medium low : Z,
    get "risk_distribution" d
    = Some (VDict [("high", VInt high); ("medium", VInt medium); ("low", VInt low)]) /\
    get "decision_distribution" d
    = Some (VDict [("approved", VInt low); ("blocked", VInt high);
                   ("review", VInt medium)]).
Proof.
  intros Hreach Hrun.
  assert (Hpaired : Forall (fun doc => paired doc = true) (collection w)).
  { clear Hrun. induction Hreach as [w Hempty | w w0 _ IH Hstep].
    - rewrite Hempty. apply Forall_nil.
    - apply (step_paired _ _ _ Hstep IH). }
  destruct (dashboard_summary_returns _ _ _ _ Hrun) as [-> _].
  do 3 eexists. split; [reflexivity|].
  unfold summary. cbn [get String.eqb Ascii.eqb Bool.eqb].
  rewrite <- (count_paired _ "High" "Block"), <- (count_paired _ "Medium" "Review"),
    <- (count_paired _ "Low" "Approve"); try exact Hpaired;
    [reflexivity | | |]; unfold verdicts; cbn [In]; auto.
Qed.

Lemma dashboard_levels_match_decisions_witness :
  let rt := stub_runtime lit_0_9 in
  let w := snd (loop_body rt (snd (score_transaction rt example_transaction empty_world))) in
  exists (d : dict) (high medium low : Z),
    fst (dashboard_summary rt w) = Return d /\
    get "risk_distribution" d
    = Some (VDict [("high", VInt high); ("medium", VInt medium); ("low", VInt low)]) /\
    get "decision_distribution" d
    = Some (VDict [("approved", VInt low); ("blocked", VInt high);
                   ("review", VInt medium)]).
Proof.
  intros rt w.
  assert (Hreach : reachable rt w).
  { exact (reachable_step rt _ _
             (reachable_step rt _ _ (reachable_start rt empty_world eq_refl)
                (step_score rt example_transaction empty_world))
             (step_loop rt _)). }
  destruct (dashboard_levels_match_decisions rt w (snd (dashboard_summary rt w))
              (match fst (dashboard_summary rt w) with Return d => d | Raise _ => [] end)
              Hreach)
    as (high & medium & low & Hrisk & Hdecision); [vm_compute; reflexivity|].
  exists (match fst (dashboard_summary rt w) with Return d => d | Raise _ => [] end),
    high, medium, low.
  split; [vm_compute; reflexivity|]. split; assumption.
Defined.

(** ** Listing the collection *)

Lemma get_without_id (doc : dict) (k : string) :
  get k (without_id doc) = if String.eqb k "_id" then None else get k doc.
Proof.
  unfold without_id.
  induction doc as [|[k' v] doc IH]; cbn [filter get fst].
  - destruct (String.eqb k "_id"); reflexivity.
  - destruct (String.eqb_spec k' "_id") as [->|Hk']; cbn [negb get].
    + rewrite IH. destruct (String.eqb k "_id"); reflexivity.
    + rewrite IH. destruct (String.eqb_spec k k') as [->|Hk]; [|reflexivity].
      destruct (String.eqb_spec k' "_id"); [contradiction|reflexivity].
Qed.

(** X4: a listing that is returned leaves the collection as it is and has
    one record per stored document, in the order of storage; each record
    has no [_id] and agrees with its document on every other key. *)
Theorem listing_hides_id (rt : runtime) (w w' : world) (data : list dict) :
  get_transactions rt w = (Return data, w') ->
  collection w' = collection w /\
  List.length data = List.length (collection w) /\
  forall (i : nat) (doc : dict),
    nth_error (collection w) i = Some doc ->
    exists record : dict,
      nth_error data i = Some record /\
      get "_id" record = None /\
      forall k : string, k <> "_id" -> get k record = get k doc.
Proof.
  intros Hrun. rewrite get_transactions_run in Hrun. cbv zeta in Hrun.
  destruct (mongo_up rt (mongo_calls w)); [|discriminate].
  injection Hrun as <- <-. cbn [collection].
  split; [reflexivity|]. split; [apply length_map|].
  intros i doc Hdoc. exists (without_id doc).
  split; [rewrite nth_error_map, Hdoc; reflexivity|].
  split; [rewrite get_without_id; reflexivity|].
  intros k Hk. rewrite get_without_id.
  destruct (String.eqb_spec k "_id"); [contradiction|reflexivity].
Qed.

Lemma listing_hides_id_witness :
  let rt := stub_runtime lit_0_9 in
  let w := snd (score_transaction rt example_transaction empty_world) in
  exists record : dict,
    nth_error
      (match fst (get_transactions rt w) with Return l => l | Raise _ => [] end) 0
    = Some record /\
    get "_id" record = None /\
    get "risk_level" record = Some (VStr "High").
Proof.
  intros rt w.
  destruct (listing_hides_id rt w (snd (get_transactions rt w))
              (match fst (get_transactions rt w) with Return l => l | Raise _ => [] end))
    as (_ & _ & Hdocs); [vm_compute; reflexivity|].
  destruct (Hdocs 0%nat
              (match collection w with doc :: _ => doc | [] => [] end))
    as (record & Hnth & Hid & Hother); [vm_compute; reflexivity|].
  exists record. split; [exact Hnth|]. split; [exact Hid|].
  rewrite Hother; [vm_compute; reflexivity | discriminate].
Defined.

(** ** When the database does not answer *)

(** X5: the dashboard returns a summary exactly when the database answers
    all seven count queries; otherwise the exception that leaves the
    handler is the database's; in both cases the collection is left as it
    was, and a returned summary has cost exactly seven calls. *)
Theorem dashboard_answers_iff (rt : runtime) (w : world) :
  ((exists d w', dashboard_summary rt w = (Return d, w')) <->
   (forall i : nat, (i < 7)%nat -> mongo_up rt (mongo_calls w + i) = true)) /\
  (forall e w', dashboard_summary rt w = (Raise e, w') -> e = PyMongoError) /\
  (forall d w', dashboard_summary rt w = (Return d, w') ->
                mongo_calls w' = (mongo_calls w + 7)%nat) /\
  collection (snd (dashboard_summary rt w)) = collection w.
Proof.
  split; [split|split; [|split]].
  - intros (d & w' & Hrun). unfold dashboard_summary in Hrun.
    unfold bind at 1 in Hrun. rewrite count_documents_run in Hrun.
    destruct (mongo_up rt (mongo_calls w)) eqn:H0; [|discriminate].
    unfold bind at 1 in Hrun. rewrite count_documents_run in Hrun.
    cbn [mongo_calls after_query] in Hrun.
    destruct (mongo_up rt (S (mongo_calls w))) eqn:H1; [|discriminate].
    unfold bind at 1 in Hrun. rewrite count_documents_run in Hrun.
    cbn [mongo_calls after_query] in Hrun.
    destruct (mongo_up rt (S (S (mongo_calls w)))) eqn:H2; [|discriminate].
    unfold bind at 1 in Hrun. rewrite count_documents_run in Hrun.
    cbn [mongo_calls after_query] in Hrun.
    destruct (mongo_up rt (S (S (S (mongo_calls w))))) eqn:H3; [|discriminate].
    unfold bind at 1 in Hrun. rewrite count_documents_run in Hrun.
    cbn [mongo_calls after_query] in Hrun.
    destruct (mongo_up rt (S (S (S (S (mongo_calls w)))))) eqn:H4; [|discriminate].
    unfold bind at 1 in Hrun. rewrite count_documents_run in Hrun.
    cbn [mongo_calls after_query] in Hrun.
    destruct (mongo_up rt (S (S (S (S (S (mongo_calls w))))))) eqn:H5; [|discriminate].
    unfold bind at 1 in Hrun. rewrite count_documents_run in Hrun.
    cbn [mongo_calls after_query] in Hrun.
    destruct (mongo_up rt (S (S (S (S (S (S (mongo_calls w)))))))) eqn:H6; [|discriminate].
    intros i Hi.
    destruct i as [|[|[|[|[|[|[|i]]]]]]]; [| | | | | | | lia];
      rewrite ?Nat.add_succ_r, Nat.add_0_r; assumption.
  - apply dashboard_summary_answers.
  - intros e w' Hrun. exact (proj1 (dashboard_summary_raise _ _ _ _ Hrun)).
  - intros d w'. unfold dashboard_summary.
    repeat (unfold bind at 1; rewrite count_documents_run;
            match goal with
            | |- context [mongo_up rt ?n] => destruct (mongo_up rt n); [|discriminate]
            end).
    unfold ret. cbn [mongo_calls after_query]. intros Hrun. injection Hrun as _ <-.
    cbn [mongo_calls after_query]. lia.
  - destruct (dashboard_summary rt w) as [[d|e] w'] eqn:Hrun; cbn [snd].
    + exact (proj2 (dashboard_summary_returns _ _ _ _ Hrun)).
    + exact (proj2 (dashboard_summary_raise _ _ _ _ Hrun)).
Qed.

(** X6: when the database refuses the next call, the listing and the
    dashboard raise its exception, a scoring request and an iteration of
    the background task raise (the classifier's exception or the
    database's), the background task is ended however long it is observed,
    and none of them changes the collection; the root endpoint answers as
    ever and touches nothing. *)
Theorem database_outage (rt : runtime) (w : world) :
  mongo_up rt (mongo_calls w) = false ->
  (exists w', get_transactions rt w = (Raise PyMongoError, w') /\
              collection w' = collection w) /\
  (exists w', dashboard_summary rt w = (Raise PyMongoError, w') /\
              collection w' = collection w) /\
  (forall t, exists e w', score_transaction rt t w = (Raise e, w') /\
                          collection w' = collection w) /\
  (exists e w', (forall n, auto_generate_transactions rt (S n) w = (Raise e, w')) /\
                collection w' = collection w) /\
  home w = (Return [("message", VStr "Fraud Risk Intelligence API Running")], w).
Proof.
  intros Hdown. split; [|split; [|split; [|split]]].
  - rewrite get_transactions_run. cbv zeta. rewrite Hdown.
    eexists. split; reflexivity.
  - unfold dashboard_summary, bind at 1. rewrite count_documents_run, Hdown.
    eexists. split; reflexivity.
  - intros t. destruct (score_transaction rt t w) as [[resp|e] w'] eqn:Hrun.
    + destruct (score_transaction_returns _ _ _ _ _ Hrun) as (_ & _ & _ & _ & Hup & _).
      congruence.
    + exists e, w'. split; [reflexivity|]. exact (score_transaction_raise _ _ _ _ _ Hrun).
  - destruct (loop_body rt w) as [[[]|e] w'] eqn:Hrun.
    + destruct (loop_body_returns _ _ _ Hrun) as (_ & _ & Hup & _). congruence.
    + exists e, w'. split; [|exact (loop_body_raise _ _ _ _ Hrun)].
      intros n. rewrite auto_generate_transactions_step, Hrun. reflexivity.
  - reflexivity.
Qed.

Lemma database_outage_witness :
  let rt := outage_runtime lit_0_5 in
  (exists w', get_transactions rt empty_world = (Raise PyMongoError, w') /\
              collection w' = collection empty_world) /\
  (exists e w', score_transaction rt example_transaction empty_world = (Raise e, w') /\
                collection w' = collection empty_world).
Proof.
  intros rt.
  destruct (database_outage rt empty_world) as (Hlist & _ & Hscore & _);
    [reflexivity|].
  split; [exact Hlist | exact (Hscore example_transaction)].
Defined.

(** ** Scoring, then the dashboard *)

(** X7: take the dashboard, submit a transaction, take the dashboard
    again.  When the three requests are answered, the second summary is the
    first one with the total one higher, and with the count of the
    response's risk level and the count of the response's decision one
    higher; the four other counts are the same, and the response carries one
    of the three verdicts. *)
Theorem scoring_updates_dashboard
  (rt : runtime) (t : TransactionInput) (w w1 w2 w3 : world)
  (before resp after : dict) :
  dashboard_summary rt w = (Return before, w1) ->
  score_transaction rt t w1 = (Return resp, w2) ->
  dashboard_summary rt w2 = (Return after, w3) ->
  exists total high medium low approved blocked review : Z,
    before = summary total high medium low approved blocked review /\
    after = summary (total + 1)
              (high + bump "High" (get "risk_level" resp))
              (medium + bump "Medium" (get "risk_level" resp))
              (low + bump "Low" (get "risk_level" resp))
              (approved + bump "Approve" (get "decision" resp))
              (blocked + bump "Block" (get "decision" resp))
              (review + bump "Review" (get "decision" resp)) /\
    paired resp = true.
Proof.
  intros Hbefore Hscore Hafter.
  destruct (dashboard_summary_returns _ _ _ _ Hbefore) as [-> Hsame].
  destruct (dashboard_summary_returns _ _ _ _ Hafter) as [-> _].
  destruct (score_transaction_returns _ _ _ _ _ Hscore)
    as (p & tops & _ & _ & _ & -> & ->).
  unfold after_insert; cbn [collection]. rewrite Hsame.
  do 7 eexists. split; [reflexivity|].
  rewrite !count_app.
  split; [|apply (paired_assigned _ p); reflexivity].
  unfold assigned. destruct (gt p lit_0_75), (gt p lit_0_40); reflexivity.
Qed.

Lemma scoring_updates_dashboard_witness :
  let rt := stub_runtime lit_0_9 in
  let w1 := snd (dashboard_summary rt empty_world) in
  let w2 := snd (score_transaction rt example_transaction w1) in
  fst (dashboard_summary rt w2) = Return (summary (0 + 1) (0 + 1) 0 0 0 (0 + 1) 0).
Proof.
  intros rt w1 w2.
  destruct (scoring_updates_dashboard rt example_transaction empty_world w1 w2
              (snd (dashboard_summary rt w2))
              (summary 0 0 0 0 0 0 0)
              [("fraud_probability", VFloat (round lit_0_9 4));
               ("risk_level", VStr "High"); ("decision", VStr "Block");
               ("top_risk_indicators", VList [VStr "V27"; VStr "V28"; VStr "Amount"])]
              (match fst (dashboard_summary rt w2) with Return d => d | Raise _ => [] end))
    as (total & high & medium & low & approved & blocked & review & Hb & Ha & _);
    [vm_compute; reflexivity | vm_compute; reflexivity | vm_compute; reflexivity |].
  vm_compute. reflexivity.
Defined.

(** ** How far the background task gets *)

(** The effect of one iteration on the world, whatever its outcome: the
    thirty draws are always made; the document is stored and the line
    printed together, or neither. *)
Lemma loop_body_effect (rt : runtime) (w w' : world) (o : outcome unit) :
  loop_body rt w = (o, w') ->
  random_calls w' = (30 + random_calls w)%nat /\
  match o with
  | Return _ =>
      (exists doc, collection w' = collection w ++ [doc]) /\
      stdout w' = stdout w ++ [loop_message] /\
      clock_reads w' = S (clock_reads w) /\ mongo_calls w' = S (mongo_calls w)
  | Raise _ => collection w' = collection w /\ stdout w' = stdout w
  end.
Proof.
  rewrite loop_body_unfold. cbv zeta.
  destruct (predict_proba _ _) as [proba|];
    [|intros Hrun; injection Hrun as <- <-; repeat split].
  destruct (nth_error proba 0) as [row|];
    [|intros Hrun; injection Hrun as <- <-; repeat split].
  destruct (nth_error row 1) as [p|];
    [|intros Hrun; injection Hrun as <- <-; repeat split].
  destruct (gt p lit_0_75), (gt p lit_0_40);
    destruct (mongo_up rt (mongo_calls w));
    intros Hrun; injection Hrun as <- <-; cbn [collection stdout random_calls
      clock_reads mongo_calls]; repeat split; eexists; reflexivity.
Qed.

(** X8: observe the background task for [n] iterations from any world.
    Whatever the outcome, it has stored some number [k] of documents, at
    the end of the collection, and printed exactly [k] lines, one per
    document.  If the task is still alive, [k = n] and it has made [30 n]
    draws; if an exception has ended it, [k < n] and it has made
    [30 (k + 1)] draws: the failing iteration generated its transaction
    before it failed. *)
Theorem background_task_progress
  (rt : runtime) (n : nat) (w w' : world) (o : outcome unit) :
  auto_generate_transactions rt n w = (o, w') ->
  exists (k : nat) (added : list dict),
    collection w' = collection w ++ added /\
    List.length added = k /\
    stdout w' = stdout w ++ repeat loop_message k /\
    match o with
    | Return _ => k = n /\ random_calls w' = (30 * n + random_calls w)%nat
    | Raise _ => (k < n)%nat /\ random_calls w' = (30 * S k + random_calls w)%nat
    end.
Proof.
  revert w. induction n as [|n IH]; intros w Hrun.
  - injection Hrun as <- <-. exists 0%nat, [].
    rewrite !app_nil_r. repeat split.
  - rewrite auto_generate_transactions_step in Hrun.
    destruct (loop_body rt w) as [[[]|e] w1] eqn:Hbody.
    + destruct (loop_body_effect _ _ _ _ Hbody)
        as (Hdraws & [doc Hdoc] & Hout & _ & _).
      destruct (IH _ Hrun) as (k & added & Hc & Hlen & Hs & Ho).
      exists (S k), (doc :: added).
      split; [rewrite Hc, Hdoc, <- app_assoc; reflexivity|].
      split; [cbn [List.length]; rewrite Hlen; reflexivity|].
      split; [rewrite Hs, Hout, <- app_assoc; reflexivity|].
      destruct o; destruct Ho as [Hk Hr]; rewrite Hr, Hdraws; split; lia.
    + injection Hrun as <- <-.
      destruct (loop_body_effect _ _ _ _ Hbody) as (Hdraws & Hc & Hs).
      exists 0%nat, []. rewrite !app_nil_r.
      split; [exact Hc|]. split; [reflexivity|]. split; [exact Hs|].
      split; [lia|]. rewrite Hdraws. reflexivity.
Qed.

Lemma background_task_progress_witness :
  let rt := outage_runtime lit_0_5 in
  let w := snd (get_transactions rt empty_world) in
  exists (k : nat) (added : list dict),
    collection (snd (auto_generate_transactions rt 3 w)) = collection w ++ added /\
    List.length added = k /\
    stdout (snd (auto_generate_transactions rt 3 w)) = stdout w ++ repeat loop_message k /\
    k = 3%nat.
Proof.
  intros rt w.
  destruct (background_task_progress rt 3 w (snd (auto_generate_transactions rt 3 w))
              (Return tt))
    as (k & added & Hc & Hlen & Hs & Hk & _); [vm_compute; reflexivity|].
  exists k, added. split; [exact Hc|]. split; [exact Hlen|]. split; [exact Hs|exact Hk].
Defined.

Lemma loop_body_answers (rt : runtime) (w : world) (p : float) :
  fraud_probability (model rt) (values (generated rt (random_calls w))) = Some p ->
  mongo_up rt (mongo_calls w) = true ->
  exists w', loop_body rt w = (Return tt, w').
Proof.
  intros Hp Hup. rewrite loop_body_unfold. cbv zeta.
  unfold fraud_probability in Hp.
  destruct (predict_proba (model rt) [values (generated rt (random_calls w))])
    as [[|row rows]|]; try discriminate.
  change (nth_error (row :: rows) 0) with (Some row). cbv iota.
  rewrite Hp, Hup.
  destruct (gt p lit_0_75), (gt p lit_0_40); eexists; reflexivity.
Qed.

(** X9: as long as the classifier gives a probability to each generated
    transaction and the database takes each insertion, the background task
    stays alive: observed alone for [n] iterations from any world, it runs
    them all and the collection has [n] more documents. *)
Theorem background_task_stays_alive (rt : runtime) (n : nat) (w : world) :
  (forall i : nat, (i < n)%nat ->
     exists p : float,
       fraud_probability (model rt)
         (values (generated rt (30 * i + random_calls w))) = Some p) ->
  (forall i : nat, (i < n)%nat -> mongo_up rt (i + mongo_calls w) = true) ->
  exists w' : world,
    auto_generate_transactions rt n w = (Return tt, w') /\
    List.length (collection w') = (n + List.length (collection w))%nat.
Proof.
  revert w. induction n as [|n IH]; intros w Hmodel Hup.
  - exists w. split; reflexivity.
  - destruct (Hmodel 0%nat ltac:(lia)) as [p Hp]. cbn [Nat.mul Nat.add] in Hp.
    destruct (loop_body_answers rt w p Hp (Hup 0%nat ltac:(lia))) as [w1 Hbody].
    destruct (loop_body_effect _ _ _ _ Hbody)
      as (Hdraws & [doc Hdoc] & _ & _ & Hcalls).
    destruct (IH w1) as (w' & Hrun & Hlen).
    + intros i Hi. destruct (Hmodel (S i) ltac:(lia)) as [q Hq].
      exists q. rewrite Hdraws.
      replace (30 * i + (30 + random_calls w))%nat
        with (30 * S i + random_calls w)%nat by lia.
      exact Hq.
    + intros i Hi. rewrite Hcalls.
      replace (i + S (mongo_calls w))%nat with (S i + mongo_calls w)%nat by lia.
      apply Hup. lia.
    + exists w'. rewrite auto_generate_transactions_step, Hbody.
      split; [exact Hrun|].
      rewrite Hlen, Hdoc, length_app. cbn [List.length]. lia.
Qed.

Lemma background_task_stays_alive_witness :
  let rt := stub_runtime lit_0_5 in
  exists w' : world,
    auto_generate_transactions rt 2 empty_world = (Return tt, w') /\
    List.length (collection w') = (2 + List.length (collection empty_world))%nat.
Proof.
  intros rt.
  apply (background_task_stays_alive rt 2 empty_world).
  - intros i Hi. exists lit_0_5.
    destruct i as [|[|i]]; [vm_compute; reflexivity | vm_compute; reflexivity | lia].
  - intros i Hi. reflexivity.
Defined.

(** ** A probability that is not a number *)

(** X10: the bucketing tests [probability > 0.75] and [probability > 0.40]
    and falls through to the last branch when both are false.  A NaN from
    the classifier fails both tests, so the transaction is stored and
    answered as Low/Approve, with a NaN [fraud_probability]; the same
    holds for the document stored by the background task. *)
Theorem nan_probability_is_approved (rt : runtime) :
  (forall (t : TransactionInput) (w w' : world) (resp : dict),
     fraud_probability (model rt) (values (TransactionInput_dict t)) = Some S754_nan ->
     score_transaction rt t w = (Return resp, w') ->
     verdict_is resp "Low" "Approve" /\
     get "fraud_probability" resp = Some (VFloat S754_nan) /\
     exists doc, collection w' = collection w ++ [doc] /\
                 verdict_is doc "Low" "Approve" /\
                 get "fraud_probability" doc = Some (VFloat S754_nan)) /\
  (forall (w w' : world),
     fraud_probability (model rt) (values (generated rt (random_calls w)))
     = Some S754_nan ->
     loop_body rt w = (Return tt, w') ->
     exists doc, collection w' = collection w ++ [doc] /\
                 verdict_is doc "Low" "Approve" /\
                 get "fraud_probability" doc = Some (VFloat S754_nan)).
Proof.
  split.
  - intros t w w' resp Hnan Hrun.
    destruct (score_transaction_returns _ _ _ _ _ Hrun)
      as (p & tops & Hp & _ & _ & -> & ->).
    rewrite Hnan in Hp. injection Hp as <-.
    split; [split; reflexivity|]. split; [reflexivity|].
    eexists. split; [reflexivity|]. split; [split; reflexivity | reflexivity].
  - intros w w' Hnan Hrun.
    destruct (loop_body_returns _ _ _ Hrun) as (p & Hp & _ & ->).
    rewrite Hnan in Hp. injection Hp as <-.
    eexists. split; [reflexivity|]. split; [split; reflexivity | reflexivity].
Qed.

Lemma nan_probability_is_approved_witness :
  let rt := stub_runtime S754_nan in
  verdict_is
    (match fst (score_transaction rt example_transaction empty_world) with
     | Return d => d | Raise _ => [] end) "Low" "Approve".
Proof.
  intros rt.
  refine (proj1 (proj1 (nan_probability_is_approved rt) example_transaction empty_world
                   (snd (score_transaction rt example_transaction empty_world))
                   (match fst (score_transaction rt example_transaction empty_world) with
                    | Return d => d | Raise _ => [] end) _ _));
    vm_compute; reflexivity.
Defined.

(** ** Importances that do not match the schema *)

Lemma names_at_in_range (names : list string) (positions : list nat) :
  Forall (fun i => (i < List.length names)%nat) positions ->
  names_at names positions = Some (map (fun i => nth i names "") positions).
Proof.
  induction 1 as [|i rest Hi _ IH]; cbn [names_at map]; [reflexivity|].
  rewrite (nth_error_nth' names "" Hi), IH. reflexivity.
Qed.

Lemma names_at_out_of_range (names : list string) (positions : list nat) (i : nat) :
  In i positions -> (List.length names <= i)%nat -> names_at names positions = None.
Proof.
  intros Hin Hi. induction positions as [|j rest IH]; [destruct Hin|].
  cbn [names_at]. destruct Hin as [->|Hin].
  - rewrite (proj2 (nth_error_None names i) Hi). reflexivity.
  - rewrite (IH Hin). destruct (nth_error names j); reflexivity.
Qed.

Lemma field_names_NoDup : NoDup field_names.
Proof.
  assert (H : nodup string_dec field_names = field_names) by (vm_compute; reflexivity).
  rewrite <- H. apply NoDup_nodup.
Qed.

Lemma last3_sublist {A} (l : list A) :
  exists front : list A,
    l = front ++ last3 l /\ List.length (last3 l) = Nat.min 3 (List.length l).
Proof.
  unfold last3. exists (firstn (List.length l - 3) l).
  split; [symmetry; apply firstn_skipn|]. rewrite length_skipn. lia.
Qed.

(** X11: with an argsort that keeps numpy's contract and a classifier that
    has at most thirty importances, the lookup of the indicator names never
    fails: the request is answered as soon as the classifier gives a
    probability and the database takes the insertion.  The answer lists
    three indicators, or as many as there are importances if there are
    fewer; they are field names and no name comes twice. *)
Theorem indicators_with_at_most_thirty_importances
  (rt : runtime) (t : TransactionInput) (w : world) :
  argsort_contract (np_argsort rt) ->
  (List.length (feature_importances_ (model rt)) <= 30)%nat ->
  (forall p : float,
     fraud_probability (model rt) (values (TransactionInput_dict t)) = Some p ->
     mongo_up rt (mongo_calls w) = true ->
     exists resp w', score_transaction rt t w = (Return resp, w')) /\
  (forall (resp : dict) (w' : world),
     score_transaction rt t w = (Return resp, w') ->
     exists tops : list string,
       get "top_risk_indicators" resp = Some (VList (map VStr tops)) /\
       List.length tops = Nat.min 3 (List.length (feature_importances_ (model rt))) /\
       NoDup tops /\
       incl tops field_names).
Proof.
  intros Hcontract Hlen.
  destruct (Hcontract (feature_importances_ (model rt))) as [Hperm _].
  set (ws := feature_importances_ (model rt)) in *.
  destruct (last3_sublist (np_argsort rt ws)) as (front & Hsplit & Hlast).
  rewrite (Permutation_length Hperm), length_seq in Hlast.
  assert (Hrange : Forall (fun i => (i < List.length field_names)%nat)
                     (last3 (np_argsort rt ws))).
  { apply Forall_forall. intros i Hi.
    assert (Hin : In i (np_argsort rt ws)).
    { rewrite Hsplit. apply in_or_app. right. exact Hi. }
    apply (Permutation_in _ Hperm), in_seq in Hin.
    rewrite field_names_length. lia. }
  assert (Hdistinct : NoDup (last3 (np_argsort rt ws))).
  { apply (NoDup_app_remove_l front). rewrite <- Hsplit.
    apply (Permutation_NoDup (Permutation_sym Hperm)), seq_NoDup. }
  assert (Htops : names_at (keys (TransactionInput_dict t)) (last3 (np_argsort rt ws))
                  = Some (map (fun i => nth i field_names "") (last3 (np_argsort rt ws)))).
  { rewrite keys_TransactionInput_dict. apply names_at_in_range. exact Hrange. }
  split.
  - intros p Hp Hup. exact (score_transaction_answers rt t w p _ Hp Htops Hup).
  - intros resp w' Hrun.
    destruct (score_transaction_returns _ _ _ _ _ Hrun) as (p & tops & _ & Ht & _ & -> & _).
    fold ws in Ht.
    assert (Heq : map (fun i => nth i field_names "") (last3 (np_argsort rt ws)) = tops)
      by congruence.
    clear Ht. subst tops.
    eexists. split; [reflexivity|].
    split; [rewrite length_map; exact Hlast|].
    split.
    + apply NoDup_map_NoDup_ForallPairs; [|exact Hdistinct].
      intros i j Hi Hj Heq.
      apply (proj1 (NoDup_nth field_names "") field_names_NoDup); [| |exact Heq].
      * exact (proj1 (Forall_forall _ _) Hrange i Hi).
      * exact (proj1 (Forall_forall _ _) Hrange j Hj).
    + intros name Hname. apply in_map_iff in Hname. destruct Hname as (i & <- & Hi).
      apply nth_In. exact (proj1 (Forall_forall _ _) Hrange i Hi).
Qed.

Lemma indicators_with_at_most_thirty_importances_witness :
  let rt := stub_runtime lit_0_9 in
  exists tops : list string,
    get "top_risk_indicators"
      (match fst (score_transaction rt example_transaction empty_world) with
       | Return d => d | Raise _ => [] end)
    = Some (VList (map VStr tops)) /\
    List.length tops = 3%nat /\ NoDup tops.
Proof.
  intros rt.
  destruct (proj2 (indicators_with_at_most_thirty_importances rt example_transaction
                     empty_world insertion_argsort_contract
                     ltac:(vm_compute; lia))
              (match fst (score_transaction rt example_transaction empty_world) with
               | Return d => d | Raise _ => [] end)
              (snd (score_transaction rt example_transaction empty_world)))
    as (tops & Hget & Hlen & Hnodup & _); [vm_compute; reflexivity|].
  exists tops. split; [exact Hget|]. split; [exact Hlen | exact Hnodup].
Defined.

(** X12: the subscripts of the handler are not guarded.  When the
    classifier returns an array without a first row or a row without a
    second column, or when one of the three positions taken from the
    argsort of the importances is not a position of the thirty field names,
    the handler raises [IndexError]; it does so before it reads the clock
    or calls the database, so the world is left exactly as it was. *)
Theorem subscript_out_of_range (rt : runtime) (t : TransactionInput) (w : world) :
  (forall proba : list (list float),
     predict_proba (model rt) [values (TransactionInput_dict t)] = Some proba ->
     fraud_probability (model rt) (values (TransactionInput_dict t)) = None ->
     score_transaction rt t w = (Raise IndexError, w)) /\
  (forall (p : float) (i : nat),
     fraud_probability (model rt) (values (TransactionInput_dict t)) = Some p ->
     In i (last3 (np_argsort rt (feature_importances_ (model rt)))) ->
     (30 <= i)%nat ->
     score_transaction rt t w = (Raise IndexError, w)).
Proof.
  split.
  - intros proba Hproba Hnone. rewrite score_transaction_unfold.
    unfold fraud_probability in Hnone. rewrite Hproba in *.
    destruct proba as [|row rows]; [reflexivity|].
    change (nth_error (row :: rows) 0) with (Some row). cbv iota.
    rewrite Hnone. reflexivity.
  - intros p i Hp Hin Hi. rewrite score_transaction_unfold.
    unfold fraud_probability in Hp.
    destruct (predict_proba (model rt) [values (TransactionInput_dict t)])
      as [[|row rows]|]; try discriminate.
    change (nth_error (row :: rows) 0) with (Some row). cbv iota. rewrite Hp.
    rewrite (names_at_out_of_range _ _ i Hin)
      by (rewrite keys_TransactionInput_dict, field_names_length; exact Hi).
    destruct (gt p lit_0_75), (gt p lit_0_40); reflexivity.
Qed.

Lemma subscript_out_of_range_witness :
  score_transaction (wide_runtime lit_0_9) example_transaction empty_world
  = (Raise IndexError, empty_world).
Proof.
  refine (proj2 (subscript_out_of_range (wide_runtime lit_0_9) example_transaction
                   empty_world) lit_0_9 30%nat _ _ _).
  - vm_compute; reflexivity.
  - vm_compute. auto.
  - lia.
Defined.

(** ** The approval rate at its ends *)

(** [n / n] is exactly [1.0], however large [n] is. *)
Lemma int_truediv_self (p : positive) : int_truediv (Zpos p) (Zpos p) = of_int 1.
Proof.
  unfold int_truediv, of_ratio, SFdiv, SFdiv_core_binary.
  replace (Zdigits2 (Zpos p) + 0 - (Zdigits2 (Zpos p) + 0)) with 0 by lia.
  change (Z.min (fexp prec emax 0) (0 - 0)) with (-53).
  change (0 - 0 - -53) with 53.
  cbv beta iota zeta.
  rewrite Z.shiftl_mul_pow2 by lia.
  assert (Hq : (Zpos p * 2 ^ 53) / Zpos p = 2 ^ 53).
  { rewrite Z.mul_comm. apply Z.div_mul. discriminate. }
  assert (Hr : (Zpos p * 2 ^ 53) mod Zpos p = 0).
  { rewrite Z.mul_comm. apply Z.mod_mul. discriminate. }
  unfold Z.div in Hq. unfold Z.modulo in Hr.
  destruct (Z.div_eucl (Zpos p * 2 ^ 53) (Zpos p)) as [q r].
  cbn [fst snd] in Hq, Hr. subst q r.
  assert (Hloc : new_location (Zpos p) 0 = loc_Exact).
  { unfold new_location, new_location_even, new_location_odd.
    destruct (Z.even (Zpos p)); reflexivity. }
  rewrite Hloc. vm_compute. reflexivity.
Qed.

Lemma count_all (query : list (string * string)) (c : list dict) :
  Forall (fun doc => matches query doc = true) c -> count query c = count [] c.
Proof.
  intros Hall. unfold count. f_equal.
  induction Hall as [|doc c Hdoc _ IH]; [reflexivity|].
  cbn [filter matches forallb]. fold (matches query doc). rewrite Hdoc.
  cbn [List.length]. rewrite IH. reflexivity.
Qed.

Lemma count_none (query : list (string * string)) (c : list dict) :
  Forall (fun doc => matches query doc = false) c -> count query c = 0.
Proof.
  intros Hnone. unfold count.
  induction Hnone as [|doc c Hdoc _ IH]; [reflexivity|].
  cbn [filter]. rewrite Hdoc. exact IH.
Qed.

(** X13: on a collection that is not empty, the dashboard reports an
    approval rate of exactly [100.0] when every document is approved,
    whatever their number, and the float [0.0] when none is; on an empty
    collection it reports the int [0]. *)
Theorem approval_rate_extremes (rt : runtime) (w w' : world) (d : dict) :
  dashboard_summary rt w = (Return d, w') ->
  (collection w = [] -> get "approval_rate_percent" d = Some (VInt 0)) /\
  (collection w <> [] ->
   Forall (fun doc => matches [("decision", "Approve")] doc = true) (collection w) ->
   get "approval_rate_percent" d = Some (VFloat (of_int 100))) /\
  (collection w <> [] ->
   Forall (fun doc => matches [("decision", "Approve")] doc = false) (collection w) ->
   get "approval_rate_percent" d = Some (VFloat (S754_zero false))).
Proof.
  intros Hrun.
  destruct (dashboard_summary_returns _ _ _ _ Hrun) as [-> _].
  unfold summary. cbn [get String.eqb Ascii.eqb Bool.eqb].
  assert (Htotal : collection w <> [] -> exists p, count [] (collection w) = Zpos p).
  { intros Hne. unfold count.
    destruct (collection w) as [|doc c]; [contradiction|].
    cbn [filter]. change (matches [] doc) with true. cbn [List.length Z.of_nat].
    eexists. reflexivity. }
  split; [|split].
  - intros ->. reflexivity.
  - intros Hne Hall. destruct (Htotal Hne) as [p Hp].
    rewrite (count_all _ _ Hall), Hp. cbn [Z.ltb Z.compare].
    rewrite int_truediv_self. reflexivity.
  - intros Hne Hnone. destruct (Htotal Hne) as [p Hp].
    rewrite (count_none _ _ Hnone), Hp. reflexivity.
Qed.

Lemma approval_rate_extremes_witness :
  let rt := stub_runtime lit_0_3 in
  let w := snd (loop_body rt (snd (score_transaction rt example_transaction empty_world))) in
  get "approval_rate_percent"
    (match fst (dashboard_summary rt w) with Return d => d | Raise _ => [] end)
  = Some (VFloat (of_int 100)).
Proof.
  intros rt w.
  refine (proj1 (proj2 (approval_rate_extremes rt w (snd (dashboard_summary rt w))
                          (match fst (dashboard_summary rt w) with
                           | Return d => d | Raise _ => [] end) _)) _ _).
  - vm_compute; reflexivity.
  - vm_compute; discriminate.
  - vm_compute. apply Forall_cons; [reflexivity|]. apply Forall_cons; [reflexivity|].
    apply Forall_nil.
Defined.

(** ** The listing and the dashboard *)

Lemma matches_without_id (query : list (string * string)) (doc : dict) :
  Forall (fun kt => fst kt <> "_id") query ->
  matches query (without_id doc) = matches query doc.
Proof.
  intros Hquery. unfold matches.
  induction Hquery as [|[k text] query Hk _ IH]; [reflexivity|].
  cbn [forallb fst snd] in *. rewrite IH, get_without_id.
  destruct (String.eqb_spec k "_id"); [contradiction|reflexivity].
Qed.

Lemma count_without_id (query : list (string * string)) (c : list dict) :
  Forall (fun kt => fst kt <> "_id") query ->
  count query (map without_id c) = count query c.
Proof.
  intros Hquery. unfold count. f_equal.
  induction c as [|doc c IH]; [reflexivity|].
  cbn [map filter]. rewrite (matches_without_id _ _ Hquery).
  destruct (matches query doc); cbn [List.length]; rewrite IH; reflexivity.
Qed.

Lemma count_everything (c : list dict) : count [] c = Z.of_nat (List.length c).
Proof.
  unfold count. f_equal.
  induction c as [|doc c IH]; [reflexivity|].
  cbn [filter]. change (matches [] doc) with true. cbn [List.length].
  rewrite IH. reflexivity.
Qed.

(** X14: list the transactions, then take the dashboard.  When both are
    answered, the dashboard is the summary of the listing: its total is the
    number of listed records, and each of its six counts is the number of
    listed records with that risk level or that decision. *)
Theorem dashboard_summarises_listing
  (rt : runtime) (w w1 w2 : world) (data : list dict) (d : dict) :
  get_transactions rt w = (Return data, w1) ->
  dashboard_summary rt w1 = (Return d, w2) ->
  d = summary (Z.of_nat (List.length data))
        (count [("risk_level", "High")] data) (count [("risk_level", "Medium")] data)
        (count [("risk_level", "Low")] data)
        (count [("decision", "Approve")] data) (count [("decision", "Block")] data)
        (count [("decision", "Review")] data).
Proof.
  intros Hlist Hdash.
  destruct (dashboard_summary_returns _ _ _ _ Hdash) as [-> _].
  rewrite get_transactions_run in Hlist. cbv zeta in Hlist.
  destruct (mongo_up rt (mongo_calls w)); [|discriminate].
  injection Hlist as <- <-. cbn [collection].
  rewrite <- (length_map without_id), <- count_everything.
  assert (Hkey : forall k text : string, k <> "_id" ->
                   Forall (fun kt : string * string => fst kt <> "_id") [(k, text)]).
  { intros k text Hk. apply Forall_cons; [exact Hk | apply Forall_nil]. }
  rewrite !count_without_id by (first [apply Forall_nil | apply Hkey; discriminate]).
  reflexivity.
Qed.

Lemma dashboard_summarises_listing_witness :
  let rt := stub_runtime lit_0_9 in
  let w := snd (loop_body rt (snd (score_transaction rt example_transaction empty_world))) in
  let data := match fst (get_transactions rt w) with Return l => l | Raise _ => [] end in
  match fst (dashboard_summary rt (snd (get_transactions rt w))) with
  | Return d => d
  | Raise _ => []
  end
  = summary (Z.of_nat (List.length data))
      (count [("risk_level", "High")] data) (count [("risk_level", "Medium")] data)
      (count [("risk_level", "Low")] data)
      (count [("decision", "Approve")] data) (count [("decision", "Block")] data)
      (count [("decision", "Review")] data).
Proof.
  intros rt w data.
  apply (dashboard_summarises_listing rt w (snd (get_transactions rt w))
           (snd (dashboard_summary rt (snd (get_transactions rt w)))));
    vm_compute; reflexivity.
Defined.

(** ** Rounding a quotient *)

(** A mantissa with a location is the same mantissa with two more bits,
    shifted twice. *)
Lemma shr_record_of_loc_shift (m : Z) (l : location) :
  0 <= m ->
  shr_record_of_loc m l
  = shr_1 (shr_1 (Build_shr_record (4 * m + loc_code l) false false)).
Proof.
  intros Hm. destruct m as [|p|p]; [| |lia]; destruct l as [|[]]; reflexivity.
Qed.

Lemma shr_nat (mrs : shr_record) (e n : Z) :
  0 <= n -> shr mrs e n = (Nat.iter (Z.to_nat n) shr_1 mrs, e + n).
Proof.
  intros Hn. destruct n as [|p|p]; [| |lia].
  - cbn. rewrite Z.add_0_r. reflexivity.
  - cbn [shr]. rewrite iter_pos_nat. reflexivity.
Qed.

Lemma digits2_quadruple (p q : positive) (c : Z) :
  0 <= c < 4 -> Zpos q = 4 * Zpos p + c ->
  Zpos (digits2_pos q) = Zpos (digits2_pos p) + 2.
Proof.
  intros Hc Hq. destruct (digits2_bounds p) as [Hlo Hhi].
  set (d := Zpos (digits2_pos p)) in *.
  assert (Hd : 0 < d) by (unfold d; lia).
  apply digits2_unique.
  replace (d + 2 - 1) with (2 + (d - 1)) by lia.
  replace (d + 2) with (2 + d) by lia.
  rewrite !pow2_split by lia. change (2 ^ 2) with 4.
  generalize dependent (2 ^ (d - 1)). generalize dependent (2 ^ d). intros. lia.
Qed.

(** Rounding a mantissa with a location is rounding the exact mantissa
    with two more bits. *)
Lemma binary_round_aux_located (s : bool) (pm : positive) (e : Z) (l : location) :
  e <= fexp prec emax (Zpos (digits2_pos pm) + e) ->
  exists pm4 : positive,
    Zpos pm4 = 4 * Zpos pm + loc_code l /\
    e - 2 <= fexp prec emax (Zpos (digits2_pos pm4) + (e - 2)) /\
    binary_round_aux prec emax s (Zpos pm) e l
    = binary_round_aux prec emax s (Zpos pm4) (e - 2) loc_Exact.
Proof.
  intros Hpre.
  assert (Hc : 0 <= loc_code l < 4) by (destruct l as [|[]]; cbn; lia).
  assert (Hpos : 0 < 4 * Zpos pm + loc_code l) by lia.
  destruct (4 * Zpos pm + loc_code l) as [|pm4|] eqn:E; try lia.
  exists pm4. split; [reflexivity|].
  assert (Hd := digits2_quadruple pm pm4 (loc_code l) Hc ltac:(lia)).
  rewrite Hd, fexp_eq in *.
  split; [lia|].
  assert (Hshr : shr_fexp prec emax (Zpos pm) e l
                 = shr_fexp prec emax (Zpos pm4) (e - 2) loc_Exact).
  { unfold shr_fexp. cbn [Zdigits2]. rewrite Hd, !fexp_eq.
    rewrite shr_record_of_loc_shift by lia. rewrite E.
    change (shr_record_of_loc (Zpos pm4) loc_Exact)
      with (Build_shr_record (Zpos pm4) false false).
    set (n := Z.max (Zpos (digits2_pos pm) + e - 53) (-1074) - e).
    assert (Hn : 0 <= n) by (unfold n; lia).
    replace (Z.max (Zpos (digits2_pos pm) + 2 + (e - 2) - 53) (-1074) - (e - 2))
      with (n + 2) by (unfold n; lia).
    rewrite !shr_nat by lia.
    replace (Z.to_nat (n + 2)) with (Z.to_nat n + 2)%nat by lia.
    rewrite Nat.iter_add. f_equal. lia. }
  unfold binary_round_aux. rewrite Hshr. reflexivity.
Qed.

(** The quotient that [int / int] rounds: [q] is the integer part of the
    exact quotient, scaled by a power of two large enough for [q] to have
    fifty-three bits, and the location tells whether anything is left. *)
Lemma div_core_spec (pn pd : positive) :
  exists (q e' : Z) (l : location),
    SFdiv_core_binary prec emax (Zpos pn) 0 (Zpos pd) 0 = (q, e', l) /\
    -1074 <= e' <= 0 /\ 0 <= q /\
    q * Zpos pd <= Zpos pn * 2 ^ (- e') /\
    (loc_code l = 0 \/ q * Zpos pd < Zpos pn * 2 ^ (- e')) /\
    (-1074 < e' -> 2 ^ 52 <= q).
Proof.
  unfold SFdiv_core_binary. cbn [Zdigits2]. rewrite fexp_eq.
  destruct (digits2_bounds pn) as [Hn1 Hn2]. destruct (digits2_bounds pd) as [Hd1 Hd2].
  set (d1 := Zpos (digits2_pos pn)) in *. set (d2 := Zpos (digits2_pos pd)) in *.
  assert (Hd1pos : 0 < d1) by (unfold d1; lia).
  assert (Hd2pos : 0 < d2) by (unfold d2; lia).
  set (e' := Z.min (Z.max (d1 + 0 - (d2 + 0) - 53) (-1074)) (0 - 0)).
  assert (He' : -1074 <= e' <= 0) by (unfold e'; lia).
  set (s := 0 - 0 - e').
  assert (Hs : s = - e') by (unfold s; lia).
  assert (Hm' : match s with
                | Zpos _ => Z.shiftl (Zpos pn) s
                | 0 => Zpos pn
                | Zneg _ => 0
                end = Zpos pn * 2 ^ s).
  { destruct s as [|ps|ps] eqn:Es; [cbn; lia | | lia].
    apply Z.shiftl_mul_pow2. lia. }
  rewrite Hm'. rewrite Hs in *. clear Hm' Hs s.
  set (P := 2 ^ (- e')) in *.
  assert (HP : 0 < P) by (apply pow2_pos; lia).
  assert (Hdiv := Z.div_eucl_eq (Zpos pn * P) (Zpos pd) ltac:(discriminate)).
  assert (Hmod := Z.mod_pos_bound (Zpos pn * P) (Zpos pd) ltac:(lia)).
  unfold Z.div, Z.modulo in Hdiv, Hmod.
  destruct (Z.div_eucl (Zpos pn * P) (Zpos pd)) as [q r]. cbn [fst snd] in Hdiv, Hmod.
  exists q, e', (new_location (Zpos pd) r).
  split; [reflexivity|]. split; [exact He'|].
  assert (Hq : 0 <= q) by nia.
  split; [exact Hq|]. split; [nia|]. split.
  - unfold new_location, new_location_even, new_location_odd.
    destruct (Z.eqb_spec r 0) as [->|Hr].
    + left. destruct (Z.even (Zpos pd)); reflexivity.
    + right. nia.
  - intros Hnormal.
    assert (He'eq : e' = Z.min (d1 - d2 - 53) 0) by (unfold e' in *; lia).
    assert (Hpow : 2 ^ 52 * 2 ^ d2 <= 2 ^ (d1 - 1) * P).
    { unfold P. rewrite <- !pow2_split by lia. apply pow2_le. lia. }
    set (A := 2 ^ (d1 - 1)) in *. set (B := 2 ^ d2) in *. set (T := 2 ^ 52) in *.
    assert (HT : 0 < T) by (unfold T; apply pow2_pos; lia).
    destruct (Z_lt_le_dec q T) as [Hlt|]; [exfalso|assumption].
    assert (H1 : Zpos pd * (q + 1) <= Zpos pd * T) by (apply Z.mul_le_mono_nonneg_l; lia).
    assert (H2 : Zpos pd * T < B * T) by (apply Z.mul_lt_mono_pos_r; lia).
    assert (H3 : A * P <= Zpos pn * P) by (apply Z.mul_le_mono_nonneg_r; lia).
    clearbody A B T P. lia.
Qed.

Lemma div_upper (pn pd pH : positive) (eH K : Z) :
  0 < K -> Zpos pn <= K * Zpos pd ->
  bounded prec emax pH eH = true ->
  scaled (Zpos pH) eH = K * 2 ^ offset ->
  let z := SFdiv prec emax (S754_finite false pn 0) (S754_finite false pd 0) in
  z = S754_zero false \/
  exists (p2 : positive) (e2 : Z),
    z = S754_finite false p2 e2 /\ bounded prec emax p2 e2 = true /\
    scaled (Zpos p2) e2 <= scaled (Zpos pH) eH.
Proof.
  intros HK Hle HH HsH. cbv zeta. unfold SFdiv.
  destruct (div_core_spec pn pd) as (q & e' & l & -> & He' & Hq & Hfloor & Hloc & Hnormal).
  cbn [xorb].
  assert (Hoff := offset_val).
  destruct q as [|pq|pq]; [| |lia].
  - assert (e' = -1074).
    { destruct (Z_le_gt_dec e' (-1074)) as [|Hgt]; [lia|].
      specialize (Hnormal ltac:(lia)). assert (0 < 2 ^ 52) by (apply pow2_pos; lia). lia. }
    subst e'.
    assert (Hmin : scaled 1 (-1074) <= scaled (Zpos pH) eH).
    { rewrite HsH. unfold scaled. rewrite Z.mul_1_l.
      assert (H1 : 2 ^ (-1074 + offset) <= 2 ^ offset) by (apply pow2_le; lia).
      assert (H2 : 0 < 2 ^ offset) by (apply pow2_pos; lia).
      generalize dependent (2 ^ offset). generalize dependent (2 ^ (-1074 + offset)).
      intros. nia. }
    destruct l as [|[]].
    + left. reflexivity.
    + left. reflexivity.
    + left. reflexivity.
    + right. exists 1%positive, (-1074). split; [reflexivity|]. split; [reflexivity|].
      exact Hmin.
  - assert (Hpre : e' <= fexp prec emax (Zpos (digits2_pos pq) + e')).
    { rewrite fexp_eq. destruct (Z_le_gt_dec e' (-1074)) as [|Hgt]; [lia|].
      specialize (Hnormal ltac:(lia)).
      destruct (digits2_bounds pq) as [_ Hhi].
      assert (52 < Zpos (digits2_pos pq)) by (apply pow2_lt_inv; lia).
      lia. }
    destruct (binary_round_aux_located false pq e' l Hpre) as (pm4 & Hpm4 & Hpre4 & ->).
    apply round_upper; [lia | exact Hpre4 | exact HH |].
    rewrite HsH. unfold scaled. rewrite Hpm4.
    set (P := 2 ^ (- e')) in *. set (X := 2 ^ (e' - 2 + offset)).
    assert (HP : 0 < P) by (apply pow2_pos; lia).
    assert (HX : 0 < X) by (apply pow2_pos; lia).
    assert (HPX : 4 * P * X = 2 ^ offset).
    { unfold P, X. change 4 with (2 ^ 2). rewrite <- !pow2_split by lia.
      f_equal. lia. }
    rewrite <- HPX.
    assert (Hc : 0 <= loc_code l < 4) by (destruct l as [|[]]; cbn; lia).
    assert (Hbound : 4 * Zpos pq + loc_code l <= 4 * (K * P)).
    { assert (H1 : Zpos pn * P <= K * Zpos pd * P)
        by (apply Z.mul_le_mono_nonneg_r; lia).
      replace (K * Zpos pd * P) with (K * P * Zpos pd) in H1 by ring.
      clearbody P X. set (Q := K * P) in *. clearbody Q.
      destruct Hloc as [H0|Hlt].
      - assert (Zpos pq <= Q)
          by (apply (proj2 (Z.mul_le_mono_pos_r _ _ (Zpos pd) ltac:(lia))); lia).
        lia.
      - assert (Zpos pq < Q)
          by (apply (proj2 (Z.mul_lt_mono_pos_r (Zpos pd) _ _ ltac:(lia))); lia).
        lia. }
    clearbody P X.
    replace (K * (4 * P * X)) with (4 * (K * P) * X) by ring.
    apply Z.mul_le_mono_nonneg_r; lia.
Qed.

(** The product of a float that is at most one and a normal float [c] is
    at most [c]. *)
Lemma mul_le_one_upper (p pc : positive) (e ec : Z) :
  bounded prec emax p e = true -> scaled (Zpos p) e <= 2 ^ offset ->
  bounded prec emax pc ec = true -> 2 ^ 52 <= Zpos pc ->
  let x := mul (S754_finite false p e) (S754_finite false pc ec) in
  x = S754_zero false \/
  exists (p2 : positive) (e2 : Z),
    x = S754_finite false p2 e2 /\ bounded prec emax p2 e2 = true /\
    scaled (Zpos p2) e2 <= scaled (Zpos pc) ec.
Proof.
  intros Hr Hle Hc Hnormal. cbv zeta.
  destruct (bounded_facts _ _ Hc) as [Hcc _].
  destruct (canonical_facts _ _ Hcc) as (Hec & _ & _).
  destruct (bounded_facts _ _ Hr) as [Hcr _].
  destruct (canonical_facts _ _ Hcr) as (Her & _ & _).
  pose proof offset_val as Hoff.
  unfold mul, SFmul. cbn [xorb].
  apply round_upper.
  - plia.
  - rewrite fexp_eq.
    destruct (digits2_bounds (p * pc)) as [_ Hhi].
    set (d := Zpos (digits2_pos (p * pc))) in *.
    assert (52 < d).
    { apply pow2_lt_inv; [unfold d; plia|]. rewrite Pos2Z.inj_mul in Hhi.
      assert (Hp1 : 1 <= Zpos p) by plia.
      assert (Hc0 : 0 < Zpos pc) by plia.
      revert Hhi Hnormal Hp1 Hc0. generalize (2 ^ d) (2 ^ 52) (Zpos pc) (Zpos p).
      intros. nia. }
    plia.
  - exact Hc.
  - unfold scaled in *. rewrite Pos2Z.inj_mul.
    remember 1074 as h eqn:Hh.
    replace (e + ec + offset) with ((ec + h) + (e + h)) by plia.
    replace (ec + offset) with ((ec + h) + h) by plia.
    replace (e + offset) with ((e + h) + h) in Hle by plia.
    replace offset with (h + h) in Hle by plia.
    rewrite (pow2_split (ec + h) (e + h)), (pow2_split (ec + h) h) by plia.
    rewrite (pow2_split (e + h) h), (pow2_split h h) in Hle by plia.
    assert (HA : 0 < 2 ^ (e + h)) by (apply pow2_pos; plia).
    assert (HB : 0 < 2 ^ (ec + h)) by (apply pow2_pos; plia).
    assert (HC : 0 < 2 ^ h) by (apply pow2_pos; plia).
    assert (Hpc : 0 < Zpos pc) by plia.
    revert Hle HA HB HC Hpc.
    generalize (2 ^ (e + h)) (2 ^ (ec + h)) (2 ^ h) (Zpos pc) (Zpos p).
    intros A B C c r Hle HA HB HC Hpc.
    clear - Hle HA HB HC Hpc.
    rewrite Z.mul_assoc in Hle.
    assert (Hr' : r * A <= C) by (apply (proj2 (Z.mul_le_mono_pos_r _ _ C HC)); exact Hle).
    assert (Hstep : r * A * B <= C * B) by (apply Z.mul_le_mono_nonneg_r; lia).
    replace (r * c * (B * A)) with (c * (r * A * B)) by ring.
    replace (c * (B * C)) with (c * (C * B)) by ring.
    apply Z.mul_le_mono_nonneg_l; [lia | exact Hstep].
Qed.

(** Rounding a quotient to the nearest integer does not cross an integer
    that bounds it. *)
Lemma div_half_even_upper (n d k : Z) :
  0 <= n -> 0 < d -> n <= k * d -> 0 <= div_half_even n d <= k.
Proof.
  intros Hn Hd Hle. unfold div_half_even.
  assert (Hdiv := Z.div_mod n d ltac:(lia)).
  assert (Hmod := Z.mod_pos_bound n d Hd).
  assert (Hq : 0 <= n / d) by (apply Z.div_pos; lia).
  assert (Hqk : n / d <= k).
  { apply Z.div_le_upper_bound; [exact Hd|]. lia. }
  assert (Hstrict : 0 < n mod d -> n / d < k).
  { intros Hr. destruct (Z_lt_le_dec (n / d) k) as [|Hge]; [assumption|exfalso].
    assert (n / d = k) by lia.
    assert (d * (n / d) = d * k) by (f_equal; assumption). lia. }
  destruct (Z.compare_spec (2 * (n mod d)) d) as [Heq|Hlt|Hgt].
  - destruct (Z.even (n / d)); [lia|]. assert (0 < n mod d) by lia.
    specialize (Hstrict H). lia.
  - lia.
  - assert (0 < n mod d) by lia. specialize (Hstrict H). lia.
Qed.

Lemma scaled_hundred :
  of_int 100 = S754_finite false 7036874417766400 (-46) /\
  bounded prec emax 7036874417766400 (-46) = true /\
  scaled 7036874417766400 (-46) = 100 * 2 ^ offset /\
  scaled 4503599627370496 (-52) = 2 ^ offset.
Proof.
  split; [vm_compute; reflexivity|]. split; [vm_compute; reflexivity|].
  split; vm_compute; reflexivity.
Qed.

(** A float that is at most the integer [K] is at most [K] after rounding
    to [ndigits] decimals. *)
Lemma round_decimals_upper (p pH : positive) (e eH ndigits K : Z) :
  0 <= ndigits -> 0 < K ->
  bounded prec emax pH eH = true -> scaled (Zpos pH) eH = K * 2 ^ offset ->
  bounded prec emax p e = true -> scaled (Zpos p) e <= K * 2 ^ offset ->
  let x := round (S754_finite false p e) ndigits in
  x = S754_zero false \/
  exists (p2 : positive) (e2 : Z),
    x = S754_finite false p2 e2 /\ bounded prec emax p2 e2 = true /\
    scaled (Zpos p2) e2 <= K * 2 ^ offset.
Proof.
  intros Hnd HK HbH HsH Hb Hle. cbv zeta.
  destruct (bounded_facts _ _ Hb) as [Hc _].
  destruct (canonical_facts _ _ Hc) as (He & _ & _).
  pose proof offset_val as Hoff.
  unfold round.
  assert (Hten : 0 < 10 ^ ndigits) by (apply Z.pow_pos_nonneg; lia).
  set (ten := 10 ^ ndigits) in *.
  set (q := if 0 <=? e then Zpos p * 2 ^ e * ten
            else div_half_even (Zpos p * ten) (2 ^ (- e))).
  assert (Hq : 0 <= q <= K * ten).
  { unfold q. unfold scaled in Hle. clearbody ten.
    destruct (Z.leb_spec 0 e) as [Hnn|Hneg].
    - rewrite (pow2_split e offset) in Hle by plia.
      assert (HA : 0 < 2 ^ e) by (apply pow2_pos; lia).
      assert (HB : 0 < 2 ^ offset) by (apply pow2_pos; plia).
      rewrite Z.mul_assoc in Hle.
      assert (H1 : Zpos p * 2 ^ e <= K)
        by (apply (proj2 (Z.mul_le_mono_pos_r _ _ (2 ^ offset) HB)); exact Hle).
      clear Hle. revert H1 HA. generalize (2 ^ e). intros A H1 HA. split; nia.
    - apply div_half_even_upper; [lia | apply pow2_pos; lia |].
      replace offset with ((e + offset) + (- e)) in Hle at 2 by lia.
      rewrite (pow2_split (e + offset) (- e)) in Hle by plia.
      assert (HA : 0 < 2 ^ (e + offset)) by (apply pow2_pos; plia).
      assert (HB : 0 < 2 ^ (- e)) by (apply pow2_pos; lia).
      replace (K * (2 ^ (e + offset) * 2 ^ (- e)))
        with (K * 2 ^ (- e) * 2 ^ (e + offset)) in Hle by ring.
      assert (H1 : Zpos p <= K * 2 ^ (- e))
        by (apply (proj2 (Z.mul_le_mono_pos_r _ _ (2 ^ (e + offset)) HA)); exact Hle).
      clear Hle. revert H1 HB. generalize (2 ^ (- e)). intros D H1 HB.
      replace (K * ten * D) with (K * D * ten) by ring.
      apply Z.mul_le_mono_nonneg_r; lia. }
  clearbody q ten. unfold of_ratio.
  destruct q as [|pq|pq]; [left; reflexivity | | lia].
  destruct ten as [|pd|pd]; try lia.
  rewrite <- HsH.
  apply (div_upper pq pd pH eH K); [lia | lia | exact HbH | exact HsH].
Qed.

Lemma between_hundred (x : float) :
  (x = S754_zero false \/
   exists (p : positive) (e : Z),
     x = S754_finite false p e /\ bounded prec emax p e = true /\
     scaled (Zpos p) e <= 100 * 2 ^ offset) ->
  between 0 100 x = true.
Proof.
  intros [-> | (p & e & -> & Hb & Hle)]; [reflexivity|].
  destruct scaled_hundred as (H100 & HbH & HsH & _).
  unfold between. rewrite H100. apply andb_true_iff. split; [reflexivity|].
  apply le_finite_pos; [apply bounded_canonical; exact Hb
                       | apply bounded_canonical; exact HbH
                       | rewrite HsH; exact Hle].
Qed.

(** [round(a / t * 100, 2)] is a percentage when [a] is a part of [t]. *)
Lemma rate_in_range (a t : Z) :
  0 <= a <= t -> 0 < t ->
  between 0 100 (round (mul (int_truediv a t) (of_int 100)) 2) = true.
Proof.
  intros Ha Ht.
  destruct scaled_hundred as (H100 & HbH & HsH & Hone).
  destruct t as [|pt|pt]; try lia.
  destruct a as [|pa|pa]; [reflexivity | | lia].
  unfold int_truediv, of_ratio.
  destruct (div_upper pa pt 4503599627370496 (-52) 1 ltac:(lia) ltac:(lia) eq_refl
              ltac:(rewrite Hone; lia))
    as [-> | (p1 & e1 & -> & Hb1 & Hle1)]; [reflexivity|].
  rewrite Hone in Hle1. rewrite H100.
  destruct (mul_le_one_upper p1 7036874417766400 e1 (-46) Hb1 Hle1 HbH ltac:(lia))
    as [-> | (p2 & e2 & -> & Hb2 & Hle2)]; [reflexivity|].
  rewrite HsH in Hle2.
  apply between_hundred.
  apply (round_decimals_upper p2 7036874417766400 e2 (-46) 2 100);
    [lia | lia | exact HbH | exact HsH | exact Hb2 | exact Hle2].
Qed.

Lemma count_le_everything (query : list (string * string)) (c : list dict) :
  count query c <= count [] c.
Proof.
  rewrite count_everything. unfold count.
  assert (H := filter_length_le (matches query) c). lia.
Qed.

(** X15: the approval rate of a returned summary is the int [0] on an
    empty collection, and otherwise a float between [0] and [100], both
    included: the division, the product and the rounding to two decimals
    are all done in binary64, and none of them takes the rate out of the
    range, however many documents there are. *)
Theorem approval_rate_is_a_percentage (rt : runtime) (w w' : world) (d : dict) :
  dashboard_summary rt w = (Return d, w') ->
  (collection w = [] /\ get "approval_rate_percent" d = Some (VInt 0)) \/
  (collection w <> [] /\
   exists x : float,
     get "approval_rate_percent" d = Some (VFloat x) /\ between 0 100 x = true).
Proof.
  intros Hrun.
  destruct (dashboard_summary_returns _ _ _ _ Hrun) as [-> _].
  unfold summary. cbn [get String.eqb Ascii.eqb Bool.eqb].
  assert (Hle := count_le_everything [("decision", "Approve")] (collection w)).
  assert (Hnn := count_nonneg [("decision", "Approve")] (collection w)).
  assert (Htotal := count_everything (collection w)).
  destruct (collection w) as [|doc c] eqn:Hc.
  - left. split; reflexivity.
  - right. split; [discriminate|].
    assert (Hpos : 0 < count [] (doc :: c)).
    { rewrite Htotal. cbn [List.length]. lia. }
    destruct (Z.ltb_spec 0 (count [] (doc :: c))) as [_|]; [|lia].
    eexists. split; [reflexivity|].
    apply rate_in_range; lia.
Qed.

Lemma approval_rate_is_a_percentage_witness :
  let w := snd (loop_body (stub_runtime lit_0_3)
                  (snd (score_transaction (stub_runtime lit_0_9) example_transaction
                          empty_world))) in
  exists x : float,
    get "approval_rate_percent"
      (match fst (dashboard_summary (stub_runtime lit_0_3) w) with
       | Return d => d | Raise _ => [] end)
    = Some (VFloat x) /\
    x = of_int 50 /\ between 0 100 x = true.
Proof.
  intros w.
  destruct (approval_rate_is_a_percentage (stub_runtime lit_0_3) w
              (snd (dashboard_summary (stub_runtime lit_0_3) w))
              (match fst (dashboard_summary (stub_runtime lit_0_3) w) with
               | Return d => d | Raise _ => [] end))
    as [[Hempty _] | (_ & x & Hget & Hrange)]; [vm_compute; reflexivity | |].
  - vm_compute in Hempty. discriminate Hempty.
  - exists x. split; [exact Hget|]. split; [|exact Hrange].
    vm_compute in Hget. injection Hget as <-. vm_compute. reflexivity.
Defined.

(** ** The rounded probability *)

(** A valid float between zero and one is a zero or a positive number of
    value at most one. *)
Lemma probability_cases (x : float) :
  valid x = true -> between 0 1 x = true ->
  (exists s, x = S754_zero s) \/
  exists (p : positive) (e : Z),
    x = S754_finite false p e /\ bounded prec emax p e = true /\
    scaled (Zpos p) e <= 2 ^ offset.
Proof.
  unfold between. intros Hvalid H.
  apply andb_true_iff in H. destruct H as [Hge Hle].
  destruct x as [s|s| |s p e].
  - left. exists s. reflexivity.
  - destruct s; [discriminate Hge | discriminate Hle].
  - discriminate Hge.
  - right. destruct s; [discriminate Hge|]. exists p, e.
    split; [reflexivity|]. split; [exact Hvalid|].
    destruct (bounded_facts _ _ Hvalid) as [Hcan _].
    destruct (canonical_facts _ _ Hcan) as (He & Hp & _).
    clear Hvalid Hge Hcan.
    change (of_int 1) with (S754_finite false 4503599627370496 (-52)) in Hle.
    unfold le, SFleb, SFcompare in Hle.
    pose proof offset_val as Hoff.
    assert (HA : 0 < 2 ^ (e + offset)) by (apply pow2_pos; plia).
    unfold scaled.
    destruct (Z.compare_spec e (-52)) as [Heq|Hlow|Hhigh]; [| |discriminate Hle].
    + pose proof (Pos.compare_spec p 4503599627370496) as Hc.
      unfold Pos.compare in Hc. revert Hle.
      destruct Hc as [Hc|Hc|Hc]; intros Hle; try discriminate Hle.
      * assert (Hp52 : Zpos p = 2 ^ 52)
          by (change (2 ^ 52) with (Zpos 4503599627370496); f_equal; exact Hc).
        clear Hc. rewrite Hp52, <- pow2_split by plia.
        apply pow2_le. plia.
      * assert (Hp52 : Zpos p < 2 ^ 52)
          by (change (2 ^ 52) with (Zpos 4503599627370496); exact Hc).
        clear Hc.
        apply Z.le_trans with (2 ^ 52 * 2 ^ (e + offset)).
        -- apply Z.mul_le_mono_nonneg_r; lia.
        -- rewrite <- pow2_split by plia. apply pow2_le. plia.
    + apply Z.le_trans with (2 ^ 53 * 2 ^ (e + offset)).
      * apply Z.mul_le_mono_nonneg_r; lia.
      * rewrite <- pow2_split by plia. apply pow2_le. plia.
Qed.

(** X16: when the classifier's fraud probability is a valid float between
    0 and 1, the [fraud_probability] that the handler returns and stores,
    rounded to four decimals, is again between 0 and 1: the rounding never
    takes a probability out of the unit interval. *)
Theorem rounded_probability_is_a_probability
  (rt : runtime) (t : TransactionInput) (w w' : world) (resp : dict) (p : float) :
  fraud_probability (model rt) (values (TransactionInput_dict t)) = Some p ->
  valid p = true ->
  between 0 1 p = true ->
  score_transaction rt t w = (Return resp, w') ->
  exists x : float,
    get "fraud_probability" resp = Some (VFloat x) /\
    between 0 1 x = true /\
    exists doc : dict,
      collection w' = collection w ++ [doc] /\
      get "fraud_probability" doc = Some (VFloat x).
Proof.
  intros Hp Hvalid Hrange Hrun.
  destruct (score_transaction_returns _ _ _ _ _ Hrun)
    as (p0 & tops & Hp0 & _ & _ & -> & ->).
  rewrite Hp in Hp0. injection Hp0 as <-.
  exists (round p 4). split; [reflexivity|].
  split; [|eexists; split; reflexivity].
  destruct scaled_hundred as (_ & _ & _ & Hone).
  destruct (probability_cases p Hvalid Hrange) as [[s ->] | (m & e & -> & Hb & Hle)].
  - destruct s; reflexivity.
  - destruct (round_decimals_upper m 4503599627370496 e (-52) 4 1
                ltac:(lia) ltac:(lia) eq_refl ltac:(rewrite Hone; lia) Hb
                ltac:(lia))
      as [-> | (p2 & e2 & -> & Hb2 & Hle2)]; [reflexivity|].
    unfold between. apply andb_true_iff. split; [reflexivity|].
    change (of_int 1) with (S754_finite false 4503599627370496 (-52)).
    apply le_finite_pos; [apply bounded_canonical; exact Hb2 | reflexivity |].
    rewrite Hone. lia.
Qed.

Lemma rounded_probability_is_a_probability_witness :
  let rt := stub_runtime lit_0_9 in
  exists x : float,
    get "fraud_probability"
      (match fst (score_transaction rt example_transaction empty_world) with
       | Return d => d | Raise _ => [] end)
    = Some (VFloat x) /\
    between 0 1 x = true.
Proof.
  intros rt.
  destruct (rounded_probability_is_a_probability rt example_transaction empty_world
              (snd (score_transaction rt example_transaction empty_world))
              (match fst (score_transaction rt example_transaction empty_world) with
               | Return d => d | Raise _ => [] end)
              lit_0_9)
    as (x & Hget & Hrange & _);
    [vm_compute; reflexivity | vm_compute; reflexivity | vm_compute; reflexivity
    | vm_compute; reflexivity |].
  exists x. split; [exact Hget | exact Hrange].
Defined.

(** ** What the background task leaves in the collection *)

Lemma generated_in_range (rt : runtime) (n : nat) :
  random_contract rt -> Forall (fun kv => in_range kv = true) (generated rt n).
Proof.
  intros Hdraws. unfold generated.
  apply Forall_cons; [exact (uniform_time _ (Hdraws _))|].
  do 28 (apply Forall_cons; [exact (uniform_v _ (Hdraws _))|]).
  apply Forall_cons; [exact (uniform_amount _ (Hdraws _))|].
  apply Forall_nil.
Qed.

(** X17: with a random source whose draws are floats of [[0, 1)], every
    document that the background task has stored (the documents without
    [top_risk_indicators]) in a collection reached from an empty one holds
    an [input] with the thirty fields whose values are within the
    generator's ranges: [Time] in [[0, 100000]], [Amount] in [[1, 10000]],
    the others in [[-5, 5]]. *)
Theorem background_records_in_range (rt : runtime) (w : world) :
  random_contract rt ->
  reachable rt w ->
  Forall (fun doc =>
            has_key "top_risk_indicators" doc = false ->
            exists input : fdict,
              get "input" doc = Some (to_value input) /\
              keys input = field_names /\
              Forall (fun kv => in_range kv = true) input)
         (collection w).
Proof.
  intros Hdraws Hreach.
  induction Hreach as [w Hempty | w w' _ IH Hstep].
  - rewrite Hempty. apply Forall_nil.
  - destruct Hstep as [t w|w|w|w].
    + destruct (score_transaction rt t w) as [[resp|e] w'] eqn:Hrun; cbn [snd].
      * destruct (score_transaction_returns _ _ _ _ _ Hrun)
          as (p & tops & _ & _ & _ & _ & ->).
        unfold after_insert; cbn [collection].
        apply Forall_app. split; [exact IH|].
        apply Forall_cons; [|apply Forall_nil].
        intros Habsent. discriminate Habsent.
      * rewrite (score_transaction_raise _ _ _ _ _ Hrun). exact IH.
    + rewrite get_transactions_run. cbv zeta.
      destruct (mongo_up rt (mongo_calls w)); exact IH.
    + destruct (dashboard_summary rt w) as [[d|e] w'] eqn:Hrun; cbn [snd].
      * rewrite (proj2 (dashboard_summary_returns _ _ _ _ Hrun)). exact IH.
      * rewrite (proj2 (dashboard_summary_raise _ _ _ _ Hrun)). exact IH.
    + destruct (loop_body rt w) as [[[]|e] w'] eqn:Hrun; cbn [snd].
      * destruct (loop_body_returns _ _ _ Hrun) as (p & _ & _ & ->).
        apply Forall_app. split; [exact IH|].
        apply Forall_cons; [|apply Forall_nil].
        intros _. exists (generated rt (random_calls w)).
        split; [reflexivity|]. split; [reflexivity|].
        apply generated_in_range. exact Hdraws.
      * rewrite (loop_body_raise _ _ _ _ Hrun). exact IH.
Qed.

Lemma background_records_in_range_witness :
  let rt := stub_runtime lit_0_5 in
  let w := snd (loop_body rt (snd (score_transaction rt example_transaction empty_world))) in
  List.length (collection w) = 2%nat /\
  Forall (fun doc =>
            has_key "top_risk_indicators" doc = false ->
            exists input : fdict,
              get "input" doc = Some (to_value input) /\
              keys input = field_names /\
              Forall (fun kv => in_range kv = true) input)
         (collection w).
Proof.
  intros rt w. split; [vm_compute; reflexivity|].
  apply (background_records_in_range rt w (stub_random_contract lit_0_5)).
  exact (reachable_step rt _ _
           (reachable_step rt _ _ (reachable_start rt empty_world eq_refl)
              (step_score rt example_transaction empty_world))
           (step_loop rt _)).
Defined.
